(** * Hackathon portal: a shallow embedding of [app.py]

    The Flask application is embedded as pure functions over an explicit
    row store (the SQLite tables), an explicit session dictionary and an
    explicit stream of random draws.  Every route handler takes the request
    and the current context and returns the new store, the new session,
    the flashed notices and the response.

    Conventions.
    - A Python [str] is a [string] that holds its UTF-8 encoding; where the
      program looks at characters ([str.split]) the string is decoded into
      its code points first.
    - A Python value that may be [None] is an [option].
    - [request.form] is a finite map from field names to strings, so that
      [request.form.get(k)] is the lookup [form !! k].
    - The Flask [session] is a finite map from keys to JSON scalars.  The
      notices passed to [flash] are returned next to it, as a list of their
      own: the session of this embedding holds the entries the program
      itself reads and writes, [user_id] and [is_admin].
    - A raised exception aborts the request: the transaction is rolled back
      and the response is the internal server error.
    - The only loop of the program, the retry loop of invite codes, runs on
      fuel; [None] as the result of a handler means that the fuel ran out. *)

From Stdlib Require Import String Ascii List Arith Lia.
From stdpp Require Import base option list sorting strings gmap.

Local Open Scope string_scope.

(** ** Python helpers *)

Module Py.

(** Truthiness of an optional string: [None] and [""] are falsy. *)
Definition truthy (v : option string) : bool :=
  match v with
  | None => false
  | Some s => negb (String.eqb s "")
  end.

(** [v == lit] for a value that may be [None]. *)
Definition eq_lit (v : option string) (lit : string) : bool :=
  match v with
  | None => false
  | Some s => String.eqb s lit
  end.

(** The code points of a [str], read off its UTF-8 encoding: one, two,
    three or four bytes per character.  A byte that starts no character
    (which the encoding of a [str] never holds) counts as a character of
    its own. *)
Definition cont (c : ascii) : N := (N_of_ascii c mod 64)%N.

Fixpoint decode (s : string) : list N :=
  match s with
  | EmptyString => []
  | String c1 s1 =>
      let b1 := N_of_ascii c1 in
      match s1 with
      | String c2 s2 =>
          if ((192 <=? b1) && (b1 <? 224))%N
          then ((b1 - 192) * 64 + cont c2)%N :: decode s2
          else
            match s2 with
            | String c3 s3 =>
                if ((224 <=? b1) && (b1 <? 240))%N
                then ((b1 - 224) * 4096 + cont c2 * 64 + cont c3)%N
                     :: decode s3
                else
                  match s3 with
                  | String c4 s4 =>
                      if (240 <=? b1)%N
                      then ((b1 - 240) * 262144 + cont c2 * 4096
                            + cont c3 * 64 + cont c4)%N :: decode s4
                      else b1 :: decode s1
                  | EmptyString => b1 :: decode s1
                  end
            | EmptyString => b1 :: decode s1
            end
      | EmptyString => [b1]
      end
  end.

(** The UTF-8 encoding of one code point, and of a sequence of them. *)
Definition encode (cp : N) : string :=
  if (cp <? 128)%N then String (ascii_of_N cp) ""
  else if (cp <? 2048)%N then
    String (ascii_of_N (192 + cp / 64))
      (String (ascii_of_N (128 + cp mod 64)) "")
  else if (cp <? 65536)%N then
    String (ascii_of_N (224 + cp / 4096))
      (String (ascii_of_N (128 + (cp / 64) mod 64))
         (String (ascii_of_N (128 + cp mod 64)) ""))
  else
    String (ascii_of_N (240 + cp / 262144))
      (String (ascii_of_N (128 + (cp / 4096) mod 64))
         (String (ascii_of_N (128 + (cp / 64) mod 64))
            (String (ascii_of_N (128 + cp mod 64)) ""))).

Definition encode_str (cps : list N) : string :=
  foldr (fun cp s => encode cp ++ s) "" cps.

(** The whitespace of [str.split()] and [str.isspace]: TAB..CR, FS..US,
    space, NEL, the non-breaking space, U+1680, U+2000..U+200A, U+2028,
    U+2029, U+202F, U+205F and U+3000. *)
Definition isspace (cp : N) : bool :=
  (((9 <=? cp) && (cp <=? 13)) || ((28 <=? cp) && (cp <=? 32))
   || (cp =? 133) || (cp =? 160) || (cp =? 5760)
   || ((8192 <=? cp) && (cp <=? 8202)) || (cp =? 8232) || (cp =? 8233)
   || (cp =? 8239) || (cp =? 8287) || (cp =? 12288))%N.

(** [str.split()] with no separator, on code points: runs of whitespace
    separate the tokens, and leading and trailing whitespace yields no
    empty token.  [cur] is the token being read. *)
Fixpoint split_from (cur : list N) (cps : list N) : list (list N) :=
  match cps with
  | [] => match cur with [] => [] | _ :: _ => [cur] end
  | cp :: cps' =>
      if isspace cp
      then match cur with
           | [] => split_from [] cps'
           | _ :: _ => cur :: split_from [] cps'
           end
      else split_from (cur ++ [cp]) cps'
  end.

Definition split (s : string) : list string :=
  map encode_str (split_from [] (decode s)).

(** [string.ascii_uppercase] and [string.digits]. *)
Definition ascii_uppercase : string := "ABCDEFGHIJKLMNOPQRSTUVWXYZ".
Definition digits : string := "0123456789".

(** The source of randomness: an endless sequence of draws and the
    position of the next one. *)
Record rng := mk_rng
  { draws : nat -> nat;
    pos : nat }.

Definition next_draw (g : rng) : nat * rng :=
  (draws g (pos g), mk_rng (draws g) (S (pos g))).

(** [random.choice(seq)]: one draw picks one position of [seq]. *)
Definition choice (chars : string) (g : rng) : ascii * rng :=
  let '(r, g') := next_draw g in
  (nth (r mod String.length chars) (list_ascii_of_string chars) "000"%char,
   g').

(** [[random.choice(chars) for _ in range(n)]], drawn left to right. *)
Fixpoint choices (n : nat) (chars : string) (g : rng) : list ascii * rng :=
  match n with
  | 0 => ([], g)
  | S n' =>
      let '(ch, g1) := choice chars g in
      let '(rest, g2) := choices n' chars g1 in
      (ch :: rest, g2)
  end.

End Py.

(** ** Database models *)

Module Team.
Record t := mk
  { id : nat;
    team_name : string;
    invite_code : string;
    created_by : option nat }.
End Team.

Module User.
Record t := mk
  { id : nat;
    name : string;
    email : string;
    phone : string;
    college : string;
    password_hash : string;
    team_id : option nat }.
End User.

Module Submission.
Record t := mk
  { id : nat;
    title : string;
    description : string;
    github : string;
    video : string;
    user_id : nat }.
End Submission.

Module Feedback.
Record t := mk
  { id : nat;
    text : string;
    rating : string;
    user_id : option nat }.
End Feedback.

Module Sponsor.
Record t := mk
  { id : nat;
    name : string;
    tier : string;
    link : option string }.
End Sponsor.

Module LiveUpdate.
Record t := mk { id : nat; text : string }.
End LiveUpdate.

Module Notification.
Record t := mk { id : nat; text : string }.
End Notification.

(** The store: one list of rows per table, in insertion order. *)
Record Store := mkStore
  { teams : list Team.t;
    users : list User.t;
    submissions : list Submission.t;
    feedbacks : list Feedback.t;
    sponsors : list Sponsor.t;
    live_updates : list LiveUpdate.t;
    notifications : list Notification.t }.

(** [db.create_all()] on a fresh database file. *)
Definition empty_store : Store := mkStore [] [] [] [] [] [] [].

(** The integer primary key of a new row: one more than the largest key
    of the table, 1 on an empty table. *)
Definition next_id (ids : list nat) : nat := S (foldr Nat.max 0 ids).

(** ** Sessions, requests and responses *)

(** The values the program keeps in the session: [user.id] and [True]. *)
Inductive sval :=
| VInt (n : nat)
| VBool (b : bool).

(** Python truthiness of a session value. *)
Definition sval_truthy (v : sval) : bool :=
  match v with
  | VInt n => negb (n =? 0)%nat
  | VBool b => b
  end.

(** A session value used as an integer key ([bool] is a subclass of [int]). *)
Definition sval_int (v : sval) : nat :=
  match v with
  | VInt n => n
  | VBool b => if b then 1 else 0
  end.

Inductive method := GET | POST.

(** The view functions that [url_for] is asked for. *)
Inductive endpoint :=
| ep_home
| ep_login
| ep_register
| ep_dashboard
| ep_feedback
| ep_admin_login
| ep_admin_dashboard.

(** The templates, each with the variables it is rendered with. *)
Inductive page :=
| index_html (total_users total_teams total_submissions : nat)
    (top_submissions : list Submission.t)
| register_html
| login_html
| dashboard_html (user : User.t) (team : option Team.t)
    (team_members : list User.t) (submission : option Submission.t)
    (sponsors : list Sponsor.t) (live_updates : list LiveUpdate.t)
    (notifications : list Notification.t)
| submit_html
| feedback_html (feedbacks : list Feedback.t)
| sponsors_html (sponsors : list Sponsor.t)
| faq_html
| leaderboard_html (submissions : list Submission.t)
| admin_login_html
| admin_dashboard_html (updates : list LiveUpdate.t)
    (notifications : list Notification.t)
| admin_teams_html (teams : list Team.t).

Inductive response :=
| Redirect (target : endpoint)
| Render (p : page)
| NotFound
| InternalServerError.

(** What a handler runs in: the committed store and the client's session. *)
Record Ctx := mkCtx
  { db : Store;
    session : gmap string sval }.

(** What a handler leaves behind.  [r_flashes] lists the (message,
    category) pairs passed to [flash] during the request, in call order. *)
Record Result := mkResult
  { r_db : Store;
    r_session : gmap string sval;
    r_flashes : list (string * string);
    r_response : response }.

Definition redirect (st : Store) (sess : gmap string sval)
    (fl : list (string * string)) (target : endpoint) : Result :=
  mkResult st sess fl (Redirect target).

Definition render_template (c : Ctx) (p : page) : Result :=
  mkResult (db c) (session c) [] (Render p).

(** An uncaught exception: nothing is committed, nothing is flashed. *)
Definition abort (c : Ctx) : Result :=
  mkResult (db c) (session c) [] InternalServerError.

(** ** Queries *)

(** [Team.query.filter_by(invite_code=code).first()]; a [None] argument
    compares with NULL, which no row holds. *)
Definition team_by_invite_code (ts : list Team.t) (code : option string)
    : option Team.t :=
  match code with
  | None => None
  | Some c => find (fun t => String.eqb (Team.invite_code t) c) ts
  end.

(** [User.query.filter_by(email=email).first()]. *)
Definition user_by_email (us : list User.t) (email : option string)
    : option User.t :=
  match email with
  | None => None
  | Some e => find (fun u => String.eqb (User.email u) e) us
  end.

(** [User.query.get(id)]. *)
Definition user_get (us : list User.t) (id : nat) : option User.t :=
  find (fun u => (User.id u =? id)%nat) us.

(** [Team.query.get(id)], behind the [user.team] relationship. *)
Definition team_get (ts : list Team.t) (id : nat) : option Team.t :=
  find (fun t => (Team.id t =? id)%nat) ts.

(** [Submission.query.filter_by(user_id=uid).first()]. *)
Definition submission_by_user (ss : list Submission.t) (uid : nat)
    : option Submission.t :=
  find (fun s => (Submission.user_id s =? uid)%nat) ss.

(** [Feedback.query.filter_by(user_id=uid)]. *)
Definition feedback_of_user (uid : nat) (f : Feedback.t) : bool :=
  match Feedback.user_id f with
  | Some u => (u =? uid)%nat
  | None => false
  end.

(** [.order_by(Model.id.desc())] and [.order_by(Model.id.asc())]. *)
Definition order_by_id_desc {A} (key : A -> nat) (rows : list A) : list A :=
  @merge_sort A (fun a b => key b <= key a)
    (fun a b => decide (key b <= key a)) rows.

Definition order_by_id_asc {A} (key : A -> nat) (rows : list A) : list A :=
  @merge_sort A (fun a b => key a <= key b)
    (fun a b => decide (key a <= key b)) rows.

(** ** Helper functions of the application *)

Definition chars : string := Py.ascii_uppercase ++ Py.digits.

(** [generate_invite_code]: six draws from [chars], joined. *)
Definition generate_invite_code (g : Py.rng) : string * Py.rng :=
  let '(picked, g') := Py.choices 6 chars g in
  (string_of_list_ascii picked, g').

(** [get_current_user]. *)
Definition get_current_user (c : Ctx) : option User.t :=
  match session c !! "user_id" with
  | Some v => user_get (users (db c)) (sval_int v)
  | None => None
  end.

Definition default_sponsors (first : nat) : list Sponsor.t :=
  [ Sponsor.mk first "Alpha Tech Solutions" "Gold" (Some "https://example.com");
    Sponsor.mk (1 + first) "Beta Cloud Services" "Silver"
      (Some "https://example.com");
    Sponsor.mk (2 + first) "CodeCraft Academy" "Bronze"
      (Some "https://example.com") ].

(** [seed_sponsors]: the three defaults go in when the table is empty. *)
Definition seed_sponsors (st : Store) : Store :=
  if (length (sponsors st) =? 0)%nat
  then mkStore (teams st) (users st) (submissions st) (feedbacks st)
         (sponsors st ++ default_sponsors (next_id (map Sponsor.id (sponsors st))))
         (live_updates st) (notifications st)
  else st.

(** [session.get("is_admin")], as a truth value. *)
Definition is_admin (sess : gmap string sval) : bool :=
  match sess !! "is_admin" with
  | Some v => sval_truthy v
  | None => false
  end.

(** [require_admin]: the answer and the notice flashed on refusal. *)
Definition require_admin (sess : gmap string sval)
    : bool * list (string * string) :=
  if negb (is_admin sess)
  then (false, [("Admin access required.", "error")])
  else (true, []).

(** ** The storage layer

    Writes go through the constraints the models declare: a column that is
    [nullable=False] refuses [None], a [unique=True] column refuses a value
    some row already holds.  [None] is the [IntegrityError]. *)

Definition set_teams (st : Store) (ts : list Team.t) : Store :=
  mkStore ts (users st) (submissions st) (feedbacks st) (sponsors st)
    (live_updates st) (notifications st).

Definition set_users (st : Store) (us : list User.t) : Store :=
  mkStore (teams st) us (submissions st) (feedbacks st) (sponsors st)
    (live_updates st) (notifications st).

Definition set_submissions (st : Store) (ss : list Submission.t) : Store :=
  mkStore (teams st) (users st) ss (feedbacks st) (sponsors st)
    (live_updates st) (notifications st).

Definition set_feedbacks (st : Store) (fs : list Feedback.t) : Store :=
  mkStore (teams st) (users st) (submissions st) fs (sponsors st)
    (live_updates st) (notifications st).

Definition set_live_updates (st : Store) (ls : list LiveUpdate.t) : Store :=
  mkStore (teams st) (users st) (submissions st) (feedbacks st) (sponsors st)
    ls (notifications st).

Definition set_notifications (st : Store) (ns : list Notification.t) : Store :=
  mkStore (teams st) (users st) (submissions st) (feedbacks st) (sponsors st)
    (live_updates st) ns.

(** [db.session.add(Team(team_name=.., invite_code=..)); db.session.flush()]:
    the new row comes back with its key. *)
Definition insert_team (st : Store) (team_name code : string)
    : option (Store * Team.t) :=
  if team_by_invite_code (teams st) (Some code) is Some _ then None
  else
    let t := Team.mk (next_id (map Team.id (teams st))) team_name code None in
    Some (set_teams st (teams st ++ [t]), t).

Definition insert_user (st : Store) (name email phone college : option string)
    (password_hash : string) (team_id : option nat) : option Store :=
  match name, email, phone, college with
  | Some n, Some e, Some p, Some co =>
      if user_by_email (users st) (Some e) is Some _ then None
      else
        let u := User.mk (next_id (map User.id (users st))) n e p co
                   password_hash team_id in
        Some (set_users st (users st ++ [u]))
  | _, _, _, _ => None
  end.

Definition insert_submission (st : Store)
    (title desc github video : option string) (uid : nat) : option Store :=
  match title, desc, github, video with
  | Some t, Some d, Some g, Some v =>
      let s := Submission.mk (next_id (map Submission.id (submissions st)))
                 t d g v uid in
      Some (set_submissions st (submissions st ++ [s]))
  | _, _, _, _ => None
  end.

(** The UPDATE of the row with key [id]: every other column is kept. *)
Definition update_submission (st : Store) (id : nat)
    (title desc github video : option string) : option Store :=
  match title, desc, github, video with
  | Some t, Some d, Some g, Some v =>
      Some (set_submissions st
              (map (fun s =>
                      if (Submission.id s =? id)%nat
                      then Submission.mk (Submission.id s) t d g v
                             (Submission.user_id s)
                      else s)
                 (submissions st)))
  | _, _, _, _ => None
  end.

Definition insert_feedback (st : Store) (text rating : option string)
    (uid : nat) : option Store :=
  match text, rating with
  | Some t, Some r =>
      let f := Feedback.mk (next_id (map Feedback.id (feedbacks st))) t r
                 (Some uid) in
      Some (set_feedbacks st (feedbacks st ++ [f]))
  | _, _ => None
  end.

Definition insert_live_update (st : Store) (text : string) : Store :=
  set_live_updates st
    (live_updates st
     ++ [LiveUpdate.mk (next_id (map LiveUpdate.id (live_updates st))) text]).

Definition insert_notification (st : Store) (text : string) : Store :=
  set_notifications st
    (notifications st
     ++ [Notification.mk (next_id (map Notification.id (notifications st)))
           text]).

Definition delete_live_update (st : Store) (id : nat) : Store :=
  set_live_updates st
    (filter (fun l => LiveUpdate.id l <> id) (live_updates st)).

Definition delete_notification (st : Store) (id : nat) : Store :=
  set_notifications st
    (filter (fun n => Notification.id n <> id) (notifications st)).

(** ** The retry loop of [register]

    [while Team.query.filter_by(invite_code=code).first():
         code = generate_invite_code()]
    One unit of fuel pays for one test of the loop condition. *)
Fixpoint retry_while_taken (fuel : nat) (ts : list Team.t) (code : string)
    (g : Py.rng) : option (string * Py.rng) :=
  match fuel with
  | 0 => None
  | S fuel' =>
      if team_by_invite_code ts (Some code) is Some _
      then let '(code', g') := generate_invite_code g in
           retry_while_taken fuel' ts code' g'
      else Some (code, g)
  end.

(** The first draw, then the loop. *)
Definition unique_invite_code (fuel : nat) (ts : list Team.t) (g : Py.rng)
    : option (string * Py.rng) :=
  let '(code, g') := generate_invite_code g in
  retry_while_taken fuel ts code g'.

(** [if not team_name: team_name = f"Team-{name.split()[0]}"]; [None] when
    the fallback raises (no [name] field, or a name without a token). *)
Definition resolve_team_name (team_name name : option string)
    : option string :=
  if negb (Py.truthy team_name)
  then match name with
       | None => None
       | Some n =>
           match Py.split n with
           | [] => None
           | tok :: _ => Some ("Team-" ++ tok)
           end
       end
  else team_name.

(** ** Route handlers *)

Section Routes.

(** werkzeug's password hashing, kept opaque. *)
Variable generate_password_hash : string -> string.
Variable check_password_hash : string -> string -> bool.

Definition home (c : Ctx) : Result :=
  let total_users := length (users (db c)) in
  let total_teams := length (teams (db c)) in
  let total_submissions := length (submissions (db c)) in
  let top_submissions :=
    take 3 (order_by_id_asc Submission.id (submissions (db c))) in
  render_template c
    (index_html total_users total_teams total_submissions top_submissions).

Definition register (fuel : nat) (g : Py.rng) (m : method)
    (form : gmap string string) (c : Ctx) : option Result :=
  match m with
  | POST =>
      let name := form !! "name" in
      let email := form !! "email" in
      let phone := form !! "phone" in
      let college := form !! "college" in
      let password := form !! "password" in
      let team_choice := form !! "teamChoice" in
      let team_name := form !! "teamName" in
      let invite_code := form !! "inviteCode" in
      if user_by_email (users (db c)) email is Some _ then
        Some (redirect (db c) (session c)
                [("Email already registered. Please login.", "error")]
                ep_login)
      else
        match password with
        | None => Some (abort c)
        | Some pw =>
            let password_hash := generate_password_hash pw in
            (* db.session.add(user); db.session.commit(); flash; redirect *)
            let commit_user (st : Store) (team_id : option nat) :=
              match insert_user st name email phone college password_hash
                      team_id with
              | None => abort c
              | Some st' =>
                  redirect st' (session c)
                    [("Registration successful. Please login.", "success")]
                    ep_login
              end in
            if Py.eq_lit team_choice "create" then
              match resolve_team_name team_name name with
              | None => Some (abort c)
              | Some team_name =>
                  match unique_invite_code fuel (teams (db c)) g with
                  | None => None
                  | Some (code, _) =>
                      match insert_team (db c) team_name code with
                      | None => Some (abort c)
                      | Some (st1, new_team) =>
                          Some (commit_user st1 (Some (Team.id new_team)))
                      end
                  end
              end
            else if Py.eq_lit team_choice "join" then
              match team_by_invite_code (teams (db c)) invite_code with
              | None =>
                  Some (redirect (db c) (session c)
                          [("Invalid invite code!", "error")] ep_register)
              | Some team => Some (commit_user (db c) (Some (Team.id team)))
              end
            else Some (commit_user (db c) None)
        end
  | GET => Some (render_template c register_html)
  end.

Definition login (m : method) (form : gmap string string) (c : Ctx)
    : Result :=
  match m with
  | POST =>
      let email := form !! "email" in
      let password := form !! "password" in
      match user_by_email (users (db c)) email with
      | Some user =>
          match password with
          | None => abort c
          | Some pw =>
              if check_password_hash (User.password_hash user) pw
              then redirect (db c)
                     (<["user_id" := VInt (User.id user)]> (session c))
                     [("Logged in successfully!", "success")] ep_dashboard
              else mkResult (db c) (session c)
                     [("Invalid email or password.", "error")]
                     (Render login_html)
          end
      | None =>
          mkResult (db c) (session c)
            [("Invalid email or password.", "error")] (Render login_html)
      end
  | GET => render_template c login_html
  end.

(** [session.clear()]. *)
Definition logout (c : Ctx) : Result :=
  redirect (db c) ∅ [("Logged out.", "info")] ep_home.

Definition dashboard (c : Ctx) : Result :=
  match get_current_user c with
  | None =>
      redirect (db c) (session c)
        [("Please login to access dashboard.", "error")] ep_login
  | Some user =>
      let team :=
        match User.team_id user with
        | Some tid => team_get (teams (db c)) tid
        | None => None
        end in
      let team_members :=
        match team with
        | Some t =>
            filter (fun u => User.team_id u = Some (Team.id t)) (users (db c))
        | None => []
        end in
      let submission :=
        submission_by_user (submissions (db c)) (User.id user) in
      let st := seed_sponsors (db c) in
      mkResult st (session c) []
        (Render
           (dashboard_html user team team_members submission (sponsors st)
              (order_by_id_desc LiveUpdate.id (live_updates st))
              (order_by_id_desc Notification.id (notifications st))))
  end.

Definition submit (m : method) (form : gmap string string) (c : Ctx)
    : Result :=
  match get_current_user c with
  | None =>
      redirect (db c) (session c) [("Please login to submit.", "error")]
        ep_login
  | Some user =>
      match m with
      | POST =>
          let title := form !! "title" in
          let desc := form !! "desc" in
          let github := form !! "github" in
          let video := form !! "video" in
          let saved :=
            match submission_by_user (submissions (db c)) (User.id user) with
            | None =>
                insert_submission (db c) title desc github video
                  (User.id user)
            | Some sub =>
                update_submission (db c) (Submission.id sub) title desc
                  github video
            end in
          match saved with
          | None => abort c
          | Some st =>
              redirect st (session c) [("Submission saved!", "success")]
                ep_dashboard
          end
      | GET => render_template c submit_html
      end
  end.

Definition feedback (m : method) (form : gmap string string) (c : Ctx)
    : Result :=
  let user := get_current_user c in
  match m with
  | POST =>
      match user with
      | None =>
          redirect (db c) (session c)
            [("Login required to give feedback.", "error")] ep_login
      | Some u =>
          let text := form !! "text" in
          let rating := form !! "rating" in
          match insert_feedback (db c) text rating (User.id u) with
          | None => abort c
          | Some st =>
              redirect st (session c)
                [("Thank you for your feedback!", "success")] ep_feedback
          end
      end
  | GET =>
      let feedbacks :=
        match user with
        | Some u =>
            order_by_id_desc Feedback.id
              (List.filter (feedback_of_user (User.id u)) (feedbacks (db c)))
        | None => []
        end in
      render_template c (feedback_html feedbacks)
  end.

Definition sponsors_page (c : Ctx) : Result :=
  let st := seed_sponsors (db c) in
  mkResult st (session c) [] (Render (sponsors_html (sponsors st))).

Definition faq (c : Ctx) : Result := render_template c faq_html.

Definition leaderboard (c : Ctx) : Result :=
  render_template c
    (leaderboard_html (order_by_id_asc Submission.id (submissions (db c)))).

Definition ADMIN_EMAIL : string := "admin@hackathon.com".
Definition ADMIN_PASSWORD : string := "admin123".

Definition admin_login (m : method) (form : gmap string string) (c : Ctx)
    : Result :=
  match m with
  | POST =>
      let email := form !! "email" in
      let password := form !! "password" in
      if Py.eq_lit email ADMIN_EMAIL && Py.eq_lit password ADMIN_PASSWORD
      then redirect (db c) (<["is_admin" := VBool true]> (session c))
             [("Admin login successful!", "success")] ep_admin_dashboard
      else mkResult (db c) (session c)
             [("Invalid admin credentials.", "error")]
             (Render admin_login_html)
  | GET => render_template c admin_login_html
  end.

(** [session.pop("is_admin", None)]. *)
Definition admin_logout (c : Ctx) : Result :=
  redirect (db c) (delete "is_admin" (session c))
    [("Admin logged out.", "info")] ep_admin_login.

(** The guard every admin route starts with. *)
Definition admin_only (c : Ctx) (body : Result) : Result :=
  let '(ok, fl) := require_admin (session c) in
  if negb ok then redirect (db c) (session c) fl ep_admin_login else body.

Definition admin_dashboard (c : Ctx) : Result :=
  admin_only c
    (render_template c
       (admin_dashboard_html
          (order_by_id_desc LiveUpdate.id (live_updates (db c)))
          (order_by_id_desc Notification.id (notifications (db c))))).

Definition admin_add_update (form : gmap string string) (c : Ctx) : Result :=
  admin_only c
    (let text := form !! "text" in
     let st :=
       match text with
       | Some t => if Py.truthy text then insert_live_update (db c) t else db c
       | None => db c
       end in
     redirect st (session c) [] ep_admin_dashboard).

Definition admin_add_notification (form : gmap string string) (c : Ctx)
    : Result :=
  admin_only c
    (let text := form !! "text" in
     let st :=
       match text with
       | Some t => if Py.truthy text then insert_notification (db c) t else db c
       | None => db c
       end in
     redirect st (session c) [] ep_admin_dashboard).

(** The [<int:id>] converter of the two delete routes accepts any run of
    digits, and [get_or_404] binds the number as a parameter of a SELECT.
    SQLite integers are 64-bit: the driver refuses a larger Python [int]
    with [OverflowError], which no handler catches. *)
Definition SQLITE_MAX_INT : N := 9223372036854775807%N.

Definition int_overflows (id : nat) : bool :=
  (SQLITE_MAX_INT <? N.of_nat id)%N.

(** [LiveUpdate.query.get_or_404(id)], then the delete. *)
Definition admin_delete_update (id : nat) (c : Ctx) : Result :=
  admin_only c
    (if int_overflows id then abort c
     else
       match find (fun l => (LiveUpdate.id l =? id)%nat)
               (live_updates (db c)) with
       | None => mkResult (db c) (session c) [] NotFound
       | Some item =>
           redirect (delete_live_update (db c) (LiveUpdate.id item))
             (session c) [] ep_admin_dashboard
       end).

Definition admin_delete_notification (id : nat) (c : Ctx) : Result :=
  admin_only c
    (if int_overflows id then abort c
     else
       match find (fun n => (Notification.id n =? id)%nat)
               (notifications (db c)) with
       | None => mkResult (db c) (session c) [] NotFound
       | Some item =>
           redirect (delete_notification (db c) (Notification.id item))
             (session c) [] ep_admin_dashboard
       end).

Definition admin_teams (c : Ctx) : Result :=
  admin_only c (render_template c (admin_teams_html (teams (db c)))).

(** ** The application as a transition system *)

Inductive request :=
| Req_home
| Req_register (m : method) (form : gmap string string)
| Req_login (m : method) (form : gmap string string)
| Req_logout
| Req_dashboard
| Req_submit (m : method) (form : gmap string string)
| Req_feedback (m : method) (form : gmap string string)
| Req_sponsors
| Req_faq
| Req_leaderboard
| Req_admin_login (m : method) (form : gmap string string)
| Req_admin_logout
| Req_admin_dashboard
| Req_admin_add_update (form : gmap string string)
| Req_admin_add_notification (form : gmap string string)
| Req_admin_delete_update (id : nat)
| Req_admin_delete_notification (id : nat)
| Req_admin_teams.

Definition handle (fuel : nat) (g : Py.rng) (rq : request) (c : Ctx)
    : option Result :=
  match rq with
  | Req_home => Some (home c)
  | Req_register m form => register fuel g m form c
  | Req_login m form => Some (login m form c)
  | Req_logout => Some (logout c)
  | Req_dashboard => Some (dashboard c)
  | Req_submit m form => Some (submit m form c)
  | Req_feedback m form => Some (feedback m form c)
  | Req_sponsors => Some (sponsors_page c)
  | Req_faq => Some (faq c)
  | Req_leaderboard => Some (leaderboard c)
  | Req_admin_login m form => Some (admin_login m form c)
  | Req_admin_logout => Some (admin_logout c)
  | Req_admin_dashboard => Some (admin_dashboard c)
  | Req_admin_add_update form => Some (admin_add_update form c)
  | Req_admin_add_notification form => Some (admin_add_notification form c)
  | Req_admin_delete_update id => Some (admin_delete_update id c)
  | Req_admin_delete_notification id => Some (admin_delete_notification id c)
  | Req_admin_teams => Some (admin_teams c)
  end.

(** The stores the application can be in: the empty tables of
    [db.create_all()], and whatever a request of any client, with any
    session and any draws, leaves committed. *)
Inductive reachable : Store -> Prop :=
| reachable_init : reachable empty_store
| reachable_step st sess fuel g rq r :
    reachable st ->
    handle fuel g rq (mkCtx st sess) = Some r ->
    reachable (r_db r).

End Routes.

(** * Specification vocabulary *)

(** A character of {A-Z, 0-9}, read off its code point. *)
Definition upper_or_digit (c : ascii) : bool :=
  let n := nat_of_ascii c in
  (((65 <=? n) && (n <=? 90)) || ((48 <=? n) && (n <=? 57)))%nat.

(** A well-formed invite code: six characters of {A-Z, 0-9}. *)
Definition valid_code (code : string) : Prop :=
  String.length code = 6
  /\ Forall (fun ch => upper_or_digit ch = true) (list_ascii_of_string code).

(** The invariant of the Team table. *)
Definition invite_codes_ok (st : Store) : Prop :=
  Forall (fun t => valid_code (Team.invite_code t)) (teams st)
  /\ NoDup (map Team.invite_code (teams st)).

(** Keys grow along a table: the newest row is the last one. *)
Definition ascending (ids : list nat) : Prop := StronglySorted lt ids.

(** What the rest of the development needs of a store: the Team invariant,
    at most one submission per user, and growing keys. *)
Record store_ok (st : Store) : Prop := mk_store_ok
  { ok_codes : invite_codes_ok st;
    ok_team_ids : ascending (map Team.id (teams st));
    ok_one_submission : NoDup (map Submission.user_id (submissions st));
    ok_submission_ids : ascending (map Submission.id (submissions st));
    ok_feedback_ids : ascending (map Feedback.id (feedbacks st)) }.

(** The candidate code of the [k]-th retry ([k = 0]: the first draw). *)
Definition candidate (g : Py.rng) (k : nat) : string :=
  fst (generate_invite_code (Py.mk_rng (Py.draws g) (6 * k + Py.pos g))).

(** The context a request leaves for the next request of the same client. *)
Definition next_ctx (r : Result) : Ctx := mkCtx (r_db r) (r_session r).

(** Requests served one after the other, each under the session of the
    client that sends it, with its fuel and its draws; the store of one is
    handed to the next. *)
Fixpoint run (hash : string -> string) (check : string -> string -> bool)
    (reqs : list (gmap string sval * nat * Py.rng * request)) (st : Store)
    : option Store :=
  match reqs with
  | [] => Some st
  | (sess, fuel, g, rq) :: reqs' =>
      match handle hash check fuel g rq (mkCtx st sess) with
      | Some r => run hash check reqs' (r_db r)
      | None => None
      end
  end.



Definition submissions_of (uid : nat) (st : Store) : list Submission.t :=
  List.filter (fun s => (Submission.user_id s =? uid)%nat) (submissions st).

(** The first token of a name, said without the algorithm: among the
    code points of the name it follows a run of whitespace, is not empty,
    holds no whitespace, and ends at the end of the name or before a
    whitespace character; the token is its encoding, and in a name that is
    well-formed UTF-8 it stands between the encodings of what is in front
    of it and what follows. *)
Definition all_points (p : N -> bool) (cps : list N) : Prop :=
  Forall (fun cp => p cp = true) cps.

Definition is_first_token (s tok : string) : Prop :=
  exists pre t post,
    Py.decode s = (pre ++ t ++ post)%list
    /\ all_points Py.isspace pre
    /\ t <> []
    /\ all_points (fun cp => negb (Py.isspace cp)) t
    /\ (post = []
        \/ exists cp post', post = cp :: post' /\ Py.isspace cp = true)
    /\ tok = Py.encode_str t
    /\ (Py.encode_str (Py.decode s) = s ->
        s = Py.encode_str pre ++ tok ++ Py.encode_str post).

(** The notices the handlers flash. *)
Definition msg_duplicate_email : string * string :=
  ("Email already registered. Please login.", "error").
Definition msg_invalid_code : string * string :=
  ("Invalid invite code!", "error").
Definition msg_registered : string * string :=
  ("Registration successful. Please login.", "success").
Definition msg_saved : string * string := ("Submission saved!", "success").
Definition msg_login_required : string * string :=
  ("Login required to give feedback.", "error").

(** The form of a submit POST that carries the four fields. *)
Definition submit_form_has (form : gmap string string) (t d gh v : string)
    : Prop :=
  form !! "title" = Some t /\ form !! "desc" = Some d
  /\ form !! "github" = Some gh /\ form !! "video" = Some v.

(** The UPDATE, on the rows. *)
Definition overwrite (id : nat) (t d gh v : string) (s : Submission.t)
    : Submission.t :=
  if (Submission.id s =? id)%nat
  then Submission.mk (Submission.id s) t d gh v (Submission.user_id s)
  else s.

(** The form of a feedback POST that carries both fields. *)
Definition feedback_form_ok (form : gmap string string) : Prop :=
  is_Some (form !! "text") /\ is_Some (form !! "rating").



(** References between the tables: keys of users grow, no two users share
    an email, and every foreign key that is set names a row that exists. *)
Record integrity (st : Store) : Prop := mk_integrity
  { int_user_ids : ascending (map User.id (users st));
    int_emails : NoDup (map User.email (users st));
    int_user_team :
      forall u tid,
        In u (users st) -> User.team_id u = Some tid ->
        In tid (map Team.id (teams st));
    int_submission_owner :
      forall s,
        In s (submissions st) ->
        In (Submission.user_id s) (map User.id (users st));
    int_feedback_owner :
      forall f uid,
        In f (feedbacks st) -> Feedback.user_id f = Some uid ->
        In uid (map User.id (users st)) }.

(** The members of a team, as the dashboard selects them. *)
Definition members_of (tid : nat) (st : Store) : list User.t :=
  filter (fun u => User.team_id u = Some tid) (users st).

(** The routes behind the admin gate. *)
Definition admin_route (rq : request) : bool :=
  match rq with
  | Req_admin_dashboard | Req_admin_add_update _
  | Req_admin_add_notification _ | Req_admin_delete_update _
  | Req_admin_delete_notification _ | Req_admin_teams => true
  | _ => false
  end.

(** The form of a registration POST that carries the five fields every
    path needs. *)
Definition register_form_has (form : gmap string string)
    (n e p co pw : string) : Prop :=
  form !! "name" = Some n /\ form !! "email" = Some e
  /\ form !! "phone" = Some p /\ form !! "college" = Some co
  /\ form !! "password" = Some pw.

(** The User row a registration adds, for the hashing in use. *)
Definition new_user (hash : string -> string) (st : Store)
    (form : gmap string string) (pw : string) (tid : option nat)
    (u : User.t) : Prop :=
  Some (User.name u) = form !! "name"
  /\ Some (User.email u) = form !! "email"
  /\ Some (User.phone u) = form !! "phone"
  /\ Some (User.college u) = form !! "college"
  /\ User.id u = next_id (map User.id (users st))
  /\ User.password_hash u = hash pw
  /\ User.team_id u = tid.

Definition msg_admin_required : string * string :=
  ("Admin access required.", "error").
Definition msg_logged_in : string * string :=
  ("Logged in successfully!", "success").
Definition msg_invalid_login : string * string :=
  ("Invalid email or password.", "error").
Definition msg_admin_ok : string * string :=
  ("Admin login successful!", "success").
Definition msg_login_dashboard : string * string :=
  ("Please login to access dashboard.", "error").
Definition msg_login_submit : string * string :=
  ("Please login to submit.", "error").

(** What one request can do to the store: nothing, the seeding of the
    sponsors, one registration, one write of the current user's submission
    or feedback, or one change of a board by an admin. *)
Inductive effect (c : Ctx) : Store -> Prop :=
| eff_none : effect c (db c)
| eff_seed : effect c (seed_sponsors (db c))
| eff_register st1 u :
    st1 = db c
    \/ (exists t,
          st1 = set_teams (db c) (teams (db c) ++ [t])
          /\ User.team_id u = Some (Team.id t)
          /\ Team.created_by t = None) ->
    effect c (set_users st1 (users (db c) ++ [u]))
| eff_insert_submission u row :
    get_current_user c = Some u ->
    submission_by_user (submissions (db c)) (User.id u) = None ->
    Submission.user_id row = User.id u ->
    Submission.id row = next_id (map Submission.id (submissions (db c))) ->
    effect c (set_submissions (db c) (submissions (db c) ++ [row]))
| eff_update_submission u sub t d gh v :
    get_current_user c = Some u ->
    submission_by_user (submissions (db c)) (User.id u) = Some sub ->
    effect c
      (set_submissions (db c)
         (map (overwrite (Submission.id sub) t d gh v) (submissions (db c))))
| eff_feedback u f :
    get_current_user c = Some u ->
    Feedback.user_id f = Some (User.id u) ->
    effect c (set_feedbacks (db c) (feedbacks (db c) ++ [f]))
| eff_add_update text :
    is_admin (session c) = true ->
    effect c (insert_live_update (db c) text)
| eff_delete_update id :
    is_admin (session c) = true ->
    effect c (delete_live_update (db c) id)
| eff_add_notification text :
    is_admin (session c) = true ->
    effect c (insert_notification (db c) text)
| eff_delete_notification id :
    is_admin (session c) = true ->
    effect c (delete_notification (db c) id).

(** Keys grow along the two boards as well. *)
Definition boards_ok (st : Store) : Prop :=
  ascending (map LiveUpdate.id (live_updates st))
  /\ ascending (map Notification.id (notifications st)).

(** ** Data of the worked instances *)

(** A stand-in for werkzeug's hashing. *)
Definition demo_hash (pw : string) : string := "hash:" ++ pw.
Definition demo_check (h pw : string) : bool := String.eqb h (demo_hash pw).

(** Draws that always pick position 0 of [chars]: every code is AAAAAA. *)
Definition all_A : Py.rng := Py.mk_rng (fun _ => 0) 0.

(** Draws that always pick position 1: every code is BBBBBB. *)
Definition all_B : Py.rng := Py.mk_rng (fun _ => 1) 0.

(** [n] codes AAAAAA, then BBBBBB for ever. *)
Definition streak_of (n : nat) : Py.rng :=
  Py.mk_rng (fun i => if (i <? 6 * n)%nat then 0 else 1) 0.

(** Two codes AAAAAA, then BBBBBB for ever. *)
Definition streak : Py.rng := streak_of 2.

Definition ada_form : gmap string string :=
  list_to_map
    [("name", "Ada Lovelace"); ("email", "ada@x.com"); ("phone", "555-0100");
     ("college", "Analytical"); ("password", "engine");
     ("teamChoice", "create"); ("teamName", "")].

Definition ada_team : Team.t := Team.mk 1 "Team-Ada" "AAAAAA" None.

Definition ada_user : User.t :=
  User.mk 1 "Ada Lovelace" "ada@x.com" "555-0100" "Analytical" "hash:engine"
    (Some 1).

(** The store after Ada's registration on the empty store. *)
Definition ada_store : Store :=
  mkStore [ada_team] [ada_user] [] [] [] [] [].

(** Ada, logged in. *)
Definition ada_ctx : Ctx := mkCtx ada_store {["user_id" := VInt 1]}.

(** Somebody else tries to join with a code no team has. *)
Definition join_form (email : string) : gmap string string :=
  list_to_map
    [("name", "Charles Babbage"); ("email", email); ("phone", "555-0101");
     ("college", "Cambridge"); ("password", "difference");
     ("teamChoice", "join"); ("inviteCode", "ZZZZZZ")].

Definition submit_form (t d gh v : string) : gmap string string :=
  list_to_map [("title", t); ("desc", d); ("github", gh); ("video", v)].

Definition feedback_form (t r : string) : gmap string string :=
  list_to_map [("text", t); ("rating", r)].

Definition wrong_admin_form : gmap string string :=
  list_to_map [("email", "admin@hackathon.com"); ("password", "admin124")].

(** Ada logs in, an admin logs in, Charles joins Ada's team, and Grace
    registers without a team. *)
Definition ada_login_form : gmap string string :=
  list_to_map [("email", "ada@x.com"); ("password", "engine")].

Definition admin_form : gmap string string :=
  list_to_map [("email", "admin@hackathon.com"); ("password", "admin123")].


Definition charles_form : gmap string string :=
  list_to_map
    [("name", "Charles Babbage"); ("email", "charles@x.com");
     ("phone", "555-0101"); ("college", "Cambridge");
     ("password", "difference"); ("teamChoice", "join");
     ("inviteCode", "AAAAAA")].

Definition grace_form : gmap string string :=
  list_to_map
    [("name", "Grace Hopper"); ("email", "grace@x.com");
     ("phone", "555-0102"); ("college", "Vassar"); ("password", "cobol")].

Definition notice_form : gmap string string :=
  list_to_map [("text", "Lunch at noon")].

(** A portal in use.  After her registration Ada submits twice, Charles
    joins her team and submits, Ada leaves feedback, a visitor opens the
    sponsors page, and the admin posts a notice. *)
Definition busy_requests
    : list (gmap string sval * nat * Py.rng * request) :=
  [ ({["user_id" := VInt 1]}, 0, all_A,
     Req_submit POST (submit_form "v1" "draft" "git/1" "vid/1"));
    ({["user_id" := VInt 1]}, 0, all_A,
     Req_submit POST (submit_form "v2" "final" "git/2" "vid/2"));
    (∅, 0, all_A, Req_register POST charles_form);
    ({["user_id" := VInt 2]}, 0, all_A,
     Req_submit POST (submit_form "mill" "store" "git/3" "vid/3"));
    ({["user_id" := VInt 1]}, 0, all_A,
     Req_feedback POST (feedback_form "great" "5"));
    (∅, 0, all_A, Req_sponsors);
    ({["is_admin" := VBool true]}, 0, all_A,
     Req_admin_add_update notice_form) ].

Definition ada_submission : Submission.t :=
  Submission.mk 1 "v2" "final" "git/2" "vid/2" 1.

Definition charles_user : User.t :=
  User.mk 2 "Charles Babbage" "charles@x.com" "555-0101" "Cambridge"
    "hash:difference" (Some 1).

Definition charles_submission : Submission.t :=
  Submission.mk 2 "mill" "store" "git/3" "vid/3" 2.

Definition ada_feedback : Feedback.t := Feedback.mk 1 "great" "5" (Some 1).

Definition lunch_notice : LiveUpdate.t := LiveUpdate.mk 1 "Lunch at noon".

(** The store these requests leave. *)
Definition busy_store : Store :=
  mkStore [ada_team] [ada_user; charles_user]
    [ada_submission; charles_submission] [ada_feedback]
    (sponsors (seed_sponsors empty_store)) [lunch_notice] [].

Definition busy_admin_ctx : Ctx :=
  mkCtx busy_store {["is_admin" := VBool true]}.

(** Grace registers without a team at the portal in use. *)
Definition grace_user : User.t :=
  User.mk 3 "Grace Hopper" "grace@x.com" "555-0102" "Vassar" "hash:cobol"
    None.

Definition grace_store : Store :=
  mkStore (teams busy_store) (users busy_store ++ [grace_user])
    (submissions busy_store) (feedbacks busy_store) (sponsors busy_store)
    (live_updates busy_store) (notifications busy_store).

(** Ada's third version, and the store once she has sent it. *)
Definition ada_third_submission : Submission.t :=
  Submission.mk 1 "v3" "polished" "git/4" "vid/4" 1.

Definition resubmitted_store : Store :=
  mkStore (teams busy_store) (users busy_store)
    [ada_third_submission; charles_submission] (feedbacks busy_store)
    (sponsors busy_store) (live_updates busy_store)
    (notifications busy_store).

(** A key of the delete routes that no SQLite integer holds: [2^63]. *)
Definition too_large : nat := N.to_nat 9223372036854775808.

(** Ada, with an EM SPACE (U+2003, bytes E2 80 83) between her names. *)
Definition em_space_name : string :=
  "Ada" ++ String "226" (String "128" (String "131" "Lovelace")).

Definition ada_em_form : gmap string string :=
  <["name" := em_space_name]> ada_form.

(** * Session properties *)

Section SessionProperties.

Implicit Types (c : Ctx) (form : gmap string string).

Lemma is_admin_delete (sess : gmap string sval) :
  is_admin (delete "is_admin" sess) = false.
Proof. unfold is_admin. by rewrite lookup_delete_eq. Qed.

Lemma admin_only_refused c body :
  is_admin (session c) = false ->
  admin_only c body
  = redirect (db c) (session c) [("Admin access required.", "error")]
      ep_admin_login.
Proof. intros H. unfold admin_only, require_admin. by rewrite H. Qed.

Lemma admin_only_granted c body :
  is_admin (session c) = true -> admin_only c body = body.
Proof. intros H. unfold admin_only, require_admin. by rewrite H. Qed.

Lemma wrong_credentials_rejected form :
  ~ (form !! "email" = Some ADMIN_EMAIL
     /\ form !! "password" = Some ADMIN_PASSWORD) ->
  Py.eq_lit (form !! "email") ADMIN_EMAIL
  && Py.eq_lit (form !! "password") ADMIN_PASSWORD = false.
Proof.
  intros Hne. apply not_true_is_false. intros Heq.
  apply andb_true_iff in Heq as [He Hp]. apply Hne.
  unfold Py.eq_lit in He, Hp.
  destruct (form !! "email") as [e|]; [|done].
  destruct (form !! "password") as [p|]; [|done].
  apply String.eqb_eq in He, Hp. by subst.
Qed.

(** C9. A login attempt on [/admin/login] whose credential pair is not
    the configured one leaves the session as it was, so an unset admin
    flag stays unset; the attempt renders the login form again with the
    notice, and the next request to [/admin/dashboard] is answered by a
    redirect to [/admin/login]. *)
Theorem admin_login_wrong_credentials m form c :
  is_admin (session c) = false ->
  ~ (form !! "email" = Some ADMIN_EMAIL
     /\ form !! "password" = Some ADMIN_PASSWORD) ->
  let r := admin_login m form c in
  r_session r = session c
  /\ r_db r = db c
  /\ is_admin (r_session r) = false
  /\ r_response r = Render admin_login_html
  /\ (m = POST -> r_flashes r = [("Invalid admin credentials.", "error")])
  /\ r_response (admin_dashboard (next_ctx r)) = Redirect ep_admin_login
  /\ r_session (admin_dashboard (next_ctx r)) = session c.
Proof.
  intros Hunset Hwrong r.
  assert (Hr : r_session r = session c /\ r_db r = db c
               /\ r_response r = Render admin_login_html
               /\ (m = POST ->
                   r_flashes r = [("Invalid admin credentials.", "error")])).
  { subst r. unfold admin_login. destruct m; [done|].
    by rewrite (wrong_credentials_rejected form Hwrong). }
  destruct Hr as (Hs & Hd & Hresp & Hfl).
  assert (Hctx : is_admin (session (next_ctx r)) = false).
  { unfold next_ctx; simpl. by rewrite Hs. }
  split_and!; try done.
  - unfold admin_dashboard. by rewrite admin_only_refused.
  - unfold admin_dashboard. rewrite admin_only_refused by done.
    simpl. exact Hs.
Qed.

(** C10. [/admin/logout] pops the admin flag and nothing else: the
    session afterwards is the old one without the key [is_admin], the
    participant's [user_id] entry and hence the current user are kept, and
    the store is untouched; [/logout] empties the session, admin flag
    included. *)
Theorem admin_logout_frame c :
  let r := admin_logout c in
  r_session r = delete "is_admin" (session c)
  /\ r_session r !! "is_admin" = None
  /\ is_admin (r_session r) = false
  /\ (forall k, k <> "is_admin" -> r_session r !! k = session c !! k)
  /\ r_session r !! "user_id" = session c !! "user_id"
  /\ get_current_user (next_ctx r) = get_current_user c
  /\ r_db r = db c
  /\ r_session (logout c) = ∅
  /\ (forall k, r_session (logout c) !! k = None)
  /\ is_admin (r_session (logout c)) = false
  /\ get_current_user (next_ctx (logout c)) = None.
Proof.
  simpl. repeat split.
  - apply lookup_delete_eq.
  - apply is_admin_delete.
  - intros k Hk. by apply lookup_delete_ne.
  - by apply lookup_delete_ne.
  - unfold get_current_user, next_ctx; simpl.
    by rewrite lookup_delete_ne.
Qed.

End SessionProperties.

(** * Sponsor seeding *)

Section Seeding.

Implicit Types (st : Store) (c : Ctx).

Lemma seed_sponsors_empty st :
  sponsors st = [] ->
  seed_sponsors st = mkStore (teams st) (users st) (submissions st)
                       (feedbacks st) (default_sponsors 1) (live_updates st)
                       (notifications st).
Proof. intros H. unfold seed_sponsors. by rewrite H. Qed.

Lemma seed_sponsors_nonempty st :
  sponsors st <> [] -> seed_sponsors st = st.
Proof.
  intros H. unfold seed_sponsors. by destruct (sponsors st).
Qed.

Lemma seed_sponsors_seeded st : sponsors (seed_sponsors st) <> [].
Proof.
  unfold seed_sponsors. destruct (sponsors st) eqn:E; simpl; [done|].
  by rewrite E.
Qed.

Lemma seed_sponsors_twice st :
  seed_sponsors (seed_sponsors st) = seed_sponsors st.
Proof. apply seed_sponsors_nonempty, seed_sponsors_seeded. Qed.

(** C8. Seeding an empty Sponsor table inserts exactly the three
    defaults, seeding a table that holds a row changes nothing, and so any
    number of further runs of the seed path (by [seed_sponsors] itself, by
    [/sponsors] or by the dashboard of a logged-in user) adds no row. *)
Theorem seed_sponsors_idempotent st :
  (sponsors st = [] ->
     sponsors (seed_sponsors st) = default_sponsors 1
     /\ length (sponsors (seed_sponsors st)) = 3)
  /\ (sponsors st <> [] -> seed_sponsors st = st)
  /\ (forall n, Nat.iter (S n) seed_sponsors st = seed_sponsors st)
  /\ (forall n, sponsors st = [] ->
        length (sponsors (Nat.iter n seed_sponsors st)) <= 3)
  /\ (forall sess,
        r_db (sponsors_page (mkCtx st sess)) = seed_sponsors st
        /\ r_db (sponsors_page (next_ctx (sponsors_page (mkCtx st sess))))
           = seed_sponsors st)
  /\ (forall sess u,
        get_current_user (mkCtx st sess) = Some u ->
        r_db (dashboard (mkCtx st sess)) = seed_sponsors st)
  /\ teams (seed_sponsors st) = teams st
  /\ users (seed_sponsors st) = users st
  /\ submissions (seed_sponsors st) = submissions st
  /\ feedbacks (seed_sponsors st) = feedbacks st.
Proof.
  assert (Hiter : forall n, Nat.iter (S n) seed_sponsors st = seed_sponsors st).
  { induction n as [|n IH]; [done|].
    change (seed_sponsors (Nat.iter (S n) seed_sponsors st) = seed_sponsors st).
    rewrite IH. apply seed_sponsors_twice. }
  split_and!.
  - intros H. by rewrite (seed_sponsors_empty st H).
  - apply seed_sponsors_nonempty.
  - exact Hiter.
  - intros [|n] H.
    + simpl. rewrite H. simpl. lia.
    + rewrite Hiter, (seed_sponsors_empty st H). simpl. lia.
  - intros sess. split; [done|]. apply seed_sponsors_twice.
  - intros sess u Hu. unfold dashboard. by rewrite Hu.
  - unfold seed_sponsors. by destruct (_ =? _)%nat.
  - unfold seed_sponsors. by destruct (_ =? _)%nat.
  - unfold seed_sponsors. by destruct (_ =? _)%nat.
  - unfold seed_sponsors. by destruct (_ =? _)%nat.
Qed.

End Seeding.

(** * Invite codes *)

Section InviteCodes.

Implicit Types (g : Py.rng) (ts : list Team.t) (code : string).

Lemma chars_upper_or_digit :
  Forall (fun ch => upper_or_digit ch = true) (list_ascii_of_string chars).
Proof. repeat constructor. Qed.

Lemma length_list_ascii_of_string (s : string) :
  length (list_ascii_of_string s) = String.length s.
Proof. induction s as [|a s IH]; simpl; congruence. Qed.

(** [random.choice] returns a character of the sequence it is given. *)
Lemma choice_in (s : string) g :
  s <> "" -> In (fst (Py.choice s g)) (list_ascii_of_string s).
Proof.
  intros Hne. unfold Py.choice, Py.next_draw. cbn [fst].
  apply nth_In. rewrite length_list_ascii_of_string.
  apply Nat.mod_upper_bound. by destruct s.
Qed.

Lemma choice_chars_valid g : upper_or_digit (fst (Py.choice chars g)) = true.
Proof.
  eapply (proj1 (List.Forall_forall _ _) chars_upper_or_digit).
  by apply choice_in.
Qed.

Lemma choice_state g :
  snd (Py.choice chars g) = Py.mk_rng (Py.draws g) (S (Py.pos g)).
Proof. done. Qed.

Lemma choices_spec n g :
  length (fst (Py.choices n chars g)) = n
  /\ Forall (fun ch => upper_or_digit ch = true) (fst (Py.choices n chars g))
  /\ snd (Py.choices n chars g) = Py.mk_rng (Py.draws g) (n + Py.pos g).
Proof.
  revert g. induction n as [|n IH]; intros g.
  - by destruct g.
  - cbn [Py.choices].
    pose proof (choice_chars_valid g) as Hv.
    pose proof (choice_state g) as Hs.
    destruct (Py.choice chars g) as [ch g1]; simpl in Hv, Hs.
    destruct (IH g1) as (Hlen & Hall & Hst).
    destruct (Py.choices n chars g1) as [rest g2]; simpl in *.
    subst g1; simpl in Hst.
    split_and!; [by rewrite Hlen | by constructor |].
    rewrite Hst. f_equal. lia.
Qed.

Lemma length_string_of_list_ascii (l : list ascii) :
  String.length (string_of_list_ascii l) = length l.
Proof. induction l as [|a l IH]; simpl; congruence. Qed.

(** Every generated code is well formed, whatever the draws. *)
Lemma generate_invite_code_valid g : valid_code (fst (generate_invite_code g)).
Proof.
  unfold generate_invite_code.
  destruct (choices_spec 6 g) as (Hlen & Hall & _).
  destruct (Py.choices 6 chars g) as [picked g']; simpl in *.
  split.
  - by rewrite length_string_of_list_ascii.
  - by rewrite list_ascii_of_string_of_list_ascii.
Qed.

Lemma generate_invite_code_state g :
  snd (generate_invite_code g) = Py.mk_rng (Py.draws g) (6 + Py.pos g).
Proof.
  unfold generate_invite_code.
  destruct (choices_spec 6 g) as (_ & _ & Hst).
  by destruct (Py.choices 6 chars g).
Qed.

Lemma generate_invite_code_candidate g k :
  generate_invite_code (Py.mk_rng (Py.draws g) (6 * k + Py.pos g))
  = (candidate g k, Py.mk_rng (Py.draws g) (6 * S k + Py.pos g)).
Proof.
  rewrite (surjective_pairing (generate_invite_code _)).
  rewrite generate_invite_code_state. unfold candidate.
  cbn [Py.draws Py.pos]. do 2 f_equal. lia.
Qed.

(** A code depends on the six draws it consumes and on nothing else. *)
Lemma choices_ext n (s : string) g g' :
  Py.pos g = Py.pos g' ->
  (forall i, Py.pos g <= i < Py.pos g + n -> Py.draws g i = Py.draws g' i) ->
  fst (Py.choices n s g) = fst (Py.choices n s g').
Proof.
  revert g g'. induction n as [|n IH]; intros [d p] [d' p']; simpl;
    intros <- Hd; [done|].
  specialize (IH (Py.mk_rng d (S p)) (Py.mk_rng d' (S p)) eq_refl).
  simpl in IH.
  destruct (Py.choices n s (Py.mk_rng d (S p))) as [rest g2].
  destruct (Py.choices n s (Py.mk_rng d' (S p))) as [rest' g2'].
  simpl in *. rewrite (Hd p) by lia. f_equal. apply IH.
  intros i Hi. apply Hd. lia.
Qed.

Lemma candidate_ext g g' k :
  Py.pos g = Py.pos g' ->
  (forall i, 6 * k + Py.pos g <= i < 6 * k + Py.pos g + 6 ->
     Py.draws g i = Py.draws g' i) ->
  candidate g k = candidate g' k.
Proof.
  intros Hp Hd. unfold candidate, generate_invite_code.
  pose proof (choices_ext 6 chars
                (Py.mk_rng (Py.draws g) (6 * k + Py.pos g))
                (Py.mk_rng (Py.draws g') (6 * k + Py.pos g'))) as H.
  destruct (Py.choices 6 chars (Py.mk_rng (Py.draws g) _)) as [picked g1].
  destruct (Py.choices 6 chars (Py.mk_rng (Py.draws g') _)) as [picked' g1'].
  simpl in *. f_equal. apply H; [by rewrite Hp|done].
Qed.

(** The loop leaves with a code no Team holds, and a well-formed one if
    it was entered with one. *)
Lemma retry_while_taken_sound fuel ts code g code' g' :
  retry_while_taken fuel ts code g = Some (code', g') ->
  team_by_invite_code ts (Some code') = None
  /\ (valid_code code -> valid_code code').
Proof.
  revert code g. induction fuel as [|fuel IH]; intros code g; [done|].
  cbn [retry_while_taken].
  destruct (team_by_invite_code ts (Some code)) eqn:Hq.
  - pose proof (generate_invite_code_valid g) as Hv.
    destruct (generate_invite_code g) as [c1 g1]; simpl in Hv.
    intros H. apply IH in H as [Hfree Hval]. auto.
  - intros [= <- <-]. auto.
Qed.

Lemma unique_invite_code_sound fuel ts g code g' :
  unique_invite_code fuel ts g = Some (code, g') ->
  team_by_invite_code ts (Some code) = None /\ valid_code code.
Proof.
  unfold unique_invite_code.
  pose proof (generate_invite_code_valid g) as Hv.
  destruct (generate_invite_code g) as [c0 g0]; simpl in Hv.
  intros H. apply retry_while_taken_sound in H as [Hfree Hval]. auto.
Qed.

(** More fuel never changes an answer. *)
Lemma retry_while_taken_mono fuel fuel' ts code g res :
  fuel <= fuel' ->
  retry_while_taken fuel ts code g = Some res ->
  retry_while_taken fuel' ts code g = Some res.
Proof.
  revert fuel' code g. induction fuel as [|fuel IH]; intros fuel' code g Hle;
    [done|].
  destruct fuel' as [|fuel']; [lia|].
  cbn [retry_while_taken].
  destruct (team_by_invite_code ts (Some code)); [|done].
  destruct (generate_invite_code g) as [c1 g1]. apply IH. lia.
Qed.

(** The loop started at retry [j] stops at the first free candidate. *)
Lemma retry_while_taken_finds ts g k : forall j,
  team_by_invite_code ts (Some (candidate g (j + k))) = None ->
  exists i, i <= k
    /\ team_by_invite_code ts (Some (candidate g (j + i))) = None
    /\ (forall i', i' < i ->
          team_by_invite_code ts (Some (candidate g (j + i'))) <> None)
    /\ retry_while_taken (S i) ts (candidate g j)
         (Py.mk_rng (Py.draws g) (6 * S j + Py.pos g))
       = Some (candidate g (j + i),
               Py.mk_rng (Py.draws g) (6 * S (j + i) + Py.pos g)).
Proof.
  induction k as [|k IH]; intros j Hfree.
  - exists 0. rewrite Nat.add_0_r in *. split_and!; [lia|done|lia|].
    cbn [retry_while_taken]. by rewrite Hfree.
  - destruct (team_by_invite_code ts (Some (candidate g j))) eqn:Hj.
    + destruct (IH (S j)) as (i & Hi & Hfi & Hbefore & Hrun).
      { by replace (S j + k) with (j + S k) by lia. }
      exists (S i). replace (j + S i) with (S j + i) by lia.
      split_and!; [lia|done| |].
      * intros [|i'] Hlt.
        -- rewrite Nat.add_0_r. by rewrite Hj.
        -- replace (j + S i') with (S j + i') by lia. apply Hbefore. lia.
      * cbn [retry_while_taken]. rewrite Hj.
        rewrite (generate_invite_code_candidate g (S j)). exact Hrun.
    + exists 0. rewrite Nat.add_0_r. split_and!; [lia|done|lia|].
      cbn [retry_while_taken]. by rewrite Hj.
Qed.

(** While the candidates are taken the loop keeps drawing. *)
Lemma retry_while_taken_busy ts g : forall fuel n j,
  fuel <= n ->
  (forall i', i' < n ->
     team_by_invite_code ts (Some (candidate g (j + i'))) <> None) ->
  retry_while_taken fuel ts (candidate g j)
    (Py.mk_rng (Py.draws g) (6 * S j + Py.pos g)) = None.
Proof.
  induction fuel as [|fuel IH]; intros n j Hle Htaken; [done|].
  destruct n as [|n]; [lia|].
  cbn [retry_while_taken].
  pose proof (Htaken 0 ltac:(lia)) as H0. rewrite Nat.add_0_r in H0.
  destruct (team_by_invite_code ts (Some (candidate g j))); [|done].
  rewrite (generate_invite_code_candidate g (S j)).
  apply (IH n); [lia|]. intros i' Hi'.
  replace (S j + i') with (j + S i') by lia. apply Htaken. lia.
Qed.

(** A code the table holds sends the loop round again, at any fuel. *)
Lemma retry_while_taken_stuck ts g code :
  team_by_invite_code ts (Some code) <> None ->
  (forall k, candidate g k = code) ->
  forall fuel j,
    retry_while_taken fuel ts code
      (Py.mk_rng (Py.draws g) (6 * S j + Py.pos g)) = None.
Proof.
  intros Htaken Hconst. induction fuel as [|fuel IH]; intros j; [done|].
  cbn [retry_while_taken].
  destruct (team_by_invite_code ts (Some code)); [|done].
  rewrite (generate_invite_code_candidate g (S j)), Hconst. apply IH.
Qed.

(** Whatever the loop returns is one of the candidates, and a free one. *)
Lemma retry_while_taken_candidate ts g : forall fuel j code g',
  retry_while_taken fuel ts (candidate g j)
    (Py.mk_rng (Py.draws g) (6 * S j + Py.pos g)) = Some (code, g') ->
  exists i,
    code = candidate g (j + i)
    /\ team_by_invite_code ts (Some (candidate g (j + i))) = None.
Proof.
  induction fuel as [|fuel IH]; intros j code g'; [done|].
  cbn [retry_while_taken].
  destruct (team_by_invite_code ts (Some (candidate g j))) eqn:Hj.
  - rewrite (generate_invite_code_candidate g (S j)).
    intros H. apply IH in H as (i & -> & Hfree).
    exists (S i). by replace (j + S i) with (S j + i) by lia.
  - intros [= <- _]. exists 0. by rewrite Nat.add_0_r.
Qed.

End InviteCodes.

(** * Store invariants *)

Section StoreInvariants.

Implicit Types (st : Store) (c : Ctx) (ids : list nat).

Lemma next_id_above ids x : In x ids -> x < next_id ids.
Proof.
  unfold next_id. induction ids as [|y ids IH]; simpl; [done|].
  intros [->|Hin]; [lia|]. specialize (IH Hin). lia.
Qed.

Lemma next_id_fresh ids : ~ In (next_id ids) ids.
Proof. intros H. apply next_id_above in H. lia. Qed.

Lemma ascending_snoc ids : ascending ids -> ascending (ids ++ [next_id ids]).
Proof.
  intros Hasc. apply StronglySorted_app_2; [|done|repeat constructor].
  intros x1 x2 H1 H2. apply list_elem_of_In in H1.
  apply list_elem_of_singleton in H2 as ->. by apply next_id_above.
Qed.

Lemma ascending_NoDup ids : ascending ids -> NoDup ids.
Proof.
  induction 1 as [|x ids Hss IH Hall]; constructor; [|done].
  intros Hin. rewrite Forall_forall in Hall. specialize (Hall _ Hin). lia.
Qed.

Lemma team_by_invite_code_None ts code :
  team_by_invite_code ts (Some code) = None <->
  ~ In code (map Team.invite_code ts).
Proof.
  unfold team_by_invite_code. split.
  - intros Hnone Hin. apply in_map_iff in Hin as (t & <- & Hin).
    pose proof (find_none _ _ Hnone t Hin) as Hf. simpl in Hf.
    by rewrite String.eqb_refl in Hf.
  - intros Hnin. destruct (find _ ts) as [t|] eqn:Hf; [|done].
    apply find_some in Hf as [Hin Heq]. apply String.eqb_eq in Heq.
    exfalso. apply Hnin. apply in_map_iff. eauto.
Qed.

Lemma submission_by_user_None ss uid :
  submission_by_user ss uid = None <->
  ~ In uid (map Submission.user_id ss).
Proof.
  unfold submission_by_user. split.
  - intros Hnone Hin. apply in_map_iff in Hin as (s & <- & Hin).
    pose proof (find_none _ _ Hnone s Hin) as Hf. simpl in Hf.
    by rewrite Nat.eqb_refl in Hf.
  - intros Hnin. destruct (find _ ss) as [s|] eqn:Hf; [|done].
    apply find_some in Hf as [Hin Heq]. apply Nat.eqb_eq in Heq.
    exfalso. apply Hnin. apply in_map_iff. eauto.
Qed.

Lemma NoDup_snoc {A} (l : list A) (x : A) :
  NoDup l -> ~ In x l -> NoDup (l ++ [x]).
Proof.
  intros Hnd Hnin. apply NoDup_app. split_and!; [done| |apply NoDup_singleton].
  intros y Hy Hx. apply list_elem_of_singleton in Hx as ->.
  by apply Hnin, list_elem_of_In.
Qed.

(** The edits of the store that the handlers commit. *)

Lemma store_ok_empty : store_ok empty_store.
Proof. split; try split; simpl; constructor. Qed.

Lemma store_ok_set_users st us : store_ok st -> store_ok (set_users st us).
Proof. by intros []. Qed.

Lemma store_ok_set_live_updates st ls :
  store_ok st -> store_ok (set_live_updates st ls).
Proof. by intros []. Qed.

Lemma store_ok_set_notifications st ns :
  store_ok st -> store_ok (set_notifications st ns).
Proof. by intros []. Qed.

Lemma store_ok_seed_sponsors st : store_ok st -> store_ok (seed_sponsors st).
Proof. unfold seed_sponsors. destruct (_ =? _)%nat; [|done]. by intros []. Qed.

Lemma invite_codes_ok_add st tn code :
  invite_codes_ok st ->
  valid_code code ->
  team_by_invite_code (teams st) (Some code) = None ->
  invite_codes_ok
    (set_teams st
       (teams st ++ [Team.mk (next_id (map Team.id (teams st))) tn code None])).
Proof.
  intros [Hvalid Hnodup] Hcode Hfree. split; simpl.
  - apply Forall_app. split; [done|]. constructor; [done|constructor].
  - rewrite map_app. simpl. apply NoDup_snoc; [done|].
    by apply team_by_invite_code_None.
Qed.

Lemma store_ok_add_team st tn code :
  store_ok st ->
  valid_code code ->
  team_by_invite_code (teams st) (Some code) = None ->
  store_ok
    (set_teams st
       (teams st ++ [Team.mk (next_id (map Team.id (teams st))) tn code None])).
Proof.
  intros Hok Hcode Hfree. destruct Hok as [Hc Hti Hs Hsi Hfi].
  split; try done.
  - by apply invite_codes_ok_add.
  - simpl. rewrite map_app. by apply ascending_snoc.
Qed.

Lemma insert_team_Some st tn code st1 t :
  insert_team st tn code = Some (st1, t) ->
  team_by_invite_code (teams st) (Some code) = None
  /\ t = Team.mk (next_id (map Team.id (teams st))) tn code None
  /\ st1 = set_teams st (teams st ++ [t]).
Proof.
  unfold insert_team.
  destruct (team_by_invite_code (teams st) (Some code)); [done|].
  by intros [= <- <-].
Qed.

Lemma insert_team_free st tn code :
  team_by_invite_code (teams st) (Some code) = None ->
  insert_team st tn code
  = Some (set_teams st
            (teams st
             ++ [Team.mk (next_id (map Team.id (teams st))) tn code None]),
          Team.mk (next_id (map Team.id (teams st))) tn code None).
Proof. intros H. unfold insert_team. by rewrite H. Qed.

Lemma insert_user_Some st n e p co h tid st' :
  insert_user st n e p co h tid = Some st' ->
  exists n' e' p' co',
    n = Some n' /\ e = Some e' /\ p = Some p' /\ co = Some co'
    /\ user_by_email (users st) (Some e') = None
    /\ st' = set_users st
               (users st
                ++ [User.mk (next_id (map User.id (users st))) n' e' p' co' h
                      tid]).
Proof.
  unfold insert_user.
  destruct n as [n'|], e as [e'|], p as [p'|], co as [co'|]; try done.
  destruct (user_by_email (users st) (Some e')) eqn:Hq; [done|].
  intros [= <-]. by exists n', e', p', co'.
Qed.

Lemma store_ok_insert_user st n e p co h tid st' :
  store_ok st -> insert_user st n e p co h tid = Some st' -> store_ok st'.
Proof.
  intros Hok H. apply insert_user_Some in H as (?&?&?&?&_&_&_&_&_&->).
  by apply store_ok_set_users.
Qed.

Lemma store_ok_insert_submission st t d gh v uid st' :
  store_ok st ->
  submission_by_user (submissions st) uid = None ->
  insert_submission st t d gh v uid = Some st' ->
  store_ok st'.
Proof.
  intros [Hc Hti Hs Hsi Hfi] Hnone. unfold insert_submission.
  destruct t, d, gh, v; try done. intros [= <-].
  split; try done; simpl; rewrite map_app; simpl.
  - apply NoDup_snoc; [done|]. by apply submission_by_user_None.
  - by apply ascending_snoc.
Qed.

Lemma update_submission_columns st id t d gh v st' :
  update_submission st id t d gh v = Some st' ->
  map Submission.user_id (submissions st')
  = map Submission.user_id (submissions st)
  /\ map Submission.id (submissions st') = map Submission.id (submissions st)
  /\ teams st' = teams st /\ users st' = users st
  /\ feedbacks st' = feedbacks st.
Proof.
  unfold update_submission. destruct t, d, gh, v; try done.
  intros [= <-]. simpl. rewrite !map_map.
  split_and!; try done; apply map_ext; intros row; by destruct (_ =? _)%nat.
Qed.

Lemma store_ok_update_submission st id t d gh v st' :
  store_ok st -> update_submission st id t d gh v = Some st' -> store_ok st'.
Proof.
  intros [[Hv Hn] Hti Hs Hsi Hfi] H.
  apply update_submission_columns in H as (Hu & Hi & Ht & _ & Hf).
  split; [split|..]; by rewrite ?Hu, ?Hi, ?Ht, ?Hf.
Qed.

Lemma store_ok_insert_feedback st t r uid st' :
  store_ok st -> insert_feedback st t r uid = Some st' -> store_ok st'.
Proof.
  intros [Hc Hti Hs Hsi Hfi]. unfold insert_feedback.
  destruct t, r; try done. intros [= <-].
  split; try done. simpl. rewrite map_app. by apply ascending_snoc.
Qed.

End StoreInvariants.

(** * Registration *)

Section Registration.

Variable generate_password_hash : string -> string.
Variable check_password_hash : string -> string -> bool.

Implicit Types (st : Store) (c : Ctx) (form : gmap string string)
  (g : Py.rng).

Local Abbreviation register := (register generate_password_hash).
Local Abbreviation handle :=
  (handle generate_password_hash check_password_hash).
Local Abbreviation reachable :=
  (reachable generate_password_hash check_password_hash).

Lemma user_by_email_found us e u :
  In u us -> User.email u = e -> user_by_email us (Some e) <> None.
Proof.
  intros Hin He Hnone. unfold user_by_email in Hnone.
  pose proof (find_none _ _ Hnone u Hin) as Hf. simpl in Hf.
  rewrite He, String.eqb_refl in Hf. done.
Qed.

(** What a registration POST can leave behind: nothing, or one new User
    row, preceded on the create path by one new Team row. *)
Lemma register_inv fuel g form c r :
  register fuel g POST form c = Some r ->
  r_session r = session c
  /\ (r_db r = db c
      \/ exists st1 u,
           r_db r = set_users st1 (users st1 ++ [u])
           /\ users st1 = users (db c)
           /\ r_flashes r = [msg_registered]
           /\ r_response r = Redirect ep_login
           /\ user_by_email (users (db c)) (form !! "email") = None
           /\ Some (User.name u) = form !! "name"
           /\ Some (User.email u) = form !! "email"
           /\ ((Py.eq_lit (form !! "teamChoice") "create" = false
                /\ st1 = db c)
               \/ (Py.eq_lit (form !! "teamChoice") "create" = true
                   /\ exists tn code g',
                        resolve_team_name (form !! "teamName") (form !! "name")
                        = Some tn
                        /\ unique_invite_code fuel (teams (db c)) g
                           = Some (code, g')
                        /\ st1 = set_teams (db c)
                                   (teams (db c)
                                    ++ [Team.mk
                                          (next_id (map Team.id (teams (db c))))
                                          tn code None])
                        /\ User.team_id u
                           = Some (next_id (map Team.id (teams (db c))))))).
Proof.
  unfold register.
  destruct (user_by_email (users (db c)) (form !! "email")) eqn:Hmail.
  { intros [= <-]. auto. }
  destruct (form !! "password") as [pw|]; [|intros [= <-]; auto].
  assert (Hcommit : forall st1 tid r0,
    users st1 = users (db c) ->
    match insert_user st1 (form !! "name") (form !! "email")
            (form !! "phone") (form !! "college")
            (generate_password_hash pw) tid with
    | Some st' => redirect st' (session c) [msg_registered] ep_login
    | None => abort c
    end = r0 ->
    r_session r0 = session c
    /\ (r_db r0 = db c
        \/ exists u, r_db r0 = set_users st1 (users st1 ++ [u])
             /\ r_flashes r0 = [msg_registered]
             /\ r_response r0 = Redirect ep_login
             /\ Some (User.name u) = form !! "name"
             /\ Some (User.email u) = form !! "email"
             /\ User.team_id u = tid)).
  { intros st1 tid r0 Hus <-.
    destruct (insert_user st1 _ _ _ _ _ tid) as [st'|] eqn:Hins; [|auto].
    apply insert_user_Some in Hins
      as (n' & e' & p' & co' & Hn & He & _ & _ & _ & ->).
    split; [done|]. right. eexists. split_and!; try done;
      simpl; by rewrite ?Hn, ?He. }
  destruct (Py.eq_lit (form !! "teamChoice") "create") eqn:Hcreate.
  - destruct (resolve_team_name _ _) as [tn|] eqn:Htn; [|intros [= <-]; auto].
    destruct (unique_invite_code fuel (teams (db c)) g) as [[code g']|] eqn:Hcode;
      [|done].
    pose proof (unique_invite_code_sound _ _ _ _ _ Hcode) as [Hfree _].
    rewrite (insert_team_free _ tn _ Hfree). intros [= <-].
    destruct (Hcommit
                (set_teams (db c)
                   (teams (db c)
                    ++ [Team.mk (next_id (map Team.id (teams (db c)))) tn code
                          None]))
                (Some (next_id (map Team.id (teams (db c))))) _ eq_refl eq_refl)
      as [Hs [Hd|(u & Hd & Hf & Hr & Hn & He & Ht)]].
    + split; [exact Hs|]. left. exact Hd.
    + split; [exact Hs|]. right. eexists _, u.
      split_and!; try done. right. split; [done|].
      by exists tn, code, g'.
  - destruct (Py.eq_lit (form !! "teamChoice") "join").
    + destruct (team_by_invite_code _ _) as [team|]; [|intros [= <-]; auto].
      intros [= <-].
      destruct (Hcommit (db c) (Some (Team.id team)) _ eq_refl eq_refl)
        as [Hs [Hd|(u & Hd & Hf & Hr & Hn & He & Ht)]].
      * split; [exact Hs|]. left. exact Hd.
      * split; [exact Hs|]. right. exists (db c), u. split_and!; auto.
    + intros [= <-].
      destruct (Hcommit (db c) None _ eq_refl eq_refl)
        as [Hs [Hd|(u & Hd & Hf & Hr & Hn & He & Ht)]].
      * split; [exact Hs|]. left. exact Hd.
      * split; [exact Hs|]. right. exists (db c), u. split_and!; auto.
Qed.

Lemma register_store_ok fuel g m form c r :
  store_ok (db c) -> register fuel g m form c = Some r -> store_ok (r_db r).
Proof.
  intros Hok. destruct m; [by intros [= <-]|].
  intros H. apply register_inv in H as [_ [->|(st1 & u & -> & _ & _ & _ & _ & _ & _ & Hst1)]];
    [done|].
  apply store_ok_set_users.
  destruct Hst1 as [[_ ->]|(_ & tn & code & g' & _ & Hcode & -> & _)]; [done|].
  apply unique_invite_code_sound in Hcode as [Hfree Hvalid].
  by apply store_ok_add_team.
Qed.

Lemma submit_store_ok m form c :
  store_ok (db c) -> store_ok (r_db (submit m form c)).
Proof.
  intros Hok. unfold submit.
  destruct (get_current_user c) as [user|]; [|done].
  destruct m; [done|].
  destruct (submission_by_user _ _) as [sub|] eqn:Hsub.
  - destruct (update_submission _ _ _ _ _ _) as [st|] eqn:Hup; [|done].
    by eapply store_ok_update_submission.
  - destruct (insert_submission _ _ _ _ _ _) as [st|] eqn:Hins; [|done].
    by eapply store_ok_insert_submission.
Qed.

Lemma feedback_store_ok m form c :
  store_ok (db c) -> store_ok (r_db (feedback m form c)).
Proof.
  intros Hok. unfold feedback. destruct m; [done|].
  destruct (get_current_user c) as [user|]; [|done].
  destruct (insert_feedback _ _ _ _) as [st|] eqn:Hins; [|done].
  by eapply store_ok_insert_feedback.
Qed.

Lemma admin_only_store_ok c body :
  store_ok (db c) -> store_ok (r_db body) -> store_ok (r_db (admin_only c body)).
Proof.
  intros Hok Hbody. unfold admin_only.
  destruct (require_admin (session c)) as [[] fl]; done.
Qed.

(** Every request keeps the store well formed. *)
Lemma handle_store_ok fuel g rq c r :
  store_ok (db c) -> handle fuel g rq c = Some r -> store_ok (r_db r).
Proof.
  intros Hok.
  destruct rq; simpl; try (intros [= <-]); try done.
  - by apply register_store_ok.
  - unfold login. by repeat case_match.
  - unfold dashboard. case_match; [|done]. by apply store_ok_seed_sponsors.
  - by apply submit_store_ok.
  - by apply feedback_store_ok.
  - by apply store_ok_seed_sponsors.
  - unfold admin_login. by repeat case_match.
  - by apply admin_only_store_ok.
  - apply admin_only_store_ok; [done|]. simpl.
    repeat case_match; try done. by apply store_ok_set_live_updates.
  - apply admin_only_store_ok; [done|]. simpl.
    repeat case_match; try done. by apply store_ok_set_notifications.
  - apply admin_only_store_ok; [done|].
    repeat case_match; try done. by apply store_ok_set_live_updates.
  - apply admin_only_store_ok; [done|].
    repeat case_match; try done. by apply store_ok_set_notifications.
  - by apply admin_only_store_ok.
Qed.

Lemma reachable_store_ok st : reachable st -> store_ok st.
Proof.
  induction 1 as [|st sess fuel g rq r _ IH Hstep]; [apply store_ok_empty|].
  by apply (handle_store_ok fuel g rq (mkCtx st sess)).
Qed.

(** C1. In every store the application can reach, every invite code is
    six characters of {A-Z, 0-9} and no two Team rows hold the same code;
    a registration, the only operation that writes the Team table, either
    leaves the table alone or appends one row whose code is well formed and
    held by no earlier row, and so keeps the invariant. *)
Theorem invite_codes_invariant st :
  reachable st ->
  invite_codes_ok st
  /\ (forall i j t1 t2,
        teams st !! i = Some t1 -> teams st !! j = Some t2 ->
        Team.invite_code t1 = Team.invite_code t2 -> i = j)
  /\ (forall sess fuel g m form r,
        register fuel g m form (mkCtx st sess) = Some r ->
        invite_codes_ok (r_db r)
        /\ (teams (r_db r) = teams st
            \/ exists t,
                 teams (r_db r) = (teams st ++ [t])%list
                 /\ valid_code (Team.invite_code t)
                 /\ ~ In (Team.invite_code t)
                        (map Team.invite_code (teams st))))
  /\ (forall sess fuel g rq r,
        handle fuel g rq (mkCtx st sess) = Some r ->
        invite_codes_ok (r_db r)).
Proof.
  intros Hreach. pose proof (reachable_store_ok st Hreach) as Hok.
  split_and!.
  - apply Hok.
  - intros i j t1 t2 H1 H2 Heq.
    destruct Hok as [[_ Hnd] _ _ _ _].
    change (map Team.invite_code (teams st))
      with (Team.invite_code <$> teams st) in Hnd.
    eapply NoDup_lookup; [exact Hnd| |].
    + rewrite list_lookup_fmap, H1. reflexivity.
    + rewrite list_lookup_fmap, H2. simpl. by rewrite Heq.
  - intros sess fuel g m form r Hr. split.
    + by apply (register_store_ok fuel g m form (mkCtx st sess)).
    + destruct m; [injection Hr as <-; by left|].
      apply register_inv in Hr
        as [_ [->|(st1 & u & -> & _ & _ & _ & _ & _ & _ & Hst1)]]; [by left|].
      destruct Hst1 as [[_ ->]|(_ & tn & code & g' & _ & Hcode & -> & _)];
        [by left|].
      apply unique_invite_code_sound in Hcode as [Hfree Hvalid].
      right. eexists. split_and!; [done|done|].
      by apply team_by_invite_code_None.
  - intros sess fuel g rq r Hr.
    by apply (handle_store_ok fuel g rq (mkCtx st sess)).
Qed.

End Registration.

(** * The retry loop *)

Section RetryLoop.

Implicit Types (g : Py.rng) (ts : list Team.t).

Lemma unique_invite_code_unfold fuel ts g :
  unique_invite_code fuel ts g
  = retry_while_taken fuel ts (candidate g 0)
      (Py.mk_rng (Py.draws g) (6 * 1 + Py.pos g)).
Proof.
  unfold unique_invite_code. destruct g as [d p].
  pose proof (generate_invite_code_candidate (Py.mk_rng d p) 0) as H.
  cbn [Py.draws Py.pos Nat.mul Nat.add] in H.
  cbn [Py.draws Py.pos Nat.mul Nat.add]. by rewrite H.
Qed.

(** With a free candidate among the draws the loop has an answer, and
    the answer is a code no Team holds. *)
Lemma unique_invite_code_terminates ts g k :
  team_by_invite_code ts (Some (candidate g k)) = None ->
  exists code g',
    unique_invite_code (S k) ts g = Some (code, g')
    /\ team_by_invite_code ts (Some code) = None.
Proof.
  intros Hfree.
  destruct (retry_while_taken_finds ts g k 0 Hfree)
    as (i & Hle & Hfi & _ & Hrun).
  eexists _, _. split; [|exact Hfi].
  rewrite unique_invite_code_unfold.
  apply (retry_while_taken_mono (S i)); [lia|exact Hrun].
Qed.

(** C2, as the program has it.  The loop has no retry cap and no error
    result: it draws until a code is free, however long the streak of
    taken codes.  It terminates exactly when the draws hold a free
    candidate; on draws that only ever give taken codes it never returns,
    whatever the fuel.  When the draws hold a free candidate, the loop
    returns the first free one, say the [i]-th, which is well formed; it
    needs exactly [i] retries, so that no fuel up to [i] is enough and any
    fuel above [i] gives this answer. *)
Theorem unique_invite_code_first_free ts g :
  ((exists fuel, is_Some (unique_invite_code fuel ts g))
   <-> exists k, team_by_invite_code ts (Some (candidate g k)) = None)
  /\ ((forall k, team_by_invite_code ts (Some (candidate g k)) <> None) ->
      forall fuel, unique_invite_code fuel ts g = None)
  /\ (forall k,
        team_by_invite_code ts (Some (candidate g k)) = None ->
        exists i,
          i <= k
          /\ (forall i', i' < i ->
                team_by_invite_code ts (Some (candidate g i')) <> None)
          /\ team_by_invite_code ts (Some (candidate g i)) = None
          /\ valid_code (candidate g i)
          /\ (forall fuel, fuel <= i -> unique_invite_code fuel ts g = None)
          /\ (forall fuel, i < fuel ->
                unique_invite_code fuel ts g
                = Some (candidate g i,
                        Py.mk_rng (Py.draws g) (6 * S i + Py.pos g)))).
Proof.
  assert (Hfirst : forall k,
    team_by_invite_code ts (Some (candidate g k)) = None ->
    exists i,
      i <= k
      /\ (forall i', i' < i ->
            team_by_invite_code ts (Some (candidate g i')) <> None)
      /\ team_by_invite_code ts (Some (candidate g i)) = None
      /\ valid_code (candidate g i)
      /\ (forall fuel, fuel <= i -> unique_invite_code fuel ts g = None)
      /\ (forall fuel, i < fuel ->
            unique_invite_code fuel ts g
            = Some (candidate g i,
                    Py.mk_rng (Py.draws g) (6 * S i + Py.pos g)))).
  { intros k Hfree.
    destruct (retry_while_taken_finds ts g k 0 Hfree)
      as (i & Hle & Hfi & Hbefore & Hrun).
    exists i. split_and!; try done.
    - apply generate_invite_code_valid.
    - intros fuel Hfuel. rewrite unique_invite_code_unfold.
      by apply (retry_while_taken_busy ts g fuel i 0).
    - intros fuel Hfuel. rewrite unique_invite_code_unfold.
      apply (retry_while_taken_mono (S i)); [lia|exact Hrun]. }
  split_and!; [split| |exact Hfirst].
  - intros (fuel & [code g'] & Hrun).
    rewrite unique_invite_code_unfold in Hrun.
    apply retry_while_taken_candidate in Hrun as (i & _ & Hfree).
    by exists i.
  - intros (k & Hfree).
    destruct (Hfirst k Hfree) as (i & _ & _ & _ & _ & _ & Hrun).
    exists (S i). rewrite (Hrun (S i)) by lia. by eexists.
  - intros Htaken fuel. rewrite unique_invite_code_unfold.
    apply (retry_while_taken_busy ts g fuel fuel 0); [lia|].
    intros i' _. apply Htaken.
Qed.

End RetryLoop.

(** * The first token of a name *)

Section FirstToken.

Implicit Types (s tok : string) (cur cps : list N).

Local Arguments String.append !_ _ / : simpl nomatch.

Lemma string_app_assoc (s1 s2 s3 : string) : (s1 ++ s2) ++ s3 = s1 ++ s2 ++ s3.
Proof. induction s1 as [|a s1 IH]; simpl; congruence. Qed.

Lemma encode_str_app cps1 cps2 :
  Py.encode_str (cps1 ++ cps2) = Py.encode_str cps1 ++ Py.encode_str cps2.
Proof.
  induction cps1 as [|cp cps1 IH]; simpl; [done|].
  by rewrite IH, string_app_assoc.
Qed.

(** [split_from] with a token [cur] under way: the first token it returns
    is [cur] followed by the characters up to the next whitespace; with no
    token under way the whitespace in front is skipped first. *)
Lemma split_from_head cps : forall cur t rest,
  all_points (fun cp => negb (Py.isspace cp)) cur ->
  Py.split_from cur cps = t :: rest ->
  exists pre mid post,
    cps = (pre ++ mid ++ post)%list
    /\ all_points Py.isspace pre
    /\ (cur <> [] -> pre = [])
    /\ t = (cur ++ mid)%list
    /\ t <> []
    /\ all_points (fun cp => negb (Py.isspace cp)) mid
    /\ (post = []
        \/ exists cp post', post = cp :: post' /\ Py.isspace cp = true).
Proof.
  induction cps as [|a cps IH]; intros cur t rest Hcur; cbn [Py.split_from].
  - destruct cur as [|c0 cur]; [done|]. intros [= <- <-].
    exists [], [], [].
    split_and!; [done|constructor|done|by rewrite app_nil_r|done
                |constructor|by left].
  - destruct (Py.isspace a) eqn:Ha.
    + destruct cur as [|c0 cur].
      * intros H.
        apply IH in H
          as (pre & mid & post & -> & Hpre & _ & -> & Hne & Hmid & Hpost);
          [|constructor].
        exists (a :: pre), mid, post.
        split_and!; [done|by constructor|done|done|done|done|done].
      * intros [= <- <-]. exists [], [], (a :: cps).
        split_and!; [done|constructor|done|by rewrite app_nil_r|done
                    |constructor|].
        right. by exists a, cps.
    + intros H.
      apply IH in H
        as (pre & mid & post & -> & _ & Hpre & -> & Hne & Hmid & Hpost).
      * rewrite Hpre by (by destruct cur).
        exists [], (a :: mid), post.
        rewrite <- app_assoc in Hne |- *. simpl in Hne |- *.
        split_and!; [done|constructor|done|done|done| |done].
        constructor; [by rewrite Ha|done].
      * apply Forall_app. split; [done|].
        constructor; [by rewrite Ha|constructor].
Qed.

(** Decoding undoes encoding, for every code point of Unicode: the UTF-8
    reading of a [str] loses nothing. *)
Lemma N_byte (n : N) : (n < 256)%N -> N_of_ascii (ascii_of_N n) = n.
Proof. apply N_ascii_embedding. Qed.

Lemma cont_byte (n : N) : (n < 64)%N -> Py.cont (ascii_of_N (128 + n)) = n.
Proof.
  intros H. unfold Py.cont. rewrite N_byte by lia.
  replace (128 + n)%N with (n + 2 * 64)%N by lia.
  rewrite N.Div0.mod_add. by apply N.mod_small.
Qed.

Lemma decode_encode_cons (cp : N) (s : string) :
  (cp < 1114112)%N ->
  Py.decode (Py.encode cp ++ s)%string = cp :: Py.decode s.
Proof.
  intros Hcp. unfold Py.encode.
  destruct (N.ltb_spec cp 128) as [H1|H1].
  - unfold String.append. cbn [Py.decode]. rewrite N_byte by lia.
    replace ((192 <=? cp) && (cp <? 224))%N with false
      by (symmetry; apply andb_false_iff; left; apply N.leb_gt; lia).
    replace ((224 <=? cp) && (cp <? 240))%N with false
      by (symmetry; apply andb_false_iff; left; apply N.leb_gt; lia).
    replace (240 <=? cp)%N with false by (symmetry; apply N.leb_gt; lia).
    by destruct s as [|c2 [|c3 [|c4 s4]]].
  - pose proof (N.div_mod cp 64 ltac:(lia)) as E1.
    pose proof (N.mod_lt cp 64 ltac:(lia)) as L1.
    destruct (N.ltb_spec cp 2048) as [H2|H2].
    + assert (cp / 64 < 32)%N by (apply N.Div0.div_lt_upper_bound; lia).
      unfold String.append. cbn [Py.decode].
      rewrite N_byte, cont_byte by lia.
      replace ((192 <=? 192 + cp / 64) && (192 + cp / 64 <? 224))%N with true
        by (symmetry; apply andb_true_iff; split;
            [apply N.leb_le|apply N.ltb_lt]; lia).
      f_equal. lia.
    + set (q := (cp / 64)%N) in *.
      pose proof (N.div_mod q 64 ltac:(lia)) as E2.
      pose proof (N.mod_lt q 64 ltac:(lia)) as L2.
      assert (Eq2 : (cp / 4096 = q / 64)%N).
      { unfold q. rewrite N.Div0.div_div. done. }
      destruct (N.ltb_spec cp 65536) as [H3|H3].
      * assert (cp / 4096 < 16)%N by (apply N.Div0.div_lt_upper_bound; lia).
        unfold String.append. cbn [Py.decode].
        rewrite N_byte, !cont_byte by lia.
        replace ((192 <=? 224 + cp / 4096) && (224 + cp / 4096 <? 224))%N
          with false
          by (symmetry; apply andb_false_iff; right; apply N.ltb_ge; lia).
        replace ((224 <=? 224 + cp / 4096) && (224 + cp / 4096 <? 240))%N
          with true
          by (symmetry; apply andb_true_iff; split;
              [apply N.leb_le|apply N.ltb_lt]; lia).
        f_equal. lia.
      * set (q2 := (q / 64)%N) in *.
        pose proof (N.div_mod q2 64 ltac:(lia)) as E3.
        pose proof (N.mod_lt q2 64 ltac:(lia)) as L3.
        assert (Eq3 : (cp / 262144 = q2 / 64)%N).
        { unfold q2, q. rewrite !N.Div0.div_div. done. }
        assert (cp / 262144 < 5)%N by (apply N.Div0.div_lt_upper_bound; lia).
        unfold String.append. cbn [Py.decode].
        rewrite Eq2. fold q2.
        rewrite N_byte, !cont_byte by lia.
        replace ((192 <=? 240 + cp / 262144) && (240 + cp / 262144 <? 224))%N
          with false
          by (symmetry; apply andb_false_iff; right; apply N.ltb_ge; lia).
        replace ((224 <=? 240 + cp / 262144) && (240 + cp / 262144 <? 240))%N
          with false
          by (symmetry; apply andb_false_iff; right; apply N.ltb_ge; lia).
        replace (240 <=? 240 + cp / 262144)%N with true
          by (symmetry; apply N.leb_le; lia).
        f_equal. lia.
Qed.

Lemma decode_encode_str (cps : list N) :
  Forall (fun cp => (cp < 1114112)%N) cps ->
  Py.decode (Py.encode_str cps) = cps.
Proof.
  induction 1 as [|cp cps Hcp _ IH]; [done|].
  cbn [Py.encode_str foldr]. rewrite decode_encode_cons by done.
  by rewrite <- IH at 2.
Qed.

(** The encoding of a [str] is well formed in the sense [is_first_token]
    asks for. *)
Lemma encode_str_well_formed (cps : list N) :
  Forall (fun cp => (cp < 1114112)%N) cps ->
  Py.encode_str (Py.decode (Py.encode_str cps)) = Py.encode_str cps.
Proof. intros H. by rewrite decode_encode_str. Qed.

Example split_two_tokens : Py.split "  Ada   Lovelace " = ["Ada"; "Lovelace"].
Proof. reflexivity. Qed.

Example split_tab_newline :
  Py.split (String "009" ("Ada" ++ String "010" "B")) = ["Ada"; "B"].
Proof. reflexivity. Qed.

Example split_only_spaces : Py.split "   " = [].
Proof. reflexivity. Qed.

(** U+2003 (EM SPACE, bytes E2 80 83) separates tokens. *)
Example split_em_space :
  Py.split ("Ada" ++ String "226" (String "128" (String "131" "Lovelace")))
  = ["Ada"; "Lovelace"].
Proof. reflexivity. Qed.

(** U+00E0 (bytes C3 A0) is a letter, and U+00A0 (bytes C2 A0) a space. *)
Example split_a_grave :
  Py.split ("Zo" ++ String "195" (String "160" " B"))
  = ["Zo" ++ String "195" (String "160" ""); "B"].
Proof. reflexivity. Qed.

Example split_nbsp :
  Py.split ("Ada" ++ String "194" (String "160" "B")) = ["Ada"; "B"].
Proof. reflexivity. Qed.

(** A character of four bytes (U+1F600) stays whole inside its token. *)
Example split_four_bytes :
  Py.split
    ("Ada" ++ String "240" (String "159" (String "152" (String "128" " B"))))
  = ["Ada" ++ String "240" (String "159" (String "152" (String "128" "")));
     "B"].
Proof. reflexivity. Qed.

Example decode_samples :
  Py.decode
    (String "195" (String "169"
       (String "226" (String "128" (String "131"
          (String "240" (String "159" (String "152" (String "128" "A")))))))))
  = [233; 8195; 128512; 65]%N.
Proof. reflexivity. Qed.

(** [name.split()[0]] is the first token of [name]. *)
Lemma split_first_token s tok rest :
  Py.split s = tok :: rest -> is_first_token s tok.
Proof.
  unfold Py.split. intros H.
  destruct (Py.split_from [] (Py.decode s)) as [|t ts] eqn:Hsplit; [done|].
  simpl in H. injection H as <- _.
  apply split_from_head in Hsplit
    as (pre & mid & post & Hdec & Hpre & _ & -> & Hne & Hmid & Hpost);
    [|constructor].
  exists pre, mid, post. simpl in *. split_and!; try done.
  intros Hwf. rewrite <- Hwf at 1. by rewrite Hdec, !encode_str_app.
Qed.

End FirstToken.

(** * Outcomes of a registration *)

Section RegistrationOutcomes.

Variable generate_password_hash : string -> string.

Implicit Types (st : Store) (c : Ctx) (form : gmap string string)
  (g : Py.rng).

Local Abbreviation register := (register generate_password_hash).

Lemma find_snoc_fresh {A} (f : A -> bool) (l : list A) (x : A) :
  (forall y, In y l -> f y = false) -> f x = true ->
  find f (l ++ [x]) = Some x.
Proof.
  intros Hl Hx. induction l as [|y l IH]; simpl.
  - by rewrite Hx.
  - rewrite (Hl y) by (by left). apply IH. intros z Hz. apply Hl. by right.
Qed.

(** The row a flush has just added is the one its key gets back. *)
Lemma team_get_new ts tn code :
  team_get
    (ts ++ [Team.mk (next_id (map Team.id ts)) tn code None])
    (next_id (map Team.id ts))
  = Some (Team.mk (next_id (map Team.id ts)) tn code None).
Proof.
  unfold team_get. apply find_snoc_fresh.
  - intros t Hin. apply Nat.eqb_neq. intros Heq.
    apply (next_id_fresh (map Team.id ts)). rewrite <- Heq. by apply in_map.
  - simpl. apply Nat.eqb_refl.
Qed.

(** C3. A registration whose email some User row already holds is
    turned away before anything is written: the store and the session are
    the old ones, so no second row with that email appears; the notice of
    the duplicate email is flashed and the answer is the redirect to the
    login view. *)
Theorem register_duplicate_email fuel g form c e u :
  form !! "email" = Some e ->
  In u (users (db c)) ->
  User.email u = e ->
  exists r,
    register fuel g POST form c = Some r
    /\ r_db r = db c
    /\ users (r_db r) = users (db c)
    /\ List.filter (fun u' => String.eqb (User.email u') e) (users (r_db r))
       = List.filter (fun u' => String.eqb (User.email u') e) (users (db c))
    /\ r_session r = session c
    /\ r_flashes r = [msg_duplicate_email]
    /\ r_response r = Redirect ep_login.
Proof.
  intros Hmail Hin He. unfold register. rewrite Hmail.
  pose proof (user_by_email_found _ _ _ Hin He) as Hfound.
  destruct (user_by_email (users (db c)) (Some e)); [|done].
  eexists. split; [reflexivity|]. by split_and!.
Qed.

(** C4, as the program has it.  A join registration whose invite code
    matches no Team never writes: store and session stay as they were.
    When the email is not registered yet and the form carries a password,
    the notice of the invalid code is flashed and the answer is the
    redirect back to the registration form; when the email is already
    registered, the duplicate-email check, which comes first, answers
    instead, with its own notice and the redirect to the login view. *)
Theorem register_join_unknown_code fuel g form c :
  form !! "teamChoice" = Some "join" ->
  team_by_invite_code (teams (db c)) (form !! "inviteCode") = None ->
  exists r,
    register fuel g POST form c = Some r
    /\ r_db r = db c
    /\ r_session r = session c
    /\ (user_by_email (users (db c)) (form !! "email") = None ->
        is_Some (form !! "password") ->
        r_flashes r = [msg_invalid_code]
        /\ r_response r = Redirect ep_register)
    /\ (user_by_email (users (db c)) (form !! "email") <> None ->
        r_flashes r = [msg_duplicate_email]
        /\ r_response r = Redirect ep_login).
Proof.
  intros Hjoin Hcode. unfold register. rewrite Hjoin, Hcode.
  destruct (user_by_email (users (db c)) (form !! "email")) as [u|].
  - eexists. split; [reflexivity|]. by split_and!.
  - destruct (form !! "password") as [pw|].
    + eexists. split; [reflexivity|]. by split_and!.
    + eexists. split; [reflexivity|]. by split_and!.
Qed.

Lemma resolve_blank_team_name tn_field nm tn :
  Py.truthy tn_field = false ->
  resolve_team_name tn_field (Some nm) = Some tn ->
  exists tok rest, Py.split nm = tok :: rest /\ tn = "Team-" ++ tok.
Proof.
  intros Hblank. unfold resolve_team_name. rewrite Hblank. simpl.
  destruct (Py.split nm) as [|tok rest]; [done|].
  intros [= <-]. by exists tok, rest.
Qed.

(** C6. On the create path with a blank team name, the Team row that a
    registration stores is named ["Team-"] followed by the first token of
    the registrant's name, and the new User row points to it; and such a
    registration does go through whenever the name has a token, the email
    is new, the other fields are filled in and the draws hold a free
    code.  The tokens are those of [str.split()]: the name is read as
    code points and separated at the whitespace of Unicode. *)
Theorem register_blank_team_name g form c nm :
  form !! "teamChoice" = Some "create" ->
  Py.truthy (form !! "teamName") = false ->
  form !! "name" = Some nm ->
  (forall fuel r,
     register fuel g POST form c = Some r ->
     r_db r <> db c ->
     exists tok rest t u,
       Py.split nm = tok :: rest
       /\ is_first_token nm tok
       /\ teams (r_db r) = (teams (db c) ++ [t])%list
       /\ Team.team_name t = "Team-" ++ tok
       /\ users (r_db r) = (users (db c) ++ [u])%list
       /\ User.name u = nm
       /\ User.team_id u = Some (Team.id t)
       /\ team_get (teams (r_db r)) (Team.id t) = Some t)
  /\ (forall e pw ph co tok rest k,
        form !! "email" = Some e ->
        user_by_email (users (db c)) (Some e) = None ->
        form !! "password" = Some pw ->
        form !! "phone" = Some ph ->
        form !! "college" = Some co ->
        Py.split nm = tok :: rest ->
        team_by_invite_code (teams (db c)) (Some (candidate g k)) = None ->
        exists r,
          register (S k) g POST form c = Some r
          /\ r_db r <> db c
          /\ r_flashes r = [msg_registered]
          /\ r_response r = Redirect ep_login).
Proof.
  intros Hcreate Hblank Hname. split.
  - intros fuel r Hr Hchanged.
    apply register_inv in Hr
      as [_ [?|(st1 & u & Hdb & Hus & _ & _ & _ & Hn & _ & Hst1)]]; [done|].
    rewrite Hcreate in Hst1. simpl in Hst1.
    destruct Hst1 as [[? _]|(_ & tn & code & g' & Htn & _ & -> & Htid)];
      [done|].
    rewrite Hname in Htn.
    apply resolve_blank_team_name in Htn as (tok & rest & Hsplit & ->);
      [|done].
    exists tok, rest, (Team.mk (next_id (map Team.id (teams (db c))))
                         ("Team-" ++ tok) code None), u.
    rewrite Hdb. simpl. split_and!; try done.
    + by apply split_first_token in Hsplit.
    + rewrite Hname in Hn. by injection Hn.
    + apply team_get_new.
  - intros e pw ph co tok rest k He Hfresh Hpw Hph Hco Hsplit Hfree.
    destruct (unique_invite_code_terminates _ _ _ Hfree)
      as (code & g' & Hrun & Hfi).
    unfold register.
    rewrite He, Hfresh, Hpw, Hcreate, Hname, Hph, Hco. simpl.
    unfold resolve_team_name. rewrite Hblank, Hsplit. simpl.
    rewrite Hrun, (insert_team_free _ _ _ Hfi).
    unfold insert_user. simpl. unfold user_by_email in Hfresh. rewrite Hfresh.
    eexists. split; [reflexivity|]. split_and!; try done.
    simpl. intros Heq. apply (f_equal (fun st => length (teams st))) in Heq.
    simpl in Heq. rewrite length_app in Heq. simpl in Heq. lia.
Qed.

End RegistrationOutcomes.

(** * Submissions *)

Section Submissions.

Variable generate_password_hash : string -> string.
Variable check_password_hash : string -> string -> bool.

Implicit Types (st : Store) (c : Ctx) (form : gmap string string)
  (ss : list Submission.t) (s : Submission.t).

Local Abbreviation reachable :=
  (reachable generate_password_hash check_password_hash).

Lemma filter_user_none ss uid :
  ~ In uid (map Submission.user_id ss) ->
  List.filter (fun s => (Submission.user_id s =? uid)%nat) ss = [].
Proof.
  induction ss as [|s ss IH]; simpl; [done|]. intros Hnin.
  destruct (Nat.eqb_spec (Submission.user_id s) uid) as [Heq|_].
  - exfalso. apply Hnin. by left.
  - apply IH. intros Hin. apply Hnin. by right.
Qed.

Lemma overwrite_others id t d gh v ss :
  ~ In id (map Submission.id ss) -> map (overwrite id t d gh v) ss = ss.
Proof.
  induction ss as [|s ss IH]; simpl; [done|]. intros Hnin.
  unfold overwrite at 1.
  destruct (Nat.eqb_spec (Submission.id s) id) as [Heq|_].
  - exfalso. apply Hnin. by left.
  - f_equal. apply IH. intros Hin. apply Hnin. by right.
Qed.

(** A table with distinct keys and distinct owners, around the row of
    one owner. *)
Lemma submissions_split ss uid s :
  NoDup (map Submission.user_id ss) ->
  NoDup (map Submission.id ss) ->
  submission_by_user ss uid = Some s ->
  exists l1 l2,
    ss = (l1 ++ s :: l2)%list
    /\ Submission.user_id s = uid
    /\ ~ In uid (map Submission.user_id l1)
    /\ ~ In uid (map Submission.user_id l2)
    /\ ~ In (Submission.id s) (map Submission.id l1)
    /\ ~ In (Submission.id s) (map Submission.id l2).
Proof.
  intros Hown Hkey Hfind. unfold submission_by_user in Hfind.
  apply find_some in Hfind as [Hin Huid]. apply Nat.eqb_eq in Huid.
  apply in_split in Hin as (l1 & l2 & ->).
  rewrite !map_app in Hown, Hkey. simpl in Hown, Hkey.
  apply NoDup_app in Hown as (_ & Hown1 & Hown2).
  apply NoDup_app in Hkey as (_ & Hkey1 & Hkey2).
  apply NoDup_cons in Hown2 as [Hown2 _].
  apply NoDup_cons in Hkey2 as [Hkey2 _].
  exists l1, l2. rewrite <- Huid. split_and!; try done.
  - intros H. apply list_elem_of_In in H. apply (Hown1 _ H). by left.
  - intros H. by apply list_elem_of_In in H.
  - intros H. apply list_elem_of_In in H. apply (Hkey1 _ H). by left.
  - intros H. by apply list_elem_of_In in H.
Qed.

(** One submit POST of a logged-in user on a well-formed store: afterwards
    the user has exactly one row and it carries the posted fields. *)
Lemma submit_saves c u form t d gh v :
  store_ok (db c) ->
  get_current_user c = Some u ->
  submit_form_has form t d gh v ->
  let r := submit POST form c in
  (exists id,
     submissions_of (User.id u) (r_db r)
     = [Submission.mk id t d gh v (User.id u)]
     /\ (submission_by_user (submissions (db c)) (User.id u) = None ->
         id = next_id (map Submission.id (submissions (db c)))
         /\ submissions (r_db r)
            = (submissions (db c)
               ++ [Submission.mk id t d gh v (User.id u)])%list)
     /\ (forall s,
           submission_by_user (submissions (db c)) (User.id u) = Some s ->
           id = Submission.id s
           /\ submissions (r_db r)
              = map (overwrite id t d gh v) (submissions (db c))
           /\ map Submission.id (submissions (r_db r))
              = map Submission.id (submissions (db c))
           /\ length (submissions (r_db r)) = length (submissions (db c))))
  /\ (forall uid, uid <> User.id u ->
        submissions_of uid (r_db r) = submissions_of uid (db c))
  /\ users (r_db r) = users (db c)
  /\ r_session r = session c
  /\ r_flashes r = [msg_saved]
  /\ r_response r = Redirect ep_dashboard.
Proof.
  intros Hok Huser (Ht & Hd & Hgh & Hv) r. subst r.
  unfold submit. rewrite Huser, Ht, Hd, Hgh, Hv.
  destruct (submission_by_user (submissions (db c)) (User.id u)) as [s|] eqn:Hsub.
  - destruct (submissions_split _ _ _ (ok_one_submission _ Hok)
                (ascending_NoDup _ (ok_submission_ids _ Hok)) Hsub)
      as (l1 & l2 & Hss & Huid & Ho1 & Ho2 & Hk1 & Hk2).
    assert (Hmap : map (overwrite (Submission.id s) t d gh v) (submissions (db c))
                   = (l1 ++ Submission.mk (Submission.id s) t d gh v (User.id u)
                         :: l2)%list).
    { rewrite Hss, map_app. simpl. rewrite !overwrite_others by done.
      unfold overwrite. by rewrite Nat.eqb_refl, Huid. }
    simpl. split_and!; try done.
    + exists (Submission.id s). split_and!; [|done|].
      * unfold submissions_of. simpl.
        change (map _ (submissions (db c)))
          with (map (overwrite (Submission.id s) t d gh v) (submissions (db c))).
        rewrite Hmap, List.filter_app. simpl. rewrite Nat.eqb_refl.
        by rewrite !filter_user_none.
      * intros s' [= <-]. split_and!; try done.
        -- change (map Submission.id
                     (map (overwrite (Submission.id s) t d gh v)
                        (submissions (db c)))
                   = map Submission.id (submissions (db c))).
           rewrite map_map. apply map_ext. intros x. unfold overwrite.
           by destruct (_ =? _)%nat.
        -- apply length_map.
    + intros uid Hne. unfold submissions_of. simpl.
      change (map _ (submissions (db c)))
        with (map (overwrite (Submission.id s) t d gh v) (submissions (db c))).
      rewrite Hmap, Hss, !List.filter_app. simpl.
      rewrite Huid. by destruct (Nat.eqb_spec (User.id u) uid).
  - simpl. split_and!; try done.
    + eexists. split_and!; [|done|done].
      unfold submissions_of. simpl. rewrite List.filter_app. simpl.
      rewrite Nat.eqb_refl.
      rewrite filter_user_none; [done|]. by apply submission_by_user_None.
    + intros uid Hne. unfold submissions_of. simpl. rewrite List.filter_app. simpl.
      destruct (Nat.eqb_spec (User.id u) uid); [congruence|].
      apply app_nil_r.
Qed.

(** C5. Two submit POSTs of the same logged-in user leave exactly one
    Submission row of that user, carrying the fields of the second POST.
    The first POST inserts when the user has no row, and overwrites the
    fields of the existing row otherwise; the second POST overwrites the
    row in place: the table keeps its length and its keys, and the rows of
    the other users stay as they were. *)
Theorem submit_twice st sess u f1 f2 t1 d1 gh1 v1 t2 d2 gh2 v2 :
  reachable st ->
  get_current_user (mkCtx st sess) = Some u ->
  submit_form_has f1 t1 d1 gh1 v1 ->
  submit_form_has f2 t2 d2 gh2 v2 ->
  let r1 := submit POST f1 (mkCtx st sess) in
  let r2 := submit POST f2 (next_ctx r1) in
  (exists id,
     submissions_of (User.id u) (r_db r1)
     = [Submission.mk id t1 d1 gh1 v1 (User.id u)]
     /\ submissions_of (User.id u) (r_db r2)
        = [Submission.mk id t2 d2 gh2 v2 (User.id u)]
     /\ submissions (r_db r2)
        = map (overwrite id t2 d2 gh2 v2) (submissions (r_db r1)))
  /\ (submission_by_user (submissions st) (User.id u) = None ->
      submissions (r_db r1)
      = (submissions st
         ++ [Submission.mk (next_id (map Submission.id (submissions st)))
               t1 d1 gh1 v1 (User.id u)])%list)
  /\ (forall s,
        submission_by_user (submissions st) (User.id u) = Some s ->
        submissions (r_db r1)
        = map (overwrite (Submission.id s) t1 d1 gh1 v1) (submissions st))
  /\ length (submissions (r_db r2)) = length (submissions (r_db r1))
  /\ map Submission.id (submissions (r_db r2))
     = map Submission.id (submissions (r_db r1))
  /\ (forall uid, uid <> User.id u ->
        submissions_of uid (r_db r2) = submissions_of uid st)
  /\ r_flashes r2 = [msg_saved]
  /\ r_response r2 = Redirect ep_dashboard.
Proof.
  intros Hreach Huser Hf1 Hf2 r1 r2.
  pose proof (reachable_store_ok _ _ _ Hreach) as Hok.
  destruct (submit_saves (mkCtx st sess) u f1 t1 d1 gh1 v1 Hok Huser Hf1)
    as ((id1 & Hrow1 & Hins1 & Hupd1) & Hoth1 & Hus1 & Hs1 & _ & _).
  fold r1 in Hrow1, Hins1, Hupd1, Hoth1, Hus1, Hs1.
  assert (Hok1 : store_ok (db (next_ctx r1))).
  { apply (submit_store_ok POST f1 (mkCtx st sess)), Hok. }
  assert (Huser1 : get_current_user (next_ctx r1) = Some u).
  { unfold get_current_user, next_ctx in *. simpl in *. by rewrite Hs1, Hus1. }
  destruct (submit_saves (next_ctx r1) u f2 t2 d2 gh2 v2 Hok1 Huser1 Hf2)
    as ((id2 & Hrow2 & _ & Hupd2) & Hoth2 & _ & _ & Hfl2 & Hresp2).
  fold r2 in Hrow2, Hupd2, Hoth2, Hfl2, Hresp2.
  assert (Hfound : submission_by_user (submissions (r_db r1)) (User.id u)
                   = Some (Submission.mk id1 t1 d1 gh1 v1 (User.id u))).
  { unfold submissions_of in Hrow1. unfold submission_by_user.
    destruct (find _ (submissions (r_db r1))) as [s|] eqn:Hfind.
    - apply find_some in Hfind as Hs. destruct Hs as [Hin Hp].
      assert (Hin' : In s (List.filter
                (fun s => (Submission.user_id s =? User.id u)%nat)
                (submissions (r_db r1)))) by (by apply List.filter_In).
      rewrite Hrow1 in Hin'. by destruct Hin' as [<-|[]].
    - assert (Hin : In (Submission.mk id1 t1 d1 gh1 v1 (User.id u))
                      (List.filter
                         (fun s => (Submission.user_id s =? User.id u)%nat)
                         (submissions (r_db r1)))) by (rewrite Hrow1; by left).
      apply List.filter_In in Hin as [Hin Hp].
      by rewrite (find_none _ _ Hfind _ Hin) in Hp. }
  destruct (Hupd2 _ Hfound) as (Hid & Hmap2 & Hkeys2 & Hlen2).
  simpl in Hid. subst id2.
  split_and!; try done.
  - by exists id1.
  - intros Hnone. by destruct (Hins1 Hnone) as [-> ->].
  - intros s Hs. by destruct (Hupd1 s Hs) as (-> & -> & _).
  - intros uid Hne. rewrite (Hoth2 uid Hne). apply (Hoth1 uid Hne).
Qed.

End Submissions.

(** * Feedback *)

Section FeedbackLog.

Variable generate_password_hash : string -> string.
Variable check_password_hash : string -> string -> bool.

Implicit Types (st : Store) (c : Ctx) (form : gmap string string)
  (fs : list Feedback.t).

Local Abbreviation reachable :=
  (reachable generate_password_hash check_password_hash).













End FeedbackLog.

(** * Worked instances *)

Lemma ada_registers :
  register demo_hash 1 all_A POST ada_form (mkCtx empty_store ∅)
  = Some (redirect ada_store ∅ [msg_registered] ep_login).
Proof. vm_compute. reflexivity. Qed.

Lemma ada_store_reachable : reachable demo_hash demo_check ada_store.
Proof.
  apply (reachable_step demo_hash demo_check empty_store ∅ 1 all_A
           (Req_register POST ada_form)
           (redirect ada_store ∅ [msg_registered] ep_login)).
  - apply reachable_init.
  - apply ada_registers.
Qed.

Lemma ada_logged_in : get_current_user ada_ctx = Some ada_user.
Proof. vm_compute. reflexivity. Qed.

Lemma candidate_all_A k : candidate all_A k = "AAAAAA".
Proof. reflexivity. Qed.

(** The Team table of [ada_store] holds AAAAAA and [all_A] draws nothing
    else: whatever the fuel, the loop is still running when it is spent. *)
Lemma unique_invite_code_all_A fuel :
  unique_invite_code fuel (teams ada_store) all_A = None.
Proof.
  rewrite unique_invite_code_unfold, candidate_all_A.
  apply (retry_while_taken_stuck (teams ada_store) all_A "AAAAAA");
    [done|apply candidate_all_A].
Qed.

(** The same at the level of the route: a second create registration on
    these draws gets no answer at any fuel. *)
Lemma register_never_answers fuel :
  register demo_hash fuel all_A POST (<["email" := "grace@x.com"]> ada_form)
    (mkCtx ada_store ∅) = None.
Proof.
  unfold register.
  replace (user_by_email _ _) with (@None User.t) by (by vm_compute).
  replace (_ !! "password") with (Some "engine") by (by vm_compute).
  replace (Py.eq_lit _ "create") with true by (by vm_compute).
  replace (resolve_team_name _ _) with (Some "Team-Ada") by (by vm_compute).
  simpl db. by rewrite unique_invite_code_all_A.
Qed.

Lemma candidate_all_B k : candidate all_B k = "BBBBBB".
Proof. reflexivity. Qed.

Lemma candidate_streak_taken n k :
  k < n -> candidate (streak_of n) k = "AAAAAA".
Proof.
  intros Hk. rewrite <- (candidate_all_A k).
  apply candidate_ext; [done|]. simpl. intros i Hi.
  destruct (Nat.ltb_spec i (n + (n + (n + (n + (n + (n + 0))))))); [done|lia].
Qed.

Lemma candidate_streak_free n : candidate (streak_of n) n = "BBBBBB".
Proof.
  rewrite <- (candidate_all_B n).
  apply candidate_ext; [done|]. simpl. intros i Hi.
  destruct (Nat.ltb_spec i (n + (n + (n + (n + (n + (n + 0))))))); [lia|done].
Qed.

(** No number of retries is a cap: after a streak of [n] taken codes the
    loop is still drawing, and it returns the next code, which is free. *)
Lemma retries_exceed_any_cap n :
  (forall fuel, fuel <= n ->
     unique_invite_code fuel (teams ada_store) (streak_of n) = None)
  /\ unique_invite_code (S n) (teams ada_store) (streak_of n)
     = Some ("BBBBBB", Py.mk_rng (Py.draws (streak_of n)) (6 * S n + 0)).
Proof.
  split.
  - intros fuel Hfuel. rewrite unique_invite_code_unfold.
    apply (retry_while_taken_busy _ _ fuel n 0 Hfuel).
    intros i' Hi'. cbn [Nat.add].
    by rewrite (candidate_streak_taken n i' Hi').
  - destruct (retry_while_taken_finds (teams ada_store) (streak_of n) n 0)
      as (i & Hle & Hfree & _ & Hrun).
    { by rewrite candidate_streak_free. }
    assert (i = n) as ->.
    { destruct (decide (i < n)) as [Hlt|]; [|lia].
      cbn [Nat.add] in Hfree.
      by rewrite (candidate_streak_taken n i Hlt) in Hfree. }
    rewrite unique_invite_code_unfold, Hrun. cbn [Nat.add].
    by rewrite candidate_streak_free.
Qed.

(** C2 as stated fails: with a Team that holds AAAAAA and draws that give
    AAAAAA for ever, the loop returns neither a code nor an error at any
    number of retries. *)
Lemma retry_loop_never_stops :
  ~ exists fuel, is_Some (unique_invite_code fuel (teams ada_store) all_A).
Proof.
  intros [fuel [res Hres]]. by rewrite unique_invite_code_all_A in Hres.
Qed.

(** C1 at Ada's store. *)
Lemma invite_codes_invariant_witness :
  reachable demo_hash demo_check ada_store /\ invite_codes_ok ada_store.
Proof.
  split; [exact ada_store_reachable|].
  exact (proj1 (invite_codes_invariant demo_hash demo_check ada_store
                  ada_store_reachable)).
Defined.

(** C2 at Ada's store: after a streak of two taken codes the loop
    returns the third draw, and on draws that give AAAAAA for ever it
    returns at no fuel. *)
Lemma unique_invite_code_first_free_witness :
  team_by_invite_code (teams ada_store) (Some (candidate streak 2)) = None
  /\ (exists fuel,
        is_Some (unique_invite_code fuel (teams ada_store) streak))
  /\ (exists i,
        i <= 2
        /\ team_by_invite_code (teams ada_store) (Some (candidate streak i))
           = None
        /\ (forall fuel, fuel <= i ->
              unique_invite_code fuel (teams ada_store) streak = None)
        /\ (forall fuel, i < fuel ->
              unique_invite_code fuel (teams ada_store) streak
              = Some (candidate streak i,
                      Py.mk_rng (Py.draws streak) (6 * S i + Py.pos streak))))
  /\ (forall fuel, unique_invite_code fuel (teams ada_store) all_A = None).
Proof.
  assert (H : team_by_invite_code (teams ada_store)
                (Some (candidate streak 2)) = None) by reflexivity.
  destruct (unique_invite_code_first_free (teams ada_store) streak)
    as (Hiff & _ & Hfirst).
  destruct (unique_invite_code_first_free (teams ada_store) all_A)
    as (_ & Hnever & _).
  split_and!.
  - exact H.
  - apply Hiff. by exists 2.
  - destruct (Hfirst 2 H) as (i & Hle & _ & Hfree & _ & Hbusy & Hrun).
    exists i. repeat split; assumption.
  - apply Hnever. intros k. by rewrite candidate_all_A.
Defined.

(** C3 when Ada registers a second time. *)
Lemma register_duplicate_email_witness :
  ada_form !! "email" = Some "ada@x.com"
  /\ In ada_user (users ada_store)
  /\ User.email ada_user = "ada@x.com"
  /\ exists r,
       register demo_hash 0 all_A POST ada_form (mkCtx ada_store ∅) = Some r
       /\ r_db r = ada_store
       /\ r_flashes r = [msg_duplicate_email]
       /\ r_response r = Redirect ep_login.
Proof.
  assert (H1 : ada_form !! "email" = Some "ada@x.com") by reflexivity.
  assert (H2 : In ada_user (users ada_store)) by (left; reflexivity).
  assert (H3 : User.email ada_user = "ada@x.com") by reflexivity.
  repeat split; try assumption.
  destruct (register_duplicate_email demo_hash 0 all_A ada_form
              (mkCtx ada_store ∅) "ada@x.com" ada_user H1 H2 H3)
    as (r & Hr & Hdb & _ & _ & _ & Hfl & Hresp).
  exists r. repeat split; assumption.
Defined.

(** C4 as stated fails: a join with an unknown code and Ada's email is
    answered by the duplicate-email check, with the redirect to login. *)
Lemma register_join_unknown_code_duplicate_email :
  ~ (forall fuel g form c,
       form !! "teamChoice" = Some "join" ->
       team_by_invite_code (teams (db c)) (form !! "inviteCode") = None ->
       exists r,
         register demo_hash fuel g POST form c = Some r
         /\ r_response r = Redirect ep_register
         /\ r_db r = db c).
Proof.
  intros Hclaim.
  destruct (Hclaim 0 all_A (join_form "ada@x.com") (mkCtx ada_store ∅))
    as (r & Hr & Hresp & _); [reflexivity|reflexivity|].
  assert (Hrun : register demo_hash 0 all_A POST (join_form "ada@x.com")
                   (mkCtx ada_store ∅)
                 = Some (redirect ada_store ∅ [msg_duplicate_email] ep_login))
    by (vm_compute; reflexivity).
  rewrite Hrun in Hr. injection Hr as <-. discriminate Hresp.
Qed.

(** C4 as amended, for a new email. *)
Lemma register_join_unknown_code_witness :
  join_form "charles@x.com" !! "teamChoice" = Some "join"
  /\ team_by_invite_code (teams ada_store)
       (join_form "charles@x.com" !! "inviteCode") = None
  /\ exists r,
       register demo_hash 0 all_A POST (join_form "charles@x.com")
         (mkCtx ada_store ∅) = Some r
       /\ r_db r = ada_store
       /\ r_flashes r = [msg_invalid_code]
       /\ r_response r = Redirect ep_register.
Proof.
  assert (H1 : join_form "charles@x.com" !! "teamChoice" = Some "join")
    by reflexivity.
  assert (H2 : team_by_invite_code (teams (db (mkCtx ada_store ∅)))
                 (join_form "charles@x.com" !! "inviteCode") = None)
    by reflexivity.
  repeat split; try assumption.
  destruct (register_join_unknown_code demo_hash 0 all_A
              (join_form "charles@x.com") (mkCtx ada_store ∅) H1 H2)
    as (r & Hr & Hdb & _ & Hfresh & _).
  destruct Hfresh as [Hfl Hresp]; [reflexivity|eexists; reflexivity|].
  exists r. repeat split; assumption.
Defined.

(** C5 when Ada submits twice. *)
Lemma submit_twice_witness :
  reachable demo_hash demo_check ada_store
  /\ get_current_user ada_ctx = Some ada_user
  /\ submit_form_has (submit_form "v1" "draft" "git/1" "vid/1")
       "v1" "draft" "git/1" "vid/1"
  /\ submit_form_has (submit_form "v2" "final" "git/2" "vid/2")
       "v2" "final" "git/2" "vid/2"
  /\ exists id,
       submissions_of 1
         (r_db (submit POST (submit_form "v2" "final" "git/2" "vid/2")
                  (next_ctx
                     (submit POST (submit_form "v1" "draft" "git/1" "vid/1")
                        ada_ctx))))
       = [Submission.mk id "v2" "final" "git/2" "vid/2" 1].
Proof.
  assert (Hu : get_current_user ada_ctx = Some ada_user) by exact ada_logged_in.
  assert (H1 : submit_form_has (submit_form "v1" "draft" "git/1" "vid/1")
                 "v1" "draft" "git/1" "vid/1") by (repeat split).
  assert (H2 : submit_form_has (submit_form "v2" "final" "git/2" "vid/2")
                 "v2" "final" "git/2" "vid/2") by (repeat split).
  split; [exact ada_store_reachable|].
  split; [exact Hu|]. split; [exact H1|]. split; [exact H2|].
  destruct (submit_twice demo_hash demo_check ada_store
              {["user_id" := VInt 1]} ada_user _ _ _ _ _ _ _ _ _ _
              ada_store_reachable Hu H1 H2)
    as ((id & _ & Hrow & _) & _).
  exists id. exact Hrow.
Defined.

(** C6 at the registration of Ada, her names separated by U+2003. *)
Lemma register_blank_team_name_witness :
  ada_em_form !! "teamChoice" = Some "create"
  /\ Py.truthy (ada_em_form !! "teamName") = false
  /\ ada_em_form !! "name" = Some em_space_name
  /\ exists r t,
       register demo_hash 1 all_A POST ada_em_form (mkCtx empty_store ∅)
       = Some r
       /\ teams (r_db r) = [t]
       /\ Team.team_name t = "Team-Ada".
Proof.
  assert (H1 : ada_em_form !! "teamChoice" = Some "create") by reflexivity.
  assert (H2 : Py.truthy (ada_em_form !! "teamName") = false) by reflexivity.
  assert (H3 : ada_em_form !! "name" = Some em_space_name) by reflexivity.
  assert (H4 : Py.split em_space_name = ["Ada"; "Lovelace"]) by reflexivity.
  repeat split; try assumption.
  destruct (register_blank_team_name demo_hash all_A ada_em_form
              (mkCtx empty_store ∅) em_space_name H1 H2 H3)
    as [Hstored Hruns].
  destruct (Hruns "ada@x.com" "engine" "555-0100" "Analytical" "Ada"
              ["Lovelace"] 0)
    as (r & Hr & Hchanged & _); try reflexivity.
  destruct (Hstored 1 r Hr Hchanged)
    as (tok & rest & t & u & Hsplit & _ & Hteams & Hname & _).
  rewrite H4 in Hsplit. injection Hsplit as <- _.
  exists r, t. repeat split; assumption.
Defined.


(** C8 on the empty store. *)
Lemma seed_sponsors_idempotent_witness :
  sponsors empty_store = []
  /\ length (sponsors (seed_sponsors empty_store)) = 3
  /\ seed_sponsors (seed_sponsors empty_store) = seed_sponsors empty_store.
Proof.
  destruct (seed_sponsors_idempotent empty_store)
    as (Hempty & _ & Hiter & _).
  split; [reflexivity|]. split.
  - exact (proj2 (Hempty eq_refl)).
  - exact (Hiter 1).
Defined.

(** C9 with the password off by one character. *)
Lemma admin_login_wrong_credentials_witness :
  is_admin (session ada_ctx) = false
  /\ ~ (wrong_admin_form !! "email" = Some ADMIN_EMAIL
        /\ wrong_admin_form !! "password" = Some ADMIN_PASSWORD)
  /\ is_admin (r_session (admin_login POST wrong_admin_form ada_ctx)) = false
  /\ r_response
       (admin_dashboard (next_ctx (admin_login POST wrong_admin_form ada_ctx)))
     = Redirect ep_admin_login.
Proof.
  assert (H1 : is_admin (session ada_ctx) = false) by reflexivity.
  assert (H2 : ~ (wrong_admin_form !! "email" = Some ADMIN_EMAIL
                  /\ wrong_admin_form !! "password" = Some ADMIN_PASSWORD)).
  { intros [_ H]. vm_compute in H. discriminate H. }
  destruct (admin_login_wrong_credentials POST wrong_admin_form ada_ctx H1 H2)
    as (_ & _ & Hflag & _ & _ & Hresp & _).
  repeat split; assumption.
Defined.

(** * Further properties: the outcomes of a registration, in full *)

Section RegistrationCases.

Variable generate_password_hash : string -> string.
Variable check_password_hash : string -> string -> bool.

Implicit Types (st : Store) (c : Ctx) (form : gmap string string)
  (g : Py.rng).

Local Abbreviation register := (register generate_password_hash).
Local Abbreviation handle :=
  (handle generate_password_hash check_password_hash).
Local Abbreviation reachable :=
  (reachable generate_password_hash check_password_hash).

Local Abbreviation new_user := (new_user generate_password_hash).

Lemma insert_user_new st form pw tid st' :
  insert_user st (form !! "name") (form !! "email") (form !! "phone")
    (form !! "college") (generate_password_hash pw) tid = Some st' ->
  exists u, new_user st form pw tid u
            /\ st' = set_users st (users st ++ [u]).
Proof.
  intros H. apply insert_user_Some in H
    as (n & e & p & co & Hn & He & Hp & Hco & _ & ->).
  eexists. split; [|reflexivity]. unfold new_user. simpl.
  by rewrite Hn, He, Hp, Hco.
Qed.

(** The five ways a registration POST ends. *)
Lemma register_outcome fuel g form c r :
  register fuel g POST form c = Some r ->
  (user_by_email (users (db c)) (form !! "email") <> None
   /\ r = redirect (db c) (session c) [msg_duplicate_email] ep_login)
  \/ (user_by_email (users (db c)) (form !! "email") = None
      /\ (r = abort c
          \/ (Py.eq_lit (form !! "teamChoice") "create" = false
              /\ Py.eq_lit (form !! "teamChoice") "join" = true
              /\ team_by_invite_code (teams (db c)) (form !! "inviteCode")
                 = None
              /\ r = redirect (db c) (session c) [msg_invalid_code]
                       ep_register)
          \/ exists pw st1 tid u,
               form !! "password" = Some pw
               /\ new_user (db c) form pw tid u
               /\ users st1 = users (db c)
               /\ r = redirect (set_users st1 (users st1 ++ [u])) (session c)
                        [msg_registered] ep_login
               /\ ((Py.eq_lit (form !! "teamChoice") "create" = true
                    /\ exists tn code g',
                         resolve_team_name (form !! "teamName")
                           (form !! "name") = Some tn
                         /\ unique_invite_code fuel (teams (db c)) g
                            = Some (code, g')
                         /\ st1 = set_teams (db c)
                                    (teams (db c)
                                     ++ [Team.mk
                                           (next_id
                                              (map Team.id (teams (db c))))
                                           tn code None])
                         /\ tid = Some (next_id (map Team.id (teams (db c)))))
                   \/ (Py.eq_lit (form !! "teamChoice") "create" = false
                       /\ Py.eq_lit (form !! "teamChoice") "join" = true
                       /\ st1 = db c
                       /\ exists team,
                            team_by_invite_code (teams (db c))
                              (form !! "inviteCode") = Some team
                            /\ tid = Some (Team.id team))
                   \/ (Py.eq_lit (form !! "teamChoice") "create" = false
                       /\ Py.eq_lit (form !! "teamChoice") "join" = false
                       /\ st1 = db c /\ tid = None)))).
Proof.
  unfold register.
  destruct (user_by_email (users (db c)) (form !! "email")) eqn:Hmail.
  { intros [= <-]. left. by split. }
  intros Hr. right. split; [done|]. revert Hr.
  destruct (form !! "password") as [pw|] eqn:Hpw; [|intros [= <-]; auto].
  assert (Hcommit : forall st1 tid,
    users st1 = users (db c) ->
    match insert_user st1 (form !! "name") (form !! "email")
            (form !! "phone") (form !! "college")
            (generate_password_hash pw) tid with
    | Some st' => redirect st' (session c) [msg_registered] ep_login
    | None => abort c
    end = abort c
    \/ exists u, new_user (db c) form pw tid u
         /\ match insert_user st1 (form !! "name") (form !! "email")
                    (form !! "phone") (form !! "college")
                    (generate_password_hash pw) tid with
            | Some st' => redirect st' (session c) [msg_registered] ep_login
            | None => abort c
            end
            = redirect (set_users st1 (users st1 ++ [u])) (session c)
                [msg_registered] ep_login).
  { intros st1 tid Hus.
    destruct (insert_user st1 _ _ _ _ _ tid) as [st'|] eqn:Hins; [|by left].
    apply insert_user_new in Hins as (u & Hu & ->).
    right. exists u. split; [|done]. unfold new_user in *. by rewrite <- Hus. }
  destruct (Py.eq_lit (form !! "teamChoice") "create") eqn:Hcreate.
  - destruct (resolve_team_name _ _) as [tn|] eqn:Htn; [|intros [= <-]; auto].
    destruct (unique_invite_code fuel (teams (db c)) g) as [[code g']|] eqn:Hcode;
      [|done].
    pose proof (unique_invite_code_sound _ _ _ _ _ Hcode) as [Hfree _].
    rewrite (insert_team_free _ tn _ Hfree). intros [= <-].
    set (st1 := set_teams (db c)
                  (teams (db c)
                   ++ [Team.mk (next_id (map Team.id (teams (db c)))) tn code
                         None])).
    destruct (Hcommit st1 (Some (next_id (map Team.id (teams (db c)))))
                eq_refl)
      as [Hab|(u & Hu & Hres)].
    + left. exact Hab.
    + right. right.
      exists pw, st1, (Some (next_id (map Team.id (teams (db c))))), u.
      split_and!; [done|exact Hu|reflexivity|exact Hres|].
      left. split; [done|]. by exists tn, code, g'.
  - destruct (Py.eq_lit (form !! "teamChoice") "join") eqn:Hjoin.
    + destruct (team_by_invite_code _ _) as [team|] eqn:Hteam;
        [|intros [= <-]; right; left; by split_and!].
      intros [= <-].
      destruct (Hcommit (db c) (Some (Team.id team)) eq_refl)
        as [Hab|(u & Hu & Hres)]; [by left|].
      right. right. exists pw, (db c), (Some (Team.id team)), u.
      split_and!; try done. right. left. split_and!; try done. by exists team.
    + intros [= <-].
      destruct (Hcommit (db c) None eq_refl) as [Hab|(u & Hu & Hres)];
        [by left|].
      right. right. exists pw, (db c), None, u.
      split_and!; try done. right. right. by split_and!.
Qed.

End RegistrationCases.

(** * Further properties: references between the tables *)

Section Integrity.

Variable generate_password_hash : string -> string.
Variable check_password_hash : string -> string -> bool.

Implicit Types (st : Store) (c : Ctx) (form : gmap string string)
  (g : Py.rng).

Local Abbreviation register := (register generate_password_hash).
Local Abbreviation handle :=
  (handle generate_password_hash check_password_hash).
Local Abbreviation reachable :=
  (reachable generate_password_hash check_password_hash).
Local Abbreviation new_user := (new_user generate_password_hash).

Lemma user_by_email_None us e :
  user_by_email us (Some e) = None <-> ~ In e (map User.email us).
Proof.
  unfold user_by_email. split.
  - intros Hnone Hin. apply in_map_iff in Hin as (u & <- & Hin).
    pose proof (find_none _ _ Hnone u Hin) as Hf. simpl in Hf.
    by rewrite String.eqb_refl in Hf.
  - intros Hnin. destruct (find _ us) as [u|] eqn:Hf; [|done].
    apply find_some in Hf as [Hin Heq]. apply String.eqb_eq in Heq.
    exfalso. apply Hnin. apply in_map_iff. eauto.
Qed.

Lemma user_by_email_Some us e u :
  user_by_email us e = Some u -> In u us /\ e = Some (User.email u).
Proof.
  destruct e as [e|]; [|done]. simpl. intros H.
  apply find_some in H as [Hin Heq]. apply String.eqb_eq in Heq.
  by subst.
Qed.

Lemma user_get_Some us id u :
  user_get us id = Some u -> In u us /\ User.id u = id.
Proof.
  unfold user_get. intros H. apply find_some in H as [Hin Heq].
  by apply Nat.eqb_eq in Heq.
Qed.

Lemma get_current_user_Some c u :
  get_current_user c = Some u ->
  In u (users (db c))
  /\ exists v, session c !! "user_id" = Some v /\ User.id u = sval_int v.
Proof.
  unfold get_current_user. destruct (session c !! "user_id") as [v|]; [|done].
  intros H. apply user_get_Some in H as [Hin Hid]. eauto.
Qed.

(** With distinct keys, the key of a row finds that row. *)
Lemma user_get_own us u :
  ascending (map User.id us) -> In u us -> user_get us (User.id u) = Some u.
Proof.
  unfold user_get. induction us as [|x us IH]; simpl; [done|].
  intros Hasc Hin. apply StronglySorted_cons in Hasc as [Hall Hasc].
  destruct Hin as [->|Hin]; [by rewrite Nat.eqb_refl|].
  destruct (Nat.eqb_spec (User.id x) (User.id u)) as [Heq|_]; [|by apply IH].
  rewrite Forall_forall in Hall.
  assert (User.id x < User.id u); [|lia].
  apply Hall, list_elem_of_In. by apply in_map.
Qed.

(** With distinct emails, the email of a row finds that row. *)
Lemma user_by_email_own us u :
  NoDup (map User.email us) -> In u us ->
  user_by_email us (Some (User.email u)) = Some u.
Proof.
  intros He Hin. simpl.
  destruct (find _ us) as [u'|] eqn:Hfind.
  - apply find_some in Hfind as [Hin' Heq]. apply String.eqb_eq in Heq.
    f_equal. clear -He Hin Hin' Heq.
    induction us as [|x us IH]; [done|]. simpl in He.
    apply NoDup_cons in He as [Hx He].
    destruct Hin as [->|Hin], Hin' as [->|Hin']; try done.
    + exfalso. apply Hx. rewrite <- Heq. apply list_elem_of_In. by apply in_map.
    + exfalso. apply Hx. rewrite Heq. apply list_elem_of_In. by apply in_map.
    + by apply IH.
  - pose proof (find_none _ _ Hfind u Hin) as Hno. simpl in Hno.
    by rewrite String.eqb_refl in Hno.
Qed.

Lemma integrity_empty : integrity empty_store.
Proof. split; simpl; try constructor; done. Qed.

Lemma integrity_add_team st t :
  integrity st -> integrity (set_teams st (teams st ++ [t])).
Proof.
  intros [Hi He Ht Hs Hf]. split; try done. simpl.
  intros u tid Hu Htid. rewrite map_app. apply in_or_app. left. eauto.
Qed.

Lemma integrity_add_user st u :
  integrity st ->
  User.id u = next_id (map User.id (users st)) ->
  ~ In (User.email u) (map User.email (users st)) ->
  (forall tid, User.team_id u = Some tid -> In tid (map Team.id (teams st))) ->
  integrity (set_users st (users st ++ [u])).
Proof.
  intros [Hi He Ht Hs Hf] Hid Hmail Hteam. split; simpl.
  - rewrite map_app. simpl. rewrite Hid. by apply ascending_snoc.
  - rewrite map_app. simpl. by apply NoDup_snoc.
  - intros u' tid Hu' Htid. apply in_app_or in Hu' as [Hu'|[<-|[]]]; eauto.
  - intros s Hin. rewrite map_app. apply in_or_app. left. eauto.
  - intros f uid Hin Huid. rewrite map_app. apply in_or_app. left. eauto.
Qed.

Lemma integrity_seed_sponsors st : integrity st -> integrity (seed_sponsors st).
Proof. unfold seed_sponsors. destruct (_ =? _)%nat; [|done]. by intros []. Qed.

Lemma integrity_set_live_updates st ls :
  integrity st -> integrity (set_live_updates st ls).
Proof. by intros []. Qed.

Lemma integrity_set_notifications st ns :
  integrity st -> integrity (set_notifications st ns).
Proof. by intros []. Qed.

Lemma integrity_insert_submission st t d gh v uid st' :
  integrity st ->
  In uid (map User.id (users st)) ->
  insert_submission st t d gh v uid = Some st' ->
  integrity st'.
Proof.
  intros [Hi He Ht Hs Hf] Huid. unfold insert_submission.
  destruct t, d, gh, v; try done. intros [= <-].
  split; try done. simpl. intros s' Hin.
  apply in_app_or in Hin as [Hin|[<-|[]]]; eauto.
Qed.

Lemma integrity_update_submission st id t d gh v st' :
  integrity st -> update_submission st id t d gh v = Some st' -> integrity st'.
Proof.
  intros [Hi He Ht Hs Hf]. unfold update_submission.
  destruct t, d, gh, v; try done. intros [= <-].
  split; try done. simpl. intros s' Hin.
  apply in_map_iff in Hin as (row & <- & Hin).
  destruct (_ =? _)%nat; simpl; eauto.
Qed.

Lemma integrity_insert_feedback st t r uid st' :
  integrity st ->
  In uid (map User.id (users st)) ->
  insert_feedback st t r uid = Some st' ->
  integrity st'.
Proof.
  intros [Hi He Ht Hs Hf] Huid. unfold insert_feedback.
  destruct t, r; try done. intros [= <-].
  split; try done. simpl. intros f uid' Hin Hown.
  apply in_app_or in Hin as [Hin|[<-|[]]]; [eauto|].
  simpl in Hown. by injection Hown as <-.
Qed.

Lemma current_user_key c u :
  get_current_user c = Some u -> In (User.id u) (map User.id (users (db c))).
Proof.
  intros H. apply get_current_user_Some in H as [Hin _]. by apply in_map.
Qed.

Lemma register_integrity fuel g m form c r :
  integrity (db c) -> register fuel g m form c = Some r -> integrity (r_db r).
Proof.
  intros Hok. destruct m; [by intros [= <-]|].
  intros H. apply register_outcome in H
    as [[_ ->]|[Hfresh [->|[(_ & _ & _ & ->)|
         (pw & st1 & tid & u & _ & Hu & Hus & -> & Hpath)]]]]; try done.
  destruct Hu as (_ & Hmail & _ & _ & Hid & _ & Htid).
  rewrite <- Hmail in Hfresh. apply user_by_email_None in Hfresh.
  simpl.
  destruct Hpath as [(_ & tn & code & g' & _ & _ & -> & ->)
                    |[(_ & _ & -> & team & Hteam & ->)|(_ & _ & -> & ->)]].
  - apply integrity_add_user; [by apply integrity_add_team|done|done|].
    simpl. intros tid' Htid'. rewrite Htid in Htid'. injection Htid' as <-.
    rewrite map_app. apply in_or_app. right. by left.
  - apply integrity_add_user; try done.
    intros tid' Htid'. rewrite Htid in Htid'. injection Htid' as <-.
    unfold team_by_invite_code in Hteam.
    destruct (form !! "inviteCode"); [|done].
    apply find_some in Hteam as [Hin _]. by apply in_map.
  - apply integrity_add_user; try done.
    intros tid' Htid'. by rewrite Htid in Htid'.
Qed.

Lemma submit_integrity m form c :
  integrity (db c) -> integrity (r_db (submit m form c)).
Proof.
  intros Hok. unfold submit.
  destruct (get_current_user c) as [user|] eqn:Hu; [|done].
  destruct m; [done|].
  destruct (submission_by_user _ _) as [sub|] eqn:Hsub.
  - destruct (update_submission _ _ _ _ _ _) as [st|] eqn:Hup; [|done].
    by eapply integrity_update_submission.
  - destruct (insert_submission _ _ _ _ _ _) as [st|] eqn:Hins; [|done].
    eapply integrity_insert_submission; [done| |done].
    by apply current_user_key.
Qed.

Lemma feedback_integrity m form c :
  integrity (db c) -> integrity (r_db (feedback m form c)).
Proof.
  intros Hok. unfold feedback. destruct m; [done|].
  destruct (get_current_user c) as [user|] eqn:Hu; [|done].
  destruct (insert_feedback _ _ _ _) as [st|] eqn:Hins; [|done].
  eapply integrity_insert_feedback; [done| |done]. by apply current_user_key.
Qed.

Lemma admin_only_integrity c body :
  integrity (db c) -> integrity (r_db body) ->
  integrity (r_db (admin_only c body)).
Proof.
  intros Hok Hbody. unfold admin_only.
  destruct (require_admin (session c)) as [[] fl]; done.
Qed.

Lemma handle_integrity fuel g rq c r :
  integrity (db c) -> handle fuel g rq c = Some r -> integrity (r_db r).
Proof.
  intros Hok.
  destruct rq; simpl; try (intros [= <-]); try done.
  - by apply register_integrity.
  - unfold login. by repeat case_match.
  - unfold dashboard. case_match; [|done]. by apply integrity_seed_sponsors.
  - by apply submit_integrity.
  - by apply feedback_integrity.
  - by apply integrity_seed_sponsors.
  - unfold admin_login. by repeat case_match.
  - by apply admin_only_integrity.
  - apply admin_only_integrity; [done|]. simpl.
    repeat case_match; try done. by apply integrity_set_live_updates.
  - apply admin_only_integrity; [done|]. simpl.
    repeat case_match; try done. by apply integrity_set_notifications.
  - apply admin_only_integrity; [done|].
    repeat case_match; try done. by apply integrity_set_live_updates.
  - apply admin_only_integrity; [done|].
    repeat case_match; try done. by apply integrity_set_notifications.
  - by apply admin_only_integrity.
Qed.

Lemma reachable_integrity st : reachable st -> integrity st.
Proof.
  induction 1 as [|st sess fuel g rq r _ IH Hstep]; [apply integrity_empty|].
  by apply (handle_integrity fuel g rq (mkCtx st sess)).
Qed.


End Integrity.

(** * Further properties: participant login *)

Section ParticipantLogin.

Variable generate_password_hash : string -> string.
Variable check_password_hash : string -> string -> bool.

Implicit Types (st : Store) (c : Ctx) (form : gmap string string)
  (g : Py.rng).

Local Abbreviation register := (register generate_password_hash).
Local Abbreviation login := (login check_password_hash).
Local Abbreviation handle :=
  (handle generate_password_hash check_password_hash).
Local Abbreviation reachable :=
  (reachable generate_password_hash check_password_hash).
Local Abbreviation new_user := (new_user generate_password_hash).

(** The login of a user found by email whose password verifies. *)
Lemma login_verified c form u pw :
  user_by_email (users (db c)) (form !! "email") = Some u ->
  form !! "password" = Some pw ->
  check_password_hash (User.password_hash u) pw = true ->
  login POST form c
  = redirect (db c) (<["user_id" := VInt (User.id u)]> (session c))
      [msg_logged_in] ep_dashboard.
Proof. intros Hu Hpw Hok. unfold login. by rewrite Hu, Hpw, Hok. Qed.

(** X2. On a reachable store, a login POST with the email of a user
    and a password that verifies against the stored hash stores that
    user's key in the session and touches no other entry and no row; the
    answer is the redirect to the dashboard, and the current user of the
    next request is that very user. *)
Theorem login_success st sess form u pw :
  reachable st ->
  In u (users st) ->
  form !! "email" = Some (User.email u) ->
  form !! "password" = Some pw ->
  check_password_hash (User.password_hash u) pw = true ->
  let r := login POST form (mkCtx st sess) in
  r_session r = <["user_id" := VInt (User.id u)]> sess
  /\ (forall k, k <> "user_id" -> r_session r !! k = sess !! k)
  /\ is_admin (r_session r) = is_admin sess
  /\ r_db r = st
  /\ r_flashes r = [msg_logged_in]
  /\ r_response r = Redirect ep_dashboard
  /\ get_current_user (next_ctx r) = Some u.
Proof.
  intros Hreach Hin Hmail Hpw Hok r.
  pose proof (reachable_integrity _ _ _ Hreach) as [Hi He _ _ _].
  assert (Hr : r = redirect st (<["user_id" := VInt (User.id u)]> sess)
                     [msg_logged_in] ep_dashboard).
  { subst r. apply (login_verified (mkCtx st sess) form u pw); try done.
    simpl. rewrite Hmail. by apply user_by_email_own. }
  rewrite Hr. simpl. split_and!; try done.
  - intros k Hk. by apply lookup_insert_ne.
  - unfold is_admin. by rewrite lookup_insert_ne.
  - unfold get_current_user, next_ctx. simpl.
    rewrite lookup_insert_eq. simpl. by apply user_get_own.
Qed.

(** X3. A login request changes nothing unless it logs a user in: either
    store and session are returned as they were and the form is rendered
    again (with the notice of invalid credentials on a POST), or the
    email is that of a user, the password verifies against that user's
    stored hash, and the session gains exactly that user's key. *)
Theorem login_sound m form c :
  let r := login m form c in
  r_db r = db c
  /\ ((r_session r = session c
       /\ (r_response r = Render login_html
           \/ r_response r = InternalServerError)
       /\ (m = POST -> is_Some (form !! "password") ->
           r_flashes r = [msg_invalid_login]
           /\ r_response r = Render login_html))
      \/ exists u pw,
           m = POST
           /\ user_by_email (users (db c)) (form !! "email") = Some u
           /\ form !! "password" = Some pw
           /\ check_password_hash (User.password_hash u) pw = true
           /\ r_session r = <["user_id" := VInt (User.id u)]> (session c)
           /\ r_response r = Redirect ep_dashboard).
Proof.
  unfold login. destruct m; simpl.
  { split; [done|]. left. split_and!; auto. done. }
  destruct (user_by_email (users (db c)) (form !! "email")) as [u|] eqn:Hu.
  - destruct (form !! "password") as [pw|] eqn:Hpw.
    + destruct (check_password_hash (User.password_hash u) pw) eqn:Hok.
      * split; [done|]. right. by exists u, pw.
      * split; [done|]. left. split_and!; auto.
    + split; [done|]. left. split_and!; auto. by intros _ [? ?].
  - split; [done|]. left. split_and!; auto.
Qed.

(** A hashing scheme that accepts the password it was given. *)
Hypothesis hash_verifies :
  forall pw, check_password_hash (generate_password_hash pw) pw = true.

(** X4. Registration and login compose: after a registration that went
    through, a login with the same email and password succeeds from any
    session, and the current user of the next request is the registered
    user, whose stored credential is the hash of the password and never
    the password form field itself. *)
Theorem register_then_login st sess sess' fuel g form form' r e pw :
  reachable st ->
  register fuel g POST form (mkCtx st sess) = Some r ->
  r_flashes r = [msg_registered] ->
  form !! "email" = Some e ->
  form !! "password" = Some pw ->
  form' !! "email" = Some e ->
  form' !! "password" = Some pw ->
  exists u,
    In u (users (r_db r))
    /\ User.email u = e
    /\ Some (User.name u) = form !! "name"
    /\ User.password_hash u = generate_password_hash pw
    /\ r_response (login POST form' (mkCtx (r_db r) sess'))
       = Redirect ep_dashboard
    /\ get_current_user (next_ctx (login POST form' (mkCtx (r_db r) sess')))
       = Some u.
Proof.
  intros Hreach Hreg Hfl He Hpw He' Hpw'.
  assert (Hreach' : reachable (r_db r)).
  { by apply (reachable_step _ _ st sess fuel g (Req_register POST form) r). }
  pose proof (reachable_integrity _ _ _ Hreach') as [Hi Hem _ _ _].
  apply register_outcome in Hreg
    as [[_ ->]|[_ [->|[(_ & _ & _ & ->)|
         (pw0 & st1 & tid & u & Hpw0 & Hu & Hus & -> & _)]]]]; try done.
  rewrite Hpw in Hpw0. injection Hpw0 as <-.
  destruct Hu as (Hn & Hmail & _ & _ & _ & Hhash & _).
  rewrite He in Hmail. injection Hmail as Hmail.
  set (st' := set_users st1 (users st1 ++ [u])) in *.
  assert (Hin : In u (users st')).
  { simpl. apply in_or_app. right. by left. }
  assert (Hlogin : login POST form' (mkCtx st' sess')
                   = redirect st' (<["user_id" := VInt (User.id u)]> sess')
                       [msg_logged_in] ep_dashboard).
  { apply (login_verified (mkCtx st' sess') form' u pw); [|done|].
    - cbn [db]. rewrite He', <- Hmail. by apply user_by_email_own.
    - rewrite Hhash. apply hash_verifies. }
  exists u. cbn [r_db redirect]. rewrite Hlogin.
  split_and!; try done.
  unfold get_current_user, next_ctx. simpl. rewrite lookup_insert_eq.
  simpl. by apply user_get_own.
Qed.

End ParticipantLogin.

(** * Further properties: the paths of a registration *)

Section RegistrationPaths.

Variable generate_password_hash : string -> string.

Implicit Types (st : Store) (c : Ctx) (form : gmap string string)
  (g : Py.rng).

Local Abbreviation register := (register generate_password_hash).
Local Abbreviation new_user := (new_user generate_password_hash).

Lemma members_of_add_user st st1 u tid :
  users st1 = users st ->
  members_of tid (set_users st1 (users st1 ++ [u]))
  = (members_of tid st
     ++ (if decide (User.team_id u = Some tid) then [u] else []))%list.
Proof.
  intros Hus. unfold members_of. simpl. rewrite Hus, filter_app.
  by f_equal.
Qed.

(** X5. Joining a team: a registration with team choice [join], the
    invite code of an existing team, a new email and all fields present
    goes through at any fuel and with any draws; it adds one User row
    that points to that team, leaves the Team table as it was, and the
    team has one member more. *)
Theorem register_join_success fuel g form c n e p co pw code t :
  register_form_has form n e p co pw ->
  form !! "teamChoice" = Some "join" ->
  form !! "inviteCode" = Some code ->
  team_by_invite_code (teams (db c)) (Some code) = Some t ->
  user_by_email (users (db c)) (Some e) = None ->
  let u := User.mk (next_id (map User.id (users (db c)))) n e p co
             (generate_password_hash pw) (Some (Team.id t)) in
  register fuel g POST form c
  = Some (redirect (set_users (db c) (users (db c) ++ [u])) (session c)
            [msg_registered] ep_login)
  /\ Team.invite_code t = code
  /\ In t (teams (db c))
  /\ members_of (Team.id t) (set_users (db c) (users (db c) ++ [u]))
     = (members_of (Team.id t) (db c) ++ [u])%list
  /\ length (members_of (Team.id t) (set_users (db c) (users (db c) ++ [u])))
     = S (length (members_of (Team.id t) (db c))).
Proof.
  intros (Hn & He & Hp & Hco & Hpw) Hjoin Hcode Hteam Hfresh u.
  assert (Hmem : members_of (Team.id t)
                   (set_users (db c) (users (db c) ++ [u]))
                 = (members_of (Team.id t) (db c) ++ [u])%list).
  { rewrite (members_of_add_user (db c)) by done. by rewrite decide_True. }
  split_and!.
  - unfold register. rewrite He, Hfresh, Hpw, Hjoin, Hcode, Hteam, Hn, Hp, Hco.
    simpl. unfold insert_user. unfold user_by_email in Hfresh.
    by rewrite Hfresh.
  - simpl in Hteam. apply find_some in Hteam as [_ Heq].
    by apply String.eqb_eq in Heq.
  - simpl in Hteam. by apply find_some in Hteam as [Hin _].
  - exact Hmem.
  - rewrite Hmem, length_app. simpl. lia.
Qed.

(** X6. A registration is all or nothing.  Whatever the request, the
    session is kept and the store afterwards is the old store, or the old
    store with exactly one User row appended and at most one Team row
    appended; a Team row is only ever appended together with the User row
    that points to it, so an exception after the flush of the team leaves
    no team behind; and an answer other than the success redirect means
    that nothing was written. *)
Theorem register_atomic fuel g m form c r :
  register fuel g m form c = Some r ->
  r_session r = session c
  /\ submissions (r_db r) = submissions (db c)
  /\ feedbacks (r_db r) = feedbacks (db c)
  /\ sponsors (r_db r) = sponsors (db c)
  /\ live_updates (r_db r) = live_updates (db c)
  /\ notifications (r_db r) = notifications (db c)
  /\ (r_db r = db c
      \/ exists u,
           users (r_db r) = (users (db c) ++ [u])%list
           /\ User.id u = next_id (map User.id (users (db c)))
           /\ r_flashes r = [msg_registered]
           /\ r_response r = Redirect ep_login
           /\ (teams (r_db r) = teams (db c)
               \/ exists t,
                    teams (r_db r) = (teams (db c) ++ [t])%list
                    /\ User.team_id u = Some (Team.id t)
                    /\ Team.id t = next_id (map Team.id (teams (db c)))))
  /\ (r_flashes r <> [msg_registered] -> r_db r = db c)
  /\ (r_response r = InternalServerError -> r_db r = db c).
Proof.
  destruct m; [intros [= <-]; split_and!; auto|].
  intros H. apply register_outcome in H
    as [[_ ->]|[_ [->|[(_ & _ & _ & ->)|
         (pw & st1 & tid & u & _ & Hu & Hus & -> & Hpath)]]]];
    try (split_and!; by auto).
  destruct Hu as (_ & _ & _ & _ & Hid & _ & Htid).
  destruct Hpath as [(_ & tn & code & g' & _ & _ & -> & ->)
                    |[(_ & _ & -> & _)|(_ & _ & -> & _)]];
    simpl; split_and!; try done; right; exists u; split_and!; auto.
  right. eexists. by split_and!.
Qed.

(** X7. Without a team choice (the field is missing, or is neither
    [create] nor [join]) a registration with a new email and all fields
    present adds a User row that belongs to no team and writes nothing
    else; the team name and invite code fields are ignored. *)
Theorem register_without_team fuel g form c n e p co pw :
  register_form_has form n e p co pw ->
  form !! "teamChoice" <> Some "create" ->
  form !! "teamChoice" <> Some "join" ->
  user_by_email (users (db c)) (Some e) = None ->
  register fuel g POST form c
  = Some (redirect
            (set_users (db c)
               (users (db c)
                ++ [User.mk (next_id (map User.id (users (db c)))) n e p co
                      (generate_password_hash pw) None]))
            (session c) [msg_registered] ep_login).
Proof.
  intros (Hn & He & Hp & Hco & Hpw) Hcreate Hjoin Hfresh.
  assert (Hlit : forall lit, form !! "teamChoice" <> Some lit ->
                   Py.eq_lit (form !! "teamChoice") lit = false).
  { intros lit Hne. unfold Py.eq_lit.
    destruct (form !! "teamChoice") as [tc|]; [|done].
    apply String.eqb_neq. congruence. }
  unfold register.
  rewrite He, Hfresh, Hpw, (Hlit _ Hcreate), (Hlit _ Hjoin), Hn, Hp, Hco.
  simpl. unfold insert_user. unfold user_by_email in Hfresh.
  by rewrite Hfresh.
Qed.

End RegistrationPaths.

(** * Further properties: the admin gate *)

Section AdminGate.

Variable generate_password_hash : string -> string.
Variable check_password_hash : string -> string -> bool.

Implicit Types (st : Store) (c : Ctx) (form : gmap string string)
  (g : Py.rng).

Local Abbreviation handle :=
  (handle generate_password_hash check_password_hash).

(** X8. Without the admin flag in the session, every admin route
    (dashboard, add and delete of updates and notifications, team list)
    answers with the notice that admin access is required and the
    redirect to the admin login, and leaves store and session as they
    were: nothing is added, deleted or shown. *)
Theorem admin_routes_refuse fuel g rq c :
  admin_route rq = true ->
  is_admin (session c) = false ->
  handle fuel g rq c
  = Some (redirect (db c) (session c) [msg_admin_required] ep_admin_login).
Proof.
  intros Hroute Hflag.
  destruct rq; try discriminate Hroute; unfold handle; cbv beta iota;
    unfold admin_dashboard, admin_add_update, admin_add_notification,
      admin_delete_update, admin_delete_notification, admin_teams;
    by rewrite admin_only_refused.
Qed.

(** X9. An admin login with the configured pair sets the admin flag and
    keeps every other session entry, so a logged-in participant stays
    logged in; the admin dashboard then renders instead of redirecting;
    after [/admin/logout] the dashboard redirects again, and when the
    session had no admin entry before, login followed by logout gives the
    session back as it was. *)
Theorem admin_login_logout_round_trip form c :
  form !! "email" = Some ADMIN_EMAIL ->
  form !! "password" = Some ADMIN_PASSWORD ->
  let r := admin_login POST form c in
  r_session r = <["is_admin" := VBool true]> (session c)
  /\ is_admin (r_session r) = true
  /\ (forall k, k <> "is_admin" -> r_session r !! k = session c !! k)
  /\ get_current_user (next_ctx r) = get_current_user c
  /\ r_db r = db c
  /\ r_flashes r = [msg_admin_ok]
  /\ r_response r = Redirect ep_admin_dashboard
  /\ r_response (admin_dashboard (next_ctx r))
     = Render
         (admin_dashboard_html
            (order_by_id_desc LiveUpdate.id (live_updates (db c)))
            (order_by_id_desc Notification.id (notifications (db c))))
  /\ r_response (admin_dashboard (next_ctx (admin_logout (next_ctx r))))
     = Redirect ep_admin_login
  /\ (session c !! "is_admin" = None ->
      r_session (admin_logout (next_ctx r)) = session c).
Proof.
  intros He Hp r.
  assert (Hr : r = redirect (db c) (<["is_admin" := VBool true]> (session c))
                     [msg_admin_ok] ep_admin_dashboard).
  { subst r. unfold admin_login. by rewrite He, Hp. }
  assert (Hflag : is_admin (<["is_admin" := VBool true]> (session c)) = true).
  { unfold is_admin. by rewrite lookup_insert_eq. }
  rewrite Hr. simpl. split_and!; try done.
  - intros k Hk. by apply lookup_insert_ne.
  - unfold get_current_user, next_ctx. simpl. by rewrite lookup_insert_ne.
  - unfold admin_dashboard. by rewrite admin_only_granted.
  - unfold admin_dashboard. rewrite admin_only_refused; [done|].
    apply is_admin_delete.
  - intros Hnone. by apply delete_insert_id.
Qed.

(** X10. The two session entries have one source each.  Whatever the
    request, the admin flag is set afterwards only if it was set before
    or the request is an admin login POST with the configured pair; and
    the session names a user afterwards only if it named the same user
    before or the request is a login POST whose password verifies against
    that user's stored hash. *)
Theorem session_entries_origin fuel g rq c r :
  handle fuel g rq c = Some r ->
  (is_admin (r_session r) = true ->
     is_admin (session c) = true
     \/ exists form,
          rq = Req_admin_login POST form
          /\ form !! "email" = Some ADMIN_EMAIL
          /\ form !! "password" = Some ADMIN_PASSWORD)
  /\ (forall v,
        r_session r !! "user_id" = Some v ->
        session c !! "user_id" = Some v
        \/ exists form u pw,
             rq = Req_login POST form
             /\ user_by_email (users (db c)) (form !! "email") = Some u
             /\ form !! "password" = Some pw
             /\ check_password_hash (User.password_hash u) pw = true
             /\ v = VInt (User.id u)).
Proof.
  assert (Hsame : forall r0, r_session r0 = session c ->
    (is_admin (r_session r0) = true -> is_admin (session c) = true \/
       exists form, rq = Req_admin_login POST form
         /\ form !! "email" = Some ADMIN_EMAIL
         /\ form !! "password" = Some ADMIN_PASSWORD)
    /\ (forall v, r_session r0 !! "user_id" = Some v ->
          session c !! "user_id" = Some v \/
          exists form u pw, rq = Req_login POST form
            /\ user_by_email (users (db c)) (form !! "email") = Some u
            /\ form !! "password" = Some pw
            /\ check_password_hash (User.password_hash u) pw = true
            /\ v = VInt (User.id u))).
  { intros r0 ->. auto. }
  assert (Hgate : forall body, r_session body = session c ->
                    r_session (admin_only c body) = session c).
  { intros body Hb. unfold admin_only.
    by destruct (require_admin (session c)) as [[] fl]. }
  destruct rq; simpl; intros Hr; try injection Hr as <-;
    try (apply Hsame; first [done | by apply Hgate]).
  - (* register *)
    apply Hsame. destruct m; [by injection Hr as <-|].
    by apply register_inv in Hr as [? _].
  - (* login *)
    unfold login. destruct m; [by apply Hsame|].
    destruct (user_by_email (users (db c)) (form !! "email")) as [u|] eqn:Hu;
      [|by apply Hsame].
    destruct (form !! "password") as [pw|] eqn:Hpw; [|by apply Hsame].
    destruct (check_password_hash (User.password_hash u) pw) eqn:Hok;
      [|by apply Hsame].
    cbn [r_session redirect]. split.
    + unfold is_admin. rewrite lookup_insert_ne by done. auto.
    + intros v. rewrite lookup_insert_eq. intros [= <-]. right.
      by exists form, u, pw.
  - (* logout *)
    split; [done|]. intros v. unfold logout. cbn [r_session redirect].
    by rewrite lookup_empty.
  - (* dashboard *)
    apply Hsame. unfold dashboard. by destruct (get_current_user c).
  - (* submit *)
    apply Hsame. unfold submit. by repeat case_match.
  - (* feedback *)
    apply Hsame. unfold feedback. by repeat case_match.
  - (* admin_login *)
    unfold admin_login. destruct m; [by apply Hsame|].
    destruct (Py.eq_lit (form !! "email") ADMIN_EMAIL) eqn:He;
      [|by apply Hsame].
    destruct (Py.eq_lit (form !! "password") ADMIN_PASSWORD) eqn:Hp;
      [|by apply Hsame].
    cbn [andb r_session redirect]. split.
    + intros _. right. exists form. split; [done|].
      unfold Py.eq_lit in He, Hp.
      destruct (form !! "email"), (form !! "password"); try done.
      apply String.eqb_eq in He, Hp. by subst.
    + intros v. rewrite lookup_insert_ne by done. auto.
  - (* admin_logout *)
    unfold admin_logout. cbn [r_session redirect]. split.
    + unfold is_admin. by rewrite lookup_delete_eq.
    + intros v. rewrite lookup_delete_ne by done. auto.
  - (* admin_delete_update *)
    apply Hsame, Hgate. by repeat case_match.
  - (* admin_delete_notification *)
    apply Hsame, Hgate. by repeat case_match.
Qed.

End AdminGate.

(** * Further properties: what a request can write *)

Section Effects.

Variable generate_password_hash : string -> string.
Variable check_password_hash : string -> string -> bool.

Implicit Types (st : Store) (c : Ctx) (form : gmap string string)
  (g : Py.rng).

Local Abbreviation register := (register generate_password_hash).
Local Abbreviation handle :=
  (handle generate_password_hash check_password_hash).
Local Abbreviation reachable :=
  (reachable generate_password_hash check_password_hash).

Lemma admin_only_cases c body :
  (is_admin (session c) = true /\ admin_only c body = body)
  \/ (is_admin (session c) = false
      /\ admin_only c body
         = redirect (db c) (session c) [msg_admin_required] ep_admin_login).
Proof.
  destruct (is_admin (session c)) eqn:Hflag.
  - left. split; [done|]. by apply admin_only_granted.
  - right. split; [done|]. by apply admin_only_refused.
Qed.

Lemma register_effect fuel g m form c r :
  register fuel g m form c = Some r -> effect c (r_db r).
Proof.
  destruct m; [intros [= <-]; constructor|].
  intros H. apply register_outcome in H
    as [[_ ->]|[_ [->|[(_ & _ & _ & ->)|
         (pw & st1 & tid & u & _ & Hu & Hus & -> & Hpath)]]]];
    try constructor.
  simpl. rewrite Hus. constructor.
  destruct Hu as (_ & _ & _ & _ & _ & _ & Htid).
  destruct Hpath as [(_ & tn & code & g' & _ & _ & -> & ->)
                    |[(_ & _ & -> & _)|(_ & _ & -> & _)]]; eauto.
Qed.

Lemma submit_effect m form c : effect c (r_db (submit m form c)).
Proof.
  unfold submit.
  destruct (get_current_user c) as [u|] eqn:Hu; [|constructor].
  destruct m; [constructor|].
  destruct (submission_by_user _ _) as [sub|] eqn:Hsub.
  - unfold update_submission.
    destruct (form !! "title") as [t|], (form !! "desc") as [d|],
      (form !! "github") as [gh|], (form !! "video") as [v|];
      try constructor.
    by apply (eff_update_submission c u sub t d gh v).
  - unfold insert_submission.
    destruct (form !! "title") as [t|], (form !! "desc") as [d|],
      (form !! "github") as [gh|], (form !! "video") as [v|];
      try constructor.
    by apply (eff_insert_submission c u).
Qed.

Lemma feedback_effect m form c : effect c (r_db (feedback m form c)).
Proof.
  unfold feedback. destruct m; [constructor|].
  destruct (get_current_user c) as [u|] eqn:Hu; [|constructor].
  unfold insert_feedback.
  destruct (form !! "text") as [t|], (form !! "rating") as [r|];
    try constructor.
  by apply (eff_feedback c u).
Qed.

Lemma admin_only_effect c body :
  (is_admin (session c) = true -> effect c (r_db body)) ->
  effect c (r_db (admin_only c body)).
Proof.
  intros Hbody. destruct (admin_only_cases c body) as [[Hflag ->]|[_ ->]];
    [by apply Hbody|constructor].
Qed.

(** Every request has one of the listed effects on the store. *)
Lemma handle_effect fuel g rq c r :
  handle fuel g rq c = Some r -> effect c (r_db r).
Proof.
  destruct rq; simpl; try (intros [= <-]); try constructor.
  - by apply register_effect.
  - unfold login. repeat case_match; constructor.
  - unfold dashboard. case_match; constructor.
  - apply submit_effect.
  - apply feedback_effect.
  - unfold admin_login. repeat case_match; constructor.
  - apply admin_only_effect. constructor.
  - apply admin_only_effect. intros Hflag. simpl.
    repeat case_match; by constructor.
  - apply admin_only_effect. intros Hflag. simpl.
    repeat case_match; by constructor.
  - apply admin_only_effect. intros Hflag.
    case_match; [constructor|].
    case_match; [|constructor]. by apply eff_delete_update.
  - apply admin_only_effect. intros Hflag.
    case_match; [constructor|].
    case_match; [|constructor]. by apply eff_delete_notification.
  - apply admin_only_effect. constructor.
Qed.

End Effects.

(** * Further properties: ordered listings *)

Section Ordering.

Context {A : Type} (key : A -> nat).

Implicit Types (l : list A).


Lemma order_asc_perm l : order_by_id_asc key l ≡ₚ l.
Proof. apply merge_sort_Permutation. Qed.


Lemma order_asc_sorted l :
  StronglySorted (fun a b => key a <= key b) (order_by_id_asc key l).
Proof.
  apply @StronglySorted_merge_sort.
  - intros x y z ? ?. lia.
  - intros x y. lia.
Qed.

Lemma ascending_above l x :
  ascending (map key (x :: l)) -> forall y, In y l -> key x < key y.
Proof.
  simpl. intros Hasc y Hy. apply StronglySorted_cons in Hasc as [Hall _].
  rewrite Forall_forall in Hall. apply Hall, list_elem_of_In. by apply in_map.
Qed.

Lemma ascending_tail l x : ascending (map key (x :: l)) -> ascending (map key l).
Proof. simpl. intros Hasc. by apply StronglySorted_cons in Hasc as [_ ?]. Qed.

Lemma ascending_inj l x y :
  ascending (map key l) -> In x l -> In y l -> key x = key y -> x = y.
Proof.
  induction l as [|z l IH]; [done|]. intros Hasc Hx Hy Heq.
  pose proof (ascending_above l z Hasc) as Hlt.
  destruct Hx as [<-|Hx], Hy as [<-|Hy]; try done.
  - specialize (Hlt _ Hy). lia.
  - specialize (Hlt _ Hx). lia.
  - apply IH; [by eapply ascending_tail|done..].
Qed.

Lemma ascending_sorted_asc l :
  ascending (map key l) -> StronglySorted (fun a b => key a <= key b) l.
Proof.
  induction l as [|z l IH]; [constructor|]. intros Hasc.
  apply StronglySorted_cons. split.
  - apply Forall_forall. intros y Hy. apply list_elem_of_In in Hy.
    pose proof (ascending_above l z Hasc y Hy). lia.
  - apply IH. by eapply ascending_tail.
Qed.


(** On a table whose keys grow, ascending order is the order of the
    table and descending order is its reverse. *)
Lemma order_asc_ascending l :
  ascending (map key l) -> order_by_id_asc key l = l.
Proof.
  intros Hasc. apply (StronglySorted_unique_strong (fun a b => key a <= key b)).
  - intros x1 x2 H1 H2 H12 H21. rewrite order_asc_perm in H1.
    apply list_elem_of_In in H1, H2.
    apply (ascending_inj l); [done..|lia].
  - apply order_asc_sorted.
  - by apply ascending_sorted_asc.
  - apply order_asc_perm.
Qed.


Lemma ascending_map_filter (P : A -> Prop) `{!forall x, Decision (P x)} l :
  ascending (map key l) -> ascending (map key (filter P l)).
Proof.
  induction l as [|z l IH]; [done|]. intros Hasc.
  pose proof (ascending_above l z Hasc) as Hlt.
  specialize (IH (ascending_tail l z Hasc)).
  rewrite filter_cons. destruct (decide (P z)); [|done].
  simpl. apply StronglySorted_cons. split; [|done].
  apply Forall_forall. intros k Hk. apply list_elem_of_In, in_map_iff in Hk
    as (y & <- & Hy).
  apply Hlt. apply list_elem_of_In in Hy.
  apply list_elem_of_filter in Hy as [_ Hy]. by apply list_elem_of_In.
Qed.

End Ordering.

(** * Further properties: what no request does *)

Section Frames.

Variable generate_password_hash : string -> string.
Variable check_password_hash : string -> string -> bool.

Implicit Types (st : Store) (c : Ctx) (form : gmap string string)
  (g : Py.rng).

Local Abbreviation handle :=
  (handle generate_password_hash check_password_hash).
Local Abbreviation reachable :=
  (reachable generate_password_hash check_password_hash).

Lemma prefix_snoc {B} (l : list B) (x : B) : l `prefix_of` (l ++ [x])%list.
Proof. by exists [x]. Qed.

Lemma seed_sponsors_prefix st :
  sponsors st `prefix_of` sponsors (seed_sponsors st).
Proof.
  unfold seed_sponsors. destruct (_ =? _)%nat; [|done]. simpl.
  by eexists.
Qed.

Lemma map_overwrite_keys id t d gh v ss :
  map Submission.id (map (overwrite id t d gh v) ss) = map Submission.id ss
  /\ map Submission.user_id (map (overwrite id t d gh v) ss)
     = map Submission.user_id ss.
Proof.
  rewrite !map_map. split; apply map_ext; intros s; unfold overwrite;
    by destruct (_ =? _)%nat.
Qed.

(** X15. No request deletes or rewrites a User, Team, Feedback or
    Sponsor row, and none deletes a Submission row or changes its key or
    its owner: after any request each of these tables starts with the rows
    (for submissions: the keys and owners) it had before. *)
Theorem handle_append_only fuel g rq c r :
  handle fuel g rq c = Some r ->
  users (db c) `prefix_of` users (r_db r)
  /\ teams (db c) `prefix_of` teams (r_db r)
  /\ feedbacks (db c) `prefix_of` feedbacks (r_db r)
  /\ sponsors (db c) `prefix_of` sponsors (r_db r)
  /\ map Submission.id (submissions (db c))
     `prefix_of` map Submission.id (submissions (r_db r))
  /\ map Submission.user_id (submissions (db c))
     `prefix_of` map Submission.user_id (submissions (r_db r)).
Proof.
  intros H. apply handle_effect in H.
  destruct H as [| |st1 u [->|(t & -> & _ & _)]|u row _ _ _ _
                |u sub t d gh v _ _|u f _ _| | | | ]; simpl;
    try (split_and!; first [done | apply prefix_snoc]).
  - split_and!; try done; try apply seed_sponsors_prefix;
      unfold seed_sponsors; by destruct (_ =? _)%nat.
  - split_and!; try done; rewrite map_app; apply prefix_snoc.
  - destruct (map_overwrite_keys (Submission.id sub) t d gh v
                (submissions (db c))) as [-> ->].
    by split_and!.
Qed.

(** X16. A request that comes with neither a logged-in user nor the
    admin flag cannot touch submissions, feedback, updates or
    notifications; all it can bring about is the seeding of the sponsors
    or one registration. *)
Theorem anonymous_request fuel g rq c r :
  get_current_user c = None ->
  is_admin (session c) = false ->
  handle fuel g rq c = Some r ->
  submissions (r_db r) = submissions (db c)
  /\ feedbacks (r_db r) = feedbacks (db c)
  /\ live_updates (r_db r) = live_updates (db c)
  /\ notifications (r_db r) = notifications (db c)
  /\ (r_db r = db c
      \/ r_db r = seed_sponsors (db c)
      \/ exists st1 u,
           r_db r = set_users st1 (users (db c) ++ [u])
           /\ (st1 = db c
               \/ exists t, st1 = set_teams (db c) (teams (db c) ++ [t]))).
Proof.
  intros Hanon Hflag H. apply handle_effect in H.
  destruct H as [| |st1 u Hst1|u row Hu _ _ _|u sub t d gh v Hu _|u f Hu _
                |? Ha|? Ha|? Ha|? Ha];
    try congruence.
  - by split_and!; auto.
  - split_and!; auto; unfold seed_sponsors; by destruct (_ =? _)%nat.
  - assert (Hfr : submissions st1 = submissions (db c)
                  /\ feedbacks st1 = feedbacks (db c)
                  /\ live_updates st1 = live_updates (db c)
                  /\ notifications st1 = notifications (db c)).
    { by destruct Hst1 as [->|(t & -> & _ & _)]. }
    destruct Hfr as (? & ? & ? & ?). simpl. split_and!; try done.
    right. right. exists st1, u. split; [done|].
    destruct Hst1 as [->|(t & -> & _ & _)]; eauto.
Qed.

Lemma boards_ok_effect c st' :
  boards_ok (db c) -> effect c st' -> boards_ok st'.
Proof.
  intros [Hl Hn] H.
  destruct H as [| |st1 u [->|(t & -> & _ & _)]|u row _ _ _ _
                |u sub t d gh v _ _|u f _ _|text _|id _|text _|id _];
    try done.
  - unfold seed_sponsors. by destruct (_ =? _)%nat.
  - split; [|done]. simpl. rewrite map_app. by apply ascending_snoc.
  - split; [|done]. simpl. by apply ascending_map_filter.
  - split; [done|]. simpl. rewrite map_app. by apply ascending_snoc.
  - split; [done|]. simpl. by apply ascending_map_filter.
Qed.

Lemma reachable_boards_ok st : reachable st -> boards_ok st.
Proof.
  induction 1 as [|st sess fuel g rq r _ IH Hstep];
    [split; constructor|].
  apply (boards_ok_effect (mkCtx st sess)); [done|].
  by eapply handle_effect.
Qed.

End Frames.

(** * Further properties: the boards of updates and notifications *)

Section ContentBoards.

Variable generate_password_hash : string -> string.
Variable check_password_hash : string -> string -> bool.

Implicit Types (st : Store) (c : Ctx) (form : gmap string string).

Local Abbreviation reachable :=
  (reachable generate_password_hash check_password_hash).

Lemma filter_fresh_key {B} (key : B -> nat) (l : list B) (k : nat) :
  ~ In k (map key l) -> filter (fun x => key x <> k) l = l.
Proof.
  induction l as [|x l IH]; [done|]. simpl. intros Hnin.
  rewrite filter_cons. destruct (decide (key x <> k)) as [_|Heq].
  - f_equal. apply IH. tauto.
  - exfalso. apply Hnin. left. by destruct (decide (key x = k)).
Qed.

Lemma filter_key_gone {B} (key : B -> nat) (l : list B) (k : nat) :
  ~ In k (map key (filter (fun x => key x <> k) l)).
Proof.
  intros Hin. apply in_map_iff in Hin as (x & Hk & Hx).
  apply list_elem_of_In, list_elem_of_filter in Hx as [Hne _]. done.
Qed.

Lemma filter_key_length {B} (key : B -> nat) (l : list B) (k : nat) :
  NoDup (map key l) -> In k (map key l) ->
  S (length (filter (fun x => key x <> k) l)) = length l.
Proof.
  induction l as [|x l IH]; [done|]. simpl. intros Hnd Hin.
  apply NoDup_cons in Hnd as [Hx Hnd]. rewrite filter_cons.
  destruct (decide (key x <> k)) as [Hne|Heq].
  - simpl. f_equal. apply IH; [done|]. by destruct Hin.
  - assert (key x = k) as <- by (by destruct (decide (key x = k))).
    rewrite filter_fresh_key; [done|].
    intros H. by apply Hx, list_elem_of_In.
Qed.

Lemma find_key_Some {B} (key : B -> nat) (l : list B) (k : nat) :
  In k (map key l) ->
  exists x, find (fun x => (key x =? k)%nat) l = Some x /\ key x = k.
Proof.
  intros Hin. apply in_map_iff in Hin as (y & Hk & Hy).
  destruct (find _ l) as [x|] eqn:Hfind.
  - exists x. split; [done|]. apply find_some in Hfind as [_ Heq].
    by apply Nat.eqb_eq in Heq.
  - pose proof (find_none _ _ Hfind y Hy) as Hno. simpl in Hno.
    rewrite Hk, Nat.eqb_refl in Hno. done.
Qed.

Lemma find_key_None {B} (key : B -> nat) (l : list B) (k : nat) :
  ~ In k (map key l) -> find (fun x => (key x =? k)%nat) l = None.
Proof.
  intros Hnin. destruct (find _ l) as [x|] eqn:Hfind; [|done].
  apply find_some in Hfind as [Hin Heq]. apply Nat.eqb_eq in Heq.
  exfalso. apply Hnin. rewrite <- Heq. by apply in_map.
Qed.


(** The overflow test says what it should: the key is above
    [2^63 - 1], the largest integer SQLite stores. *)
Lemma int_overflows_spec id :
  int_overflows id = true <-> (2 ^ 63 <= N.of_nat id)%N.
Proof.
  unfold int_overflows, SQLITE_MAX_INT. rewrite N.ltb_lt.
  change (2 ^ 63)%N with 9223372036854775808%N. lia.
Qed.

(** X12. Deleting from a board as an admin.  A key too large for an
    SQLite integer makes the lookup raise: the answer is the server error
    and nothing changes.  For every other key: a key the board does not
    hold gives the not-found response and changes nothing.  A key it
    holds removes the row with that key and keeps every other row in
    place; on a reachable store exactly one row goes, and a second delete
    of the same key is answered with not found.  Deleting the key that an
    add has just handed out gives the board back as it was.  This holds
    for updates and for notifications alike. *)
Theorem admin_delete_round_trip id c :
  is_admin (session c) = true ->
  (int_overflows id = true ->
     admin_delete_update id c = abort c
     /\ admin_delete_notification id c = abort c)
  /\ (int_overflows id = false ->
      (~ In id (map LiveUpdate.id (live_updates (db c))) ->
         admin_delete_update id c = mkResult (db c) (session c) [] NotFound)
      /\ (~ In id (map Notification.id (notifications (db c))) ->
            admin_delete_notification id c
            = mkResult (db c) (session c) [] NotFound)
      /\ (In id (map LiveUpdate.id (live_updates (db c))) ->
            let r := admin_delete_update id c in
            r = redirect (delete_live_update (db c) id) (session c) []
                  ep_admin_dashboard
            /\ live_updates (r_db r)
               = filter (fun l => LiveUpdate.id l <> id) (live_updates (db c))
            /\ ~ In id (map LiveUpdate.id (live_updates (r_db r)))
            /\ r_response (admin_delete_update id (next_ctx r)) = NotFound
            /\ (reachable (db c) ->
                S (length (live_updates (r_db r)))
                = length (live_updates (db c))))
      /\ (In id (map Notification.id (notifications (db c))) ->
            let r := admin_delete_notification id c in
            r = redirect (delete_notification (db c) id) (session c) []
                  ep_admin_dashboard
            /\ notifications (r_db r)
               = filter (fun n => Notification.id n <> id)
                   (notifications (db c))
            /\ ~ In id (map Notification.id (notifications (r_db r)))
            /\ r_response (admin_delete_notification id (next_ctx r))
               = NotFound
            /\ (reachable (db c) ->
                S (length (notifications (r_db r)))
                = length (notifications (db c)))))
  /\ (forall text,
        delete_live_update (insert_live_update (db c) text)
          (next_id (map LiveUpdate.id (live_updates (db c)))) = db c
        /\ delete_notification (insert_notification (db c) text)
             (next_id (map Notification.id (notifications (db c)))) = db c).
Proof.
  intros Hflag. split_and!.
  - intros Hov. unfold admin_delete_update, admin_delete_notification.
    rewrite !admin_only_granted by done. by rewrite Hov.
  - intros Hov. split_and!.
    + intros Hnin. unfold admin_delete_update.
      rewrite admin_only_granted by done. rewrite Hov.
      by rewrite (find_key_None LiveUpdate.id _ _ Hnin).
    + intros Hnin. unfold admin_delete_notification.
      rewrite admin_only_granted by done. rewrite Hov.
      by rewrite (find_key_None Notification.id _ _ Hnin).
    + intros Hin r.
      assert (Hr : r = redirect (delete_live_update (db c) id) (session c) []
                         ep_admin_dashboard).
      { subst r. unfold admin_delete_update.
        rewrite admin_only_granted by done. rewrite Hov.
        destruct (find_key_Some LiveUpdate.id _ _ Hin) as (x & -> & Hx).
        by rewrite Hx. }
      rewrite Hr. split_and!; try done.
      * apply (filter_key_gone LiveUpdate.id).
      * unfold admin_delete_update, next_ctx. simpl.
        rewrite admin_only_granted by done. rewrite Hov. simpl.
        by rewrite (find_key_None LiveUpdate.id _ _
                      (filter_key_gone LiveUpdate.id _ id)).
      * intros Hreach. simpl.
        apply (filter_key_length LiveUpdate.id); [|done].
        apply ascending_NoDup. by apply (reachable_boards_ok _ _ _ Hreach).
    + intros Hin r.
      assert (Hr : r = redirect (delete_notification (db c) id) (session c) []
                         ep_admin_dashboard).
      { subst r. unfold admin_delete_notification.
        rewrite admin_only_granted by done. rewrite Hov.
        destruct (find_key_Some Notification.id _ _ Hin) as (x & -> & Hx).
        by rewrite Hx. }
      rewrite Hr. split_and!; try done.
      * apply (filter_key_gone Notification.id).
      * unfold admin_delete_notification, next_ctx. simpl.
        rewrite admin_only_granted by done. rewrite Hov. simpl.
        by rewrite (find_key_None Notification.id _ _
                      (filter_key_gone Notification.id _ id)).
      * intros Hreach. simpl.
        apply (filter_key_length Notification.id); [|done].
        apply ascending_NoDup. by apply (reachable_boards_ok _ _ _ Hreach).
  - intros text. split.
    + unfold delete_live_update, insert_live_update, set_live_updates. simpl.
      rewrite filter_app, (filter_fresh_key LiveUpdate.id)
        by apply next_id_fresh.
      rewrite filter_cons, decide_False by (simpl; tauto).
      rewrite filter_nil, app_nil_r. by destruct (db c).
    + unfold delete_notification, insert_notification, set_notifications.
      simpl.
      rewrite filter_app, (filter_fresh_key Notification.id)
        by apply next_id_fresh.
      rewrite filter_cons, decide_False by (simpl; tauto).
      rewrite filter_nil, app_nil_r. by destruct (db c).
Qed.

End ContentBoards.

(** * Further properties: the public listings and the dashboard *)

Section Views.

Variable generate_password_hash : string -> string.
Variable check_password_hash : string -> string -> bool.

Implicit Types (st : Store) (c : Ctx).

Local Abbreviation reachable :=
  (reachable generate_password_hash check_password_hash).

(** X13. The leaderboard lists every submission once, lowest key first,
    and the landing page shows the row counts and the first three entries
    of that same list; neither writes anything.  On a reachable store the
    leaderboard is the Submission table in the order the rows were
    created, so the landing page shows the three earliest submissions. *)
Theorem leaderboard_and_home c :
  let listed := order_by_id_asc Submission.id (submissions (db c)) in
  leaderboard c = render_template c (leaderboard_html listed)
  /\ listed ≡ₚ submissions (db c)
  /\ StronglySorted (fun a b => Submission.id a <= Submission.id b) listed
  /\ home c
     = render_template c
         (index_html (length (users (db c))) (length (teams (db c)))
            (length (submissions (db c))) (take 3 listed))
  /\ length (take 3 listed) = Nat.min 3 (length (submissions (db c)))
  /\ take 3 listed `prefix_of` listed
  /\ (reachable (db c) ->
      listed = submissions (db c)
      /\ take 3 listed = take 3 (submissions (db c))).
Proof.
  intros listed. split_and!; try done.
  - apply order_asc_perm.
  - apply order_asc_sorted.
  - rewrite length_take. unfold listed.
    by rewrite (Permutation_length (order_asc_perm Submission.id _)).
  - apply prefix_take.
  - intros Hreach.
    assert (Heq : listed = submissions (db c)).
    { apply order_asc_ascending.
      apply (ok_submission_ids _ (reachable_store_ok _ _ _ Hreach)). }
    by rewrite Heq.
Qed.


Lemma submissions_of_found st uid s :
  store_ok st ->
  submission_by_user (submissions st) uid = Some s ->
  submissions_of uid st = [s] /\ Submission.user_id s = uid.
Proof.
  intros Hok Hfind.
  destruct (submissions_split _ _ _ (ok_one_submission _ Hok)
              (ascending_NoDup _ (ok_submission_ids _ Hok)) Hfind)
    as (l1 & l2 & Hss & Huid & Ho1 & Ho2 & _ & _).
  split; [|done]. unfold submissions_of.
  rewrite Hss, List.filter_app. simpl.
  rewrite Huid, Nat.eqb_refl. by rewrite !filter_user_none.
Qed.


End Views.

(** * Further properties: rows and requests that never come about *)

Section NeverHappens.

Variable generate_password_hash : string -> string.
Variable check_password_hash : string -> string -> bool.

Implicit Types (st : Store) (c : Ctx) (form : gmap string string)
  (g : Py.rng).

Local Abbreviation register := (register generate_password_hash).
Local Abbreviation handle :=
  (handle generate_password_hash check_password_hash).
Local Abbreviation reachable :=
  (reachable generate_password_hash check_password_hash).

(** X17. In every reachable store a user has at most one submission:
    no two Submission rows share an owner or a key, and the query the
    submit route and the dashboard use finds the one row of a user
    whenever the user has any. *)
Theorem one_submission_per_user st :
  reachable st ->
  NoDup (map Submission.user_id (submissions st))
  /\ NoDup (map Submission.id (submissions st))
  /\ (forall uid,
        length (submissions_of uid st) <= 1
        /\ (submission_by_user (submissions st) uid = None ->
            submissions_of uid st = [])
        /\ (forall s,
              submission_by_user (submissions st) uid = Some s ->
              submissions_of uid st = [s])).
Proof.
  intros Hreach. pose proof (reachable_store_ok _ _ _ Hreach) as Hok.
  assert (Hnone : forall uid,
            submission_by_user (submissions st) uid = None ->
            submissions_of uid st = []).
  { intros uid H. apply filter_user_none. by apply submission_by_user_None. }
  split_and!.
  - apply Hok.
  - apply ascending_NoDup, Hok.
  - intros uid. split_and!; [|by apply Hnone|].
    + destruct (submission_by_user (submissions st) uid) as [s|] eqn:Hs.
      * by rewrite (proj1 (submissions_of_found _ _ _ Hok Hs)).
      * rewrite (Hnone uid Hs). simpl. lia.
    + intros s Hs. apply (submissions_of_found _ _ _ Hok Hs).
Qed.

(** X18. A form that lacks a required field writes nothing.  A
    registration whose form lacks the name, email, phone, college or
    password never ends in success and leaves the store as it was, the
    team of the create path included; a submit without one of its four
    fields and a feedback without text or rating leave the store as it
    was, and for a logged-in user the POST ends in the server error. *)
Theorem incomplete_forms_write_nothing :
  (forall fuel g form c r,
     register fuel g POST form c = Some r ->
     ~ (exists n e p co pw, register_form_has form n e p co pw) ->
     r_db r = db c /\ r_flashes r <> [msg_registered])
  /\ (forall m form c,
        ~ (exists t d gh v, submit_form_has form t d gh v) ->
        r_db (submit m form c) = db c
        /\ (m = POST -> get_current_user c <> None ->
            submit m form c = abort c))
  /\ (forall m form c,
        ~ feedback_form_ok form ->
        r_db (feedback m form c) = db c
        /\ (m = POST -> get_current_user c <> None ->
            feedback m form c = abort c)).
Proof.
  split_and!.
  - intros fuel g form c r Hr Hmiss.
    apply register_outcome in Hr
      as [[_ ->]|[_ [->|[(_ & _ & _ & ->)|
           (pw & st1 & tid & u & Hpw & Hu & _ & _ & _)]]]]; try done.
    exfalso. apply Hmiss.
    destruct Hu as (Hn & He & Hp & Hco & _).
    exists (User.name u), (User.email u), (User.phone u), (User.college u), pw.
    by split_and!.
  - intros m form c Hmiss.
    assert (Hnone : forall uid, insert_submission (db c) (form !! "title")
              (form !! "desc") (form !! "github") (form !! "video") uid = None).
    { intros uid. unfold insert_submission.
      destruct (form !! "title") as [t|] eqn:?, (form !! "desc") as [d|] eqn:?,
        (form !! "github") as [gh|] eqn:?, (form !! "video") as [v|] eqn:?;
        try done.
      exfalso. apply Hmiss. by exists t, d, gh, v. }
    assert (Hnone' : forall id, update_submission (db c) id (form !! "title")
              (form !! "desc") (form !! "github") (form !! "video") = None).
    { intros id. unfold update_submission.
      destruct (form !! "title") as [t|] eqn:?, (form !! "desc") as [d|] eqn:?,
        (form !! "github") as [gh|] eqn:?, (form !! "video") as [v|] eqn:?;
        try done.
      exfalso. apply Hmiss. by exists t, d, gh, v. }
    unfold submit. destruct (get_current_user c) as [u|]; [|done].
    destruct m; [done|].
    destruct (submission_by_user _ _) as [sub|];
      by rewrite ?Hnone, ?Hnone'.
  - intros m form c Hmiss.
    assert (Hnone : forall uid, insert_feedback (db c) (form !! "text")
                      (form !! "rating") uid = None).
    { intros uid. unfold insert_feedback.
      destruct (form !! "text") as [t|] eqn:Ht,
        (form !! "rating") as [r|] eqn:Hr; try done.
      exfalso. apply Hmiss. unfold feedback_form_ok. rewrite Ht, Hr. eauto. }
    unfold feedback. destruct m; [done|].
    destruct (get_current_user c) as [u|]; [|done]. by rewrite Hnone.
Qed.

(** X19. Every Team row of a reachable store has at least one member,
    because a team is only ever stored together with the user who
    created it and users are never removed; and its [created_by] column
    is empty, because no route ever writes it. *)
Theorem teams_have_members st :
  reachable st ->
  forall t,
    In t (teams st) ->
    Team.created_by t = None
    /\ exists u, In u (users st) /\ User.team_id u = Some (Team.id t).
Proof.
  induction 1 as [|st sess fuel g rq r _ IH Hstep]; [done|].
  apply handle_effect in Hstep. simpl in Hstep.
  destruct Hstep as [| |st1 u Hst1|u row _ _ _ _|u sub t0 d gh v _ _|u f _ _
                    | | | | ]; simpl; try done.
  - unfold seed_sponsors. by destruct (_ =? _)%nat.
  - intros t Ht.
    assert (Hold : In t (teams st) ->
              Team.created_by t = None
              /\ exists u0, In u0 (users st ++ [u])
                   /\ User.team_id u0 = Some (Team.id t)).
    { intros Hin. destruct (IH t Hin) as [Hc (u0 & Hu0 & Htid)].
      split; [done|]. exists u0. split; [|done]. apply in_or_app. by left. }
    destruct Hst1 as [->|(t1 & -> & Htid & Hc)]; [by apply Hold|].
    simpl in Ht. apply in_app_or in Ht as [Ht|[<-|[]]]; [by apply Hold|].
    split; [done|]. exists u. split; [|done]. apply in_or_app. right. by left.
Qed.

(** X20. Logout really logs out.  Whatever the session was, after
    [/logout] the dashboard and the submit route redirect to the login
    view, a feedback POST is turned away, the feedback page lists
    nothing, and every admin route redirects to the admin login; none of
    these requests writes to the store. *)
Theorem logout_locks_out c :
  let c' := next_ctx (logout c) in
  db c' = db c
  /\ get_current_user c' = None
  /\ dashboard c' = redirect (db c) ∅ [msg_login_dashboard] ep_login
  /\ (forall m form,
        submit m form c' = redirect (db c) ∅ [msg_login_submit] ep_login)
  /\ (forall form,
        feedback POST form c'
        = redirect (db c) ∅ [msg_login_required] ep_login)
  /\ (forall form,
        feedback GET form c' = mkResult (db c) ∅ [] (Render (feedback_html [])))
  /\ (forall fuel g rq,
        admin_route rq = true ->
        handle fuel g rq c'
        = Some (redirect (db c) ∅ [msg_admin_required] ep_admin_login)).
Proof.
  intros c'.
  assert (Hanon : get_current_user c' = None) by done.
  assert (Hflag : is_admin (session c') = false) by done.
  split_and!;
    try (intros; unfold dashboard, submit, feedback; by rewrite ?Hanon).
  - intros fuel g rq Hroute.
    destruct rq; try discriminate Hroute; unfold handle; cbv beta iota;
      unfold admin_dashboard, admin_add_update, admin_add_notification,
        admin_delete_update, admin_delete_notification, admin_teams;
      by rewrite admin_only_refused.
Qed.

End NeverHappens.

(** * Worked instances of the further properties *)

(** Serving requests one after the other stays within the reachable
    stores. *)
Lemma reachable_run hash check reqs : forall st st',
  reachable hash check st -> run hash check reqs st = Some st' ->
  reachable hash check st'.
Proof.
  induction reqs as [|[[[sess fuel] g] rq] reqs IH]; intros st st' Hst;
    cbn [run].
  - by intros [= <-].
  - destruct (handle hash check fuel g rq (mkCtx st sess)) as [r|] eqn:Hr;
      [|done].
    apply IH. by eapply reachable_step.
Qed.

Lemma busy_run :
  run demo_hash demo_check busy_requests ada_store = Some busy_store.
Proof. vm_compute. reflexivity. Qed.

Lemma busy_store_reachable : reachable demo_hash demo_check busy_store.
Proof.
  exact (reachable_run _ _ busy_requests ada_store busy_store
           ada_store_reachable busy_run).
Qed.

Lemma grace_registers :
  handle demo_hash demo_check 0 all_A (Req_register POST grace_form)
    (mkCtx busy_store ∅)
  = Some (redirect grace_store ∅ [msg_registered] ep_login).
Proof. vm_compute. reflexivity. Qed.

Lemma ada_resubmits :
  handle demo_hash demo_check 0 all_A
    (Req_submit POST (submit_form "v3" "polished" "git/4" "vid/4"))
    (mkCtx busy_store {["user_id" := VInt 1]})
  = Some (redirect resubmitted_store {["user_id" := VInt 1]}
            [msg_saved] ep_dashboard).
Proof. vm_compute. reflexivity. Qed.

Lemma demo_hash_verifies pw : demo_check (demo_hash pw) pw = true.
Proof. unfold demo_check. apply String.eqb_refl. Qed.


(** X2 when Ada logs in. *)
Lemma login_success_witness :
  reachable demo_hash demo_check ada_store
  /\ In ada_user (users ada_store)
  /\ ada_login_form !! "email" = Some (User.email ada_user)
  /\ ada_login_form !! "password" = Some "engine"
  /\ demo_check (User.password_hash ada_user) "engine" = true
  /\ get_current_user
       (next_ctx (login demo_check POST ada_login_form (mkCtx ada_store ∅)))
     = Some ada_user.
Proof.
  assert (H1 : In ada_user (users ada_store)) by (left; reflexivity).
  assert (H2 : ada_login_form !! "email" = Some (User.email ada_user))
    by reflexivity.
  assert (H3 : ada_login_form !! "password" = Some "engine") by reflexivity.
  assert (H4 : demo_check (User.password_hash ada_user) "engine" = true)
    by reflexivity.
  split; [exact ada_store_reachable|].
  split; [exact H1|]. split; [exact H2|]. split; [exact H3|].
  split; [exact H4|].
  destruct (login_success demo_hash demo_check ada_store ∅ ada_login_form
              ada_user "engine" ada_store_reachable H1 H2 H3 H4)
    as (_ & _ & _ & _ & _ & _ & Hcur).
  exact Hcur.
Defined.

(** X4 when Ada registers and then logs in. *)
Lemma register_then_login_witness :
  (forall pw, demo_check (demo_hash pw) pw = true)
  /\ reachable demo_hash demo_check empty_store
  /\ register demo_hash 1 all_A POST ada_form (mkCtx empty_store ∅)
     = Some (redirect ada_store ∅ [msg_registered] ep_login)
  /\ exists u,
       User.email u = "ada@x.com"
       /\ get_current_user
            (next_ctx
               (login demo_check POST ada_login_form (mkCtx ada_store ∅)))
          = Some u.
Proof.
  split; [exact demo_hash_verifies|].
  split; [apply reachable_init|]. split; [exact ada_registers|].
  destruct (register_then_login demo_hash demo_check demo_hash_verifies
              empty_store ∅ ∅ 1 all_A ada_form ada_login_form
              (redirect ada_store ∅ [msg_registered] ep_login)
              "ada@x.com" "engine"
              (reachable_init demo_hash demo_check) ada_registers
              eq_refl eq_refl eq_refl eq_refl eq_refl)
    as (u & _ & Hmail & _ & _ & _ & Hcur).
  exists u. split; assumption.
Defined.

(** X5 when Charles joins Ada's team. *)
Lemma register_join_success_witness :
  register_form_has charles_form "Charles Babbage" "charles@x.com" "555-0101"
    "Cambridge" "difference"
  /\ charles_form !! "teamChoice" = Some "join"
  /\ charles_form !! "inviteCode" = Some "AAAAAA"
  /\ team_by_invite_code (teams ada_store) (Some "AAAAAA") = Some ada_team
  /\ user_by_email (users ada_store) (Some "charles@x.com") = None
  /\ length
       (members_of 1
          (set_users ada_store
             (users ada_store
              ++ [User.mk 2 "Charles Babbage" "charles@x.com" "555-0101"
                    "Cambridge" (demo_hash "difference") (Some 1)])))
     = 2.
Proof.
  assert (H1 : register_form_has charles_form "Charles Babbage"
                 "charles@x.com" "555-0101" "Cambridge" "difference")
    by (repeat split).
  assert (H2 : charles_form !! "teamChoice" = Some "join") by reflexivity.
  assert (H3 : charles_form !! "inviteCode" = Some "AAAAAA") by reflexivity.
  assert (H4 : team_by_invite_code (teams (db (mkCtx ada_store ∅)))
                 (Some "AAAAAA") = Some ada_team) by reflexivity.
  assert (H5 : user_by_email (users (db (mkCtx ada_store ∅)))
                 (Some "charles@x.com") = None) by reflexivity.
  split; [exact H1|]. split; [exact H2|]. split; [exact H3|].
  split; [exact H4|]. split; [exact H5|].
  destruct (register_join_success demo_hash 0 all_A charles_form
              (mkCtx ada_store ∅) _ _ _ _ _ _ _ H1 H2 H3 H4 H5)
    as (_ & _ & _ & _ & Hlen).
  exact Hlen.
Defined.

(** X6 at Ada's registration. *)
Lemma register_atomic_witness :
  register demo_hash 1 all_A POST ada_form (mkCtx empty_store ∅)
  = Some (redirect ada_store ∅ [msg_registered] ep_login)
  /\ feedbacks ada_store = feedbacks empty_store
  /\ submissions ada_store = submissions empty_store.
Proof.
  split; [exact ada_registers|].
  destruct (register_atomic demo_hash 1 all_A POST ada_form
              (mkCtx empty_store ∅) _ ada_registers)
    as (_ & Hs & Hf & _).
  split; assumption.
Defined.

(** X7 when Grace registers without a team. *)
Lemma register_without_team_witness :
  register_form_has grace_form "Grace Hopper" "grace@x.com" "555-0102"
    "Vassar" "cobol"
  /\ grace_form !! "teamChoice" <> Some "create"
  /\ grace_form !! "teamChoice" <> Some "join"
  /\ user_by_email (users ada_store) (Some "grace@x.com") = None
  /\ register demo_hash 0 all_A POST grace_form (mkCtx ada_store ∅)
     = Some (redirect
               (set_users ada_store
                  (users ada_store
                   ++ [User.mk 2 "Grace Hopper" "grace@x.com" "555-0102"
                         "Vassar" (demo_hash "cobol") None]))
               ∅ [msg_registered] ep_login).
Proof.
  assert (H1 : register_form_has grace_form "Grace Hopper" "grace@x.com"
                 "555-0102" "Vassar" "cobol") by (repeat split).
  assert (H2 : grace_form !! "teamChoice" <> Some "create") by discriminate.
  assert (H3 : grace_form !! "teamChoice" <> Some "join") by discriminate.
  assert (H4 : user_by_email (users (db (mkCtx ada_store ∅)))
                 (Some "grace@x.com") = None) by reflexivity.
  split; [exact H1|]. split; [exact H2|]. split; [exact H3|].
  split; [exact H4|].
  exact (register_without_team demo_hash 0 all_A grace_form
           (mkCtx ada_store ∅) _ _ _ _ _ H1 H2 H3 H4).
Defined.

(** X8 when Ada, no admin, asks for the team list. *)
Lemma admin_routes_refuse_witness :
  admin_route Req_admin_teams = true
  /\ is_admin (session ada_ctx) = false
  /\ handle demo_hash demo_check 0 all_A Req_admin_teams ada_ctx
     = Some (redirect ada_store (session ada_ctx) [msg_admin_required]
               ep_admin_login).
Proof.
  split; [reflexivity|]. split; [reflexivity|].
  exact (admin_routes_refuse demo_hash demo_check 0 all_A Req_admin_teams
           ada_ctx eq_refl eq_refl).
Defined.

(** X9 when Ada, logged in, also logs in as admin. *)
Lemma admin_login_logout_round_trip_witness :
  admin_form !! "email" = Some ADMIN_EMAIL
  /\ admin_form !! "password" = Some ADMIN_PASSWORD
  /\ is_admin (r_session (admin_login POST admin_form ada_ctx)) = true
  /\ get_current_user (next_ctx (admin_login POST admin_form ada_ctx))
     = get_current_user ada_ctx
  /\ r_session
       (admin_logout (next_ctx (admin_login POST admin_form ada_ctx)))
     = session ada_ctx.
Proof.
  assert (H1 : admin_form !! "email" = Some ADMIN_EMAIL) by reflexivity.
  assert (H2 : admin_form !! "password" = Some ADMIN_PASSWORD) by reflexivity.
  split; [exact H1|]. split; [exact H2|].
  destruct (admin_login_logout_round_trip admin_form ada_ctx H1 H2)
    as (_ & Hflag & _ & Hcur & _ & _ & _ & _ & _ & Hback).
  split; [exact Hflag|]. split; [exact Hcur|].
  apply Hback. reflexivity.
Defined.

(** X10 at an admin login. *)
Lemma session_entries_origin_witness :
  handle demo_hash demo_check 0 all_A (Req_admin_login POST admin_form)
    ada_ctx
  = Some (admin_login POST admin_form ada_ctx)
  /\ (is_admin (r_session (admin_login POST admin_form ada_ctx)) = true ->
      is_admin (session ada_ctx) = true
      \/ exists form,
           Req_admin_login POST admin_form = Req_admin_login POST form
           /\ form !! "email" = Some ADMIN_EMAIL
           /\ form !! "password" = Some ADMIN_PASSWORD).
Proof.
  split; [reflexivity|].
  exact (proj1 (session_entries_origin demo_hash demo_check 0 all_A
                  (Req_admin_login POST admin_form) ada_ctx _ eq_refl)).
Defined.


(** X12 at the portal in use: the admin deletes the notice, a key that
    is not there, and a key beyond SQLite's integers. *)
Lemma admin_delete_round_trip_witness :
  is_admin (session busy_admin_ctx) = true
  /\ int_overflows too_large = true
  /\ int_overflows 7 = false
  /\ int_overflows 1 = false
  /\ ~ In 7 (map LiveUpdate.id (live_updates (db busy_admin_ctx)))
  /\ In 1 (map LiveUpdate.id (live_updates (db busy_admin_ctx)))
  /\ reachable demo_hash demo_check (db busy_admin_ctx)
  /\ admin_delete_update too_large busy_admin_ctx = abort busy_admin_ctx
  /\ admin_delete_update 7 busy_admin_ctx
     = mkResult (db busy_admin_ctx) (session busy_admin_ctx) [] NotFound
  /\ admin_delete_update 1 busy_admin_ctx
     = redirect (delete_live_update (db busy_admin_ctx) 1)
         (session busy_admin_ctx) [] ep_admin_dashboard
  /\ S (length (live_updates (r_db (admin_delete_update 1 busy_admin_ctx))))
     = length (live_updates (db busy_admin_ctx))
  /\ delete_live_update (insert_live_update (db busy_admin_ctx) "Tea at four")
       (next_id (map LiveUpdate.id (live_updates (db busy_admin_ctx))))
     = db busy_admin_ctx.
Proof.
  assert (Hflag : is_admin (session busy_admin_ctx) = true) by reflexivity.
  assert (Hbig : int_overflows too_large = true).
  { apply int_overflows_spec. unfold too_large. rewrite N2Nat.id. lia. }
  assert (H7 : int_overflows 7 = false) by reflexivity.
  assert (H1 : int_overflows 1 = false) by reflexivity.
  assert (Hout : ~ In 7 (map LiveUpdate.id (live_updates (db busy_admin_ctx)))).
  { simpl. intros [H|[]]. discriminate H. }
  assert (Hin : In 1 (map LiveUpdate.id (live_updates (db busy_admin_ctx))))
    by (left; reflexivity).
  pose proof busy_store_reachable as Hreach.
  destruct (admin_delete_round_trip demo_hash demo_check too_large
              busy_admin_ctx Hflag) as (Hraise & _ & _).
  destruct (admin_delete_round_trip demo_hash demo_check 7 busy_admin_ctx
              Hflag) as (_ & Hmissing & _).
  destruct (admin_delete_round_trip demo_hash demo_check 1 busy_admin_ctx
              Hflag) as (_ & Hpresent & Hround).
  destruct (Hmissing H7) as (Hnotfound & _).
  destruct (Hpresent H1) as (_ & _ & Hdelete & _).
  destruct (Hdelete Hin) as (Hgone & _ & _ & _ & Hlen).
  split_and!; try assumption.
  - exact (proj1 (Hraise Hbig)).
  - exact (Hnotfound Hout).
  - exact (Hlen Hreach).
  - exact (proj1 (Hround "Tea at four")).
Defined.


(** X15 at the portal in use.  Grace registers: the two users, the
    team, the submissions, the feedback and the sponsors that were there
    are still there, in front of her row.  Ada submits a third time: her
    row is rewritten, and keeps its key and its owner. *)
Lemma handle_append_only_witness :
  handle demo_hash demo_check 0 all_A (Req_register POST grace_form)
    (mkCtx busy_store ∅)
  = Some (redirect grace_store ∅ [msg_registered] ep_login)
  /\ handle demo_hash demo_check 0 all_A
       (Req_submit POST (submit_form "v3" "polished" "git/4" "vid/4"))
       (mkCtx busy_store {["user_id" := VInt 1]})
     = Some (redirect resubmitted_store {["user_id" := VInt 1]}
               [msg_saved] ep_dashboard)
  /\ users busy_store = [ada_user; charles_user]
  /\ users grace_store = [ada_user; charles_user; grace_user]
  /\ submissions resubmitted_store
     = [ada_third_submission; charles_submission]
  /\ (users busy_store `prefix_of` users grace_store
      /\ teams busy_store `prefix_of` teams grace_store
      /\ feedbacks busy_store `prefix_of` feedbacks grace_store
      /\ sponsors busy_store `prefix_of` sponsors grace_store
      /\ map Submission.id (submissions busy_store)
         `prefix_of` map Submission.id (submissions grace_store)
      /\ map Submission.user_id (submissions busy_store)
         `prefix_of` map Submission.user_id (submissions grace_store))
  /\ (users busy_store `prefix_of` users resubmitted_store
      /\ teams busy_store `prefix_of` teams resubmitted_store
      /\ feedbacks busy_store `prefix_of` feedbacks resubmitted_store
      /\ sponsors busy_store `prefix_of` sponsors resubmitted_store
      /\ map Submission.id (submissions busy_store)
         `prefix_of` map Submission.id (submissions resubmitted_store)
      /\ map Submission.user_id (submissions busy_store)
         `prefix_of` map Submission.user_id (submissions resubmitted_store)).
Proof.
  pose proof grace_registers as Hgrace.
  pose proof ada_resubmits as Hada.
  split; [exact Hgrace|]. split; [exact Hada|].
  do 3 (split; [reflexivity|]). split.
  - exact (handle_append_only demo_hash demo_check 0 all_A
             (Req_register POST grace_form) (mkCtx busy_store ∅) _ Hgrace).
  - exact (handle_append_only demo_hash demo_check 0 all_A
             (Req_submit POST (submit_form "v3" "polished" "git/4" "vid/4"))
             (mkCtx busy_store {["user_id" := VInt 1]}) _ Hada).
Defined.

(** X16 when a visitor opens the sponsors page. *)
Lemma anonymous_request_witness :
  get_current_user (mkCtx ada_store ∅) = None
  /\ is_admin (session (mkCtx ada_store ∅)) = false
  /\ handle demo_hash demo_check 0 all_A Req_sponsors (mkCtx ada_store ∅)
     = Some (sponsors_page (mkCtx ada_store ∅))
  /\ submissions (r_db (sponsors_page (mkCtx ada_store ∅)))
     = submissions ada_store
  /\ feedbacks (r_db (sponsors_page (mkCtx ada_store ∅)))
     = feedbacks ada_store.
Proof.
  assert (H1 : get_current_user (mkCtx ada_store ∅) = None) by reflexivity.
  assert (H2 : is_admin (session (mkCtx ada_store ∅)) = false)
    by reflexivity.
  assert (H3 : handle demo_hash demo_check 0 all_A Req_sponsors
                 (mkCtx ada_store ∅)
               = Some (sponsors_page (mkCtx ada_store ∅))) by reflexivity.
  split; [exact H1|]. split; [exact H2|]. split; [exact H3|].
  destruct (anonymous_request demo_hash demo_check 0 all_A Req_sponsors
              (mkCtx ada_store ∅) _ H1 H2 H3)
    as (Hs & Hf & _).
  split; assumption.
Defined.

(** X17 at the portal in use: Ada has submitted twice and Charles once,
    and each of them has one row; Grace, who is not there, has none. *)
Lemma one_submission_per_user_witness :
  reachable demo_hash demo_check busy_store
  /\ submissions busy_store = [ada_submission; charles_submission]
  /\ submission_by_user (submissions busy_store) 1 = Some ada_submission
  /\ submission_by_user (submissions busy_store) 2 = Some charles_submission
  /\ submission_by_user (submissions busy_store) 3 = None
  /\ NoDup (map Submission.user_id (submissions busy_store))
  /\ submissions_of 1 busy_store = [ada_submission]
  /\ submissions_of 2 busy_store = [charles_submission]
  /\ submissions_of 3 busy_store = []
  /\ length (submissions_of 1 busy_store) <= 1.
Proof.
  assert (H1 : submission_by_user (submissions busy_store) 1
               = Some ada_submission) by reflexivity.
  assert (H2 : submission_by_user (submissions busy_store) 2
               = Some charles_submission) by reflexivity.
  assert (H3 : submission_by_user (submissions busy_store) 3 = None)
    by reflexivity.
  destruct (one_submission_per_user demo_hash demo_check busy_store
              busy_store_reachable)
    as (Howners & _ & Hone).
  split_and!; try assumption.
  - exact busy_store_reachable.
  - reflexivity.
  - exact (proj2 (proj2 (Hone 1)) _ H1).
  - exact (proj2 (proj2 (Hone 2)) _ H2).
  - exact (proj1 (proj2 (Hone 3)) H3).
  - exact (proj1 (Hone 1)).
Defined.

(** X19 at Ada's team. *)
Lemma teams_have_members_witness :
  reachable demo_hash demo_check ada_store
  /\ In ada_team (teams ada_store)
  /\ exists u,
       In u (users ada_store) /\ User.team_id u = Some (Team.id ada_team).
Proof.
  assert (Hin : In ada_team (teams ada_store)) by (left; reflexivity).
  split; [exact ada_store_reachable|]. split; [exact Hin|].
  exact (proj2 (teams_have_members demo_hash demo_check ada_store
                  ada_store_reachable ada_team Hin)).
Defined.
